(** * PLC simulator: the interpreter, the default controller and the
      register bridge of [src/plc], embedded in Rocq.

    The Python sources are rendered as follows.
    - Python values that reach the interpreter ([None], [bool], [int],
      [float]) are the type [Py.value]; floats are IEEE binary64
      (the kernel's primitive floats), integers are unbounded.
    - Python dictionaries with string keys are [gmap string _].
    - Methods that read or write [self] are functions in a state and
      exception monad over the record [PLCRuntime]; the module-level
      [logger] is the field [log] of that record. *)

From Stdlib Require Import ZArith Floats Lia.
From stdpp Require Import gmap strings.

Set Warnings "-register-all".

Local Open Scope Z_scope.

(** ** Python values and the operators the sources apply to them *)

Module Py.

Inductive value : Type :=
| VNone
| VBool (b : bool)
| VInt (z : Z)
| VFloat (f : float).

Inductive exn : Type :=
| TypeError
| KeyError (key : string)
| ValueError
| OverflowError
| ZeroDivisionError.

Inductive outcome (A : Type) : Type :=
| Ok (a : A)
| Raise (e : exn).
Arguments Ok {A} a.
Arguments Raise {A} e.

(** [bool] is a subclass of [int]: in arithmetic and comparisons [True]
    is 1 and [False] is 0. *)
Inductive num : Type :=
| NInt (z : Z)
| NFloat (f : float).

Definition as_num (v : value) : option num :=
  match v with
  | VNone => None
  | VBool b => Some (NInt (if b then 1 else 0))
  | VInt z => Some (NInt z)
  | VFloat f => Some (NFloat f)
  end.

(** [float(z)] for an integer: round to nearest even, [OverflowError]
    when the integer is too large for a binary64. *)
Definition float_of_Z (z : Z) : outcome float :=
  match binary_normalize prec emax z 0 false with
  | S754_infinity _ => Raise OverflowError
  | sf => Ok (SF2Prim sf)
  end.

(** [int(f)] for a float: truncation toward zero. *)
Definition Z_of_float (f : float) : outcome Z :=
  match Prim2SF f with
  | S754_nan => Raise ValueError
  | S754_infinity _ => Raise OverflowError
  | S754_zero _ => Ok 0
  | S754_finite s m e =>
      let a := Z.shiftl (Zpos m) e in
      Ok (if s then - a else a)
  end.

(** Exact comparison of an integer with a float, as Python does it (no
    conversion of the integer); [None] when the float is a NaN. *)
Definition Z_float_compare (z : Z) (f : float) : option comparison :=
  match Prim2SF f with
  | S754_nan => None
  | S754_infinity s => Some (if s then Gt else Lt)
  | S754_zero _ => Some (z ?= 0)
  | S754_finite s m e =>
      let a := if s then Zneg m else Zpos m in
      Some (if 0 <=? e then z ?= Z.shiftl a e else Z.shiftl z (- e) ?= a)
  end.

Definition float_compare (f g : float) : option comparison :=
  match PrimFloat.compare f g with
  | FEq => Some Eq
  | FLt => Some Lt
  | FGt => Some Gt
  | FNotComparable => None
  end.

Definition num_compare (a b : num) : option comparison :=
  match a, b with
  | NInt x, NInt y => Some (x ?= y)
  | NInt x, NFloat g => Z_float_compare x g
  | NFloat f, NInt y => option_map CompOpp (Z_float_compare y f)
  | NFloat f, NFloat g => float_compare f g
  end.

(** [bool(v)]. *)
Definition truthy (v : value) : bool :=
  match v with
  | VNone => false
  | VBool b => b
  | VInt z => negb (z =? 0)
  | VFloat f => negb (PrimFloat.eqb f 0%float)
  end.

(** [a == b] and [a != b]. *)
Definition eq (a b : value) : bool :=
  match as_num a, as_num b with
  | Some x, Some y =>
      match num_compare x y with Some Eq => true | _ => false end
  | None, None => true
  | _, _ => false
  end.

Definition ne (a b : value) : bool := negb (eq a b).

(** [a < b], [a <= b], [a > b], [a >= b]: [TypeError] when an operand
    is [None], [False] when one is a NaN. *)
Definition ordering (test : comparison -> bool) (a b : value) : outcome value :=
  match as_num a, as_num b with
  | Some x, Some y =>
      Ok (VBool (match num_compare x y with Some c => test c | None => false end))
  | _, _ => Raise TypeError
  end.

Definition lt := ordering (fun c => match c with Lt => true | _ => false end).
Definition le := ordering (fun c => match c with Gt => false | _ => true end).
Definition gt := ordering (fun c => match c with Gt => true | _ => false end).
Definition ge := ordering (fun c => match c with Lt => false | _ => true end).

(** [a + b], [a - b], [a * b]: integer when both operands are integers
    (or booleans), float otherwise. *)
Definition arith (fz : Z -> Z -> Z) (ff : float -> float -> float)
    (a b : value) : outcome value :=
  match as_num a, as_num b with
  | Some (NInt x), Some (NInt y) => Ok (VInt (fz x y))
  | Some (NInt x), Some (NFloat g) =>
      match float_of_Z x with
      | Ok f => Ok (VFloat (ff f g))
      | Raise e => Raise e
      end
  | Some (NFloat f), Some (NInt y) =>
      match float_of_Z y with
      | Ok g => Ok (VFloat (ff f g))
      | Raise e => Raise e
      end
  | Some (NFloat f), Some (NFloat g) => Ok (VFloat (ff f g))
  | _, _ => Raise TypeError
  end.

Definition add := arith Z.add PrimFloat.add.
Definition sub := arith Z.sub PrimFloat.sub.
Definition mul := arith Z.mul PrimFloat.mul.

(** [x / y] for two integers: the correctly rounded quotient. *)
Definition Z_truediv (x y : Z) : outcome float :=
  let s := xorb (x <? 0) (y <? 0) in
  match Z.abs x, Z.abs y with
  | _, Z0 => Raise ZeroDivisionError
  | Zpos mx, Zpos my =>
      match SFdiv prec emax (S754_finite s mx 0) (S754_finite false my 0) with
      | S754_infinity _ => Raise OverflowError
      | sf => Ok (SF2Prim sf)
      end
  | _, _ => Ok (if s then neg_zero else zero)
  end.

(** [f / g] for two floats. *)
Definition float_truediv (f g : float) : outcome float :=
  if PrimFloat.eqb g 0%float then Raise ZeroDivisionError else Ok (f / g)%float.

(** [a / b], true division: two integers are divided exactly and rounded
    once; otherwise both operands are converted to floats first. *)
Definition truediv (a b : value) : outcome value :=
  match as_num a, as_num b with
  | Some (NInt x), Some (NInt y) =>
      match Z_truediv x y with
      | Ok q => Ok (VFloat q)
      | Raise e => Raise e
      end
  | Some x, Some y =>
      let to_float n := match n with NInt z => float_of_Z z | NFloat f => Ok f end in
      match to_float x with
      | Ok f =>
          match to_float y with
          | Ok g =>
              match float_truediv f g with
              | Ok q => Ok (VFloat q)
              | Raise e => Raise e
              end
          | Raise e => Raise e
          end
      | Raise e => Raise e
      end
  | _, _ => Raise TypeError
  end.

(** [-a]. *)
Definition neg (a : value) : outcome value :=
  match as_num a with
  | Some (NInt x) => Ok (VInt (- x))
  | Some (NFloat f) => Ok (VFloat (- f)%float)
  | None => Raise TypeError
  end.

(** [int(a)]. *)
Definition int (a : value) : outcome Z :=
  match as_num a with
  | Some (NInt x) => Ok x
  | Some (NFloat f) => Z_of_float f
  | None => Raise TypeError
  end.

(** [a and b], [a or b] once both operands are values. *)
Definition and_ (a b : value) : value := if truthy a then b else a.
Definition or_ (a b : value) : value := if truthy a then a else b.

Definition is_bool (v : value) : bool :=
  match v with VBool _ => true | _ => false end.

End Py.

(** ** The parsed program ([st_parser.py])

    The transformer builds expressions and statements as dictionaries
    tagged by ['type'] (and ['op']); they are the constructors below. *)

Inductive binary_op : Type := OpAdd | OpSub | OpMul | OpDiv.
Inductive comparison_op : Type := OpGt | OpLt | OpGe | OpLe | OpEq | OpNe.
Inductive logical_op : Type := OpAND | OpOR.
Inductive unary_op : Type := OpNOT | OpNeg.

Inductive expr : Type :=
| Literal (value : Py.value)
| VariableRef (name : string)
| BinaryOp (op : binary_op) (left right : expr)
| Comparison (op : comparison_op) (left right : expr)
| LogicalOp (op : logical_op) (left right : expr)
| UnaryOp (op : unary_op) (operand : expr)
| FunctionCallExpr (name : string) (args : list expr).

Inductive statement : Type :=
| Assignment (target : string) (value : expr)
| IfStatement (condition : expr) (then_block : list statement)
    (elsif_clauses : list (expr * list statement))
    (else_block : option (list statement))
| FunctionCall (name : string) (args : list expr).

(** [initial_value] of a declaration: what the parser stores is the
    literal's dictionary; [_get_default_value] also accepts a bare value. *)
Inductive initial : Type :=
| InitExpr (e : expr)
| InitValue (v : Py.value).

(** The dataclass [Variable] of [st_parser.py]. *)
Record ProgramVariable : Type := {
  var_name : string;
  var_type : string;
  initial_value : option initial;
  is_input : bool;
  is_output : bool
}.

(** The dataclass [Program]; [variables] is a dictionary keyed by name. *)
Record Program : Type := {
  program_name : string;
  variables : gmap string ProgramVariable;
  statements : list statement
}.

(** ** Memory and runtime state ([plc_runtime.py]) *)

(** The dataclass [PLCMemory]: one dictionary per variable class. *)
Record PLCMemory : Type := {
  inputs : gmap string Py.value;
  outputs : gmap string Py.value;
  internal : gmap string Py.value
}.

(** What the sources hand to [logger]. *)
Inductive log_record : Type :=
| LogVariableNotFound (name : string)      (* warning, [get_value] *)
| LogCannotAssignInput (target : string)   (* warning, [_execute_statement] *)
| LogFunctionCall (name : string)          (* debug, [_execute_function_call] *)
| LogCycleError (e : Py.exn)               (* error, [execute_cycle] *)
| LogNoProgram.                            (* error, [_initialize_memory] *)

(** [last_cycle_time] is wall-clock time and is left out. *)
Record PLCRuntime : Type := {
  program : option Program;
  memory : PLCMemory;
  cycle_count : Z;
  system_enabled : Py.value;
  log : list log_record
}.

(** Field updates: [self.memory...], the log, and [d[k] = v] on each of
    the three dictionaries. *)
Definition with_memory (f : PLCMemory -> PLCMemory) (rt : PLCRuntime) : PLCRuntime :=
  {| program := program rt; memory := f (memory rt);
     cycle_count := cycle_count rt; system_enabled := system_enabled rt;
     log := log rt |}.

Definition with_log (r : log_record) (rt : PLCRuntime) : PLCRuntime :=
  {| program := program rt; memory := memory rt;
     cycle_count := cycle_count rt; system_enabled := system_enabled rt;
     log := log rt ++ [r] |}.

Definition set_inputs (k : string) (v : Py.value) (m : PLCMemory) : PLCMemory :=
  {| inputs := <[k := v]> (inputs m); outputs := outputs m; internal := internal m |}.
Definition set_outputs (k : string) (v : Py.value) (m : PLCMemory) : PLCMemory :=
  {| inputs := inputs m; outputs := <[k := v]> (outputs m); internal := internal m |}.
Definition set_internal (k : string) (v : Py.value) (m : PLCMemory) : PLCMemory :=
  {| inputs := inputs m; outputs := outputs m; internal := <[k := v]> (internal m) |}.

(** A method that returns or raises, and leaves a state [S] behind. *)
Definition StateExn (S A : Type) : Type := S -> Py.outcome A * S.

(** [return a], and running [k] on the result of [c] unless [c] raised. *)
Definition ret {S A : Type} (a : A) : StateExn S A := fun s => (Py.Ok a, s).
Definition bind {S A B : Type} (c : StateExn S A) (k : A -> StateExn S B) : StateExn S B :=
  fun s =>
    match c s with
    | (Py.Ok a, s') => k a s'
    | (Py.Raise e, s') => (Py.Raise e, s')
    end.

Notation "'let*' x ':=' c 'in' k" := (bind c (fun x => k))
  (at level 10, x name, c at level 100, k at level 200).
Notation "c ';;' k" := (bind c (fun _ => k))
  (at level 100, k at level 200, right associativity).

(** An operator's outcome as a step, [self], and an update of [self]. *)
Definition lift {S A : Type} (o : Py.outcome A) : StateExn S A := fun s => (o, s).
Definition self {S : Type} : StateExn S S := fun s => (Py.Ok s, s).
Definition update {S : Type} (f : S -> S) : StateExn S unit := fun s => (Py.Ok tt, f s).

(** Methods of [PLCRuntime]. *)
Abbreviation M := (StateExn PLCRuntime).

Definition logger (r : log_record) : M unit := update (with_log r).

(** [d[k]] on a dictionary: [KeyError] when the key is absent. *)
Definition getitem (d : gmap string Py.value) (k : string) : Py.outcome Py.value :=
  match d !! k with
  | Some v => Py.Ok v
  | None => Py.Raise (Py.KeyError k)
  end.

(** [PLCMemory.get_value] *)
Definition get_value (name : string) : M Py.value := fun rt =>
  match inputs (memory rt) !! name with
  | Some v => (Py.Ok v, rt)
  | None =>
      match outputs (memory rt) !! name with
      | Some v => (Py.Ok v, rt)
      | None =>
          match internal (memory rt) !! name with
          | Some v => (Py.Ok v, rt)
          | None => (Py.Ok Py.VNone, with_log (LogVariableNotFound name) rt)
          end
      end
  end.

(** [PLCMemory.set_value] *)
Definition set_value (name : string) (value : Py.value) (var_type : string) : M unit :=
  if decide (var_type = "input") then update (with_memory (set_inputs name value))
  else if decide (var_type = "output") then update (with_memory (set_outputs name value))
  else update (with_memory (set_internal name value)).

(** [PLCRuntime._evaluate_expression] *)
Fixpoint _evaluate_expression (e : expr) : M Py.value :=
  match e with
  | Literal v => ret v
  | VariableRef name => get_value name
  | BinaryOp op l r =>
      let* left := _evaluate_expression l in
      let* right := _evaluate_expression r in
      match op with
      | OpAdd => lift (Py.add left right)
      | OpSub => lift (Py.sub left right)
      | OpMul => lift (Py.mul left right)
      | OpDiv =>
          if Py.ne right (Py.VInt 0) then lift (Py.truediv left right)
          else ret (Py.VInt 0)
      end
  | Comparison op l r =>
      let* left := _evaluate_expression l in
      let* right := _evaluate_expression r in
      match op with
      | OpGt => lift (Py.gt left right)
      | OpLt => lift (Py.lt left right)
      | OpGe => lift (Py.ge left right)
      | OpLe => lift (Py.le left right)
      | OpEq => ret (Py.VBool (Py.eq left right))
      | OpNe => ret (Py.VBool (Py.ne left right))
      end
  | LogicalOp op l r =>
      let* left := _evaluate_expression l in
      let* right := _evaluate_expression r in
      match op with
      | OpAND => ret (Py.and_ left right)
      | OpOR => ret (Py.or_ left right)
      end
  | UnaryOp op x =>
      let* operand := _evaluate_expression x in
      match op with
      | OpNOT => ret (Py.VBool (negb (Py.truthy operand)))
      | OpNeg => lift (Py.neg operand)
      end
  | FunctionCallExpr _ _ => ret Py.VNone
  end.

(** [for stmt in block: self._execute_statement(stmt)] *)
Definition execute_block (exec : statement -> M unit) : list statement -> M unit :=
  fix go (block : list statement) : M unit :=
    match block with
    | [] => ret tt
    | stmt :: rest => exec stmt;; go rest
    end.

(** The ELSIF loop and the ELSE block of [_execute_if_statement]:
    the first clause whose condition is true runs its block and returns. *)
Definition execute_elsif (exec : statement -> M unit)
    (else_block : option (list statement)) :
    list (expr * list statement) -> M unit :=
  fix go (clauses : list (expr * list statement)) : M unit :=
    match clauses with
    | [] =>
        match else_block with
        | Some (s :: b) => execute_block exec (s :: b)
        | _ => ret tt
        end
    | (cond, block) :: rest =>
        let* elsif_condition := _evaluate_expression cond in
        if Py.truthy elsif_condition then execute_block exec block
        else go rest
    end.

(** [PLCRuntime._execute_function_call] *)
Definition _execute_function_call (name : string) : M unit :=
  logger (LogFunctionCall name).

(** [PLCRuntime._execute_statement], with [_execute_if_statement] *)
Fixpoint _execute_statement (s : statement) : M unit :=
  match s with
  | Assignment target e =>
      let* value := _evaluate_expression e in
      let* rt := self in
      if decide (is_Some (outputs (memory rt) !! target)) then
        set_value target value "output"
      else if decide (is_Some (inputs (memory rt) !! target)) then
        logger (LogCannotAssignInput target)
      else set_value target value "internal"
  | IfStatement c then_block elsif_clauses else_block =>
      let* condition := _evaluate_expression c in
      if Py.truthy condition then execute_block _execute_statement then_block
      else execute_elsif _execute_statement else_block elsif_clauses
  | FunctionCall name _ => _execute_function_call name
  end.

(** [PLCRuntime._execute_if_statement], the IF case above by itself. *)
Definition _execute_if_statement (c : expr) (then_block : list statement)
    (elsif_clauses : list (expr * list statement))
    (else_block : option (list statement)) : M unit :=
  _execute_statement (IfStatement c then_block elsif_clauses else_block).

(** [PLCRuntime._get_default_value] *)
Definition defaults : gmap string Py.value :=
  {[ "BOOL" := Py.VBool false; "INT" := Py.VInt 0;
     "REAL" := Py.VFloat 0; "TIME" := Py.VInt 0 ]}.

Definition _get_default_value (type_name : string) (initial_value : option initial) : Py.value :=
  let by_type := default Py.VNone (defaults !! type_name) in
  match initial_value with
  | None | Some (InitValue Py.VNone) => by_type
  | Some (InitExpr (Literal v)) => v
  | Some (InitExpr _) => by_type
  | Some (InitValue v) => v
  end.

(** [PLCRuntime._initialize_memory]: the loop over [program.variables]. *)
Definition initialize_variable (var_name : string) (var : ProgramVariable)
    (m : PLCMemory) : PLCMemory :=
  let v := _get_default_value (var_type var) (initial_value var) in
  if is_input var then set_inputs var_name v m
  else if is_output var then set_outputs var_name v m
  else set_internal var_name v m.

Definition _initialize_memory : M unit :=
  let* rt := self in
  match program rt with
  | None => logger LogNoProgram
  | Some p => update (with_memory (fun m => map_fold initialize_variable m (variables p)))
  end.

(** [PLCRuntime._initialize_default_memory] *)
Definition default_inputs : gmap string Py.value :=
  {[ "SystemEnable" := Py.VBool false;
     "RoomTemperature" := Py.VFloat 20;
     "RoomHumidity" := Py.VFloat 50;
     "SetpointTemp" := Py.VFloat 22;
     "SetpointHumidity" := Py.VFloat 45;
     "TempDeadband" := Py.VFloat 1;
     "HumidityDeadband" := Py.VFloat 5 ]}.

Definition default_outputs : gmap string Py.value :=
  {[ "FanSpeed" := Py.VInt 0;
     "ChillerOn" := Py.VBool false;
     "SystemStatus" := Py.VInt 0;
     "AlarmActive" := Py.VBool false ]}.

Definition default_internal : gmap string Py.value :=
  {[ "TempError" := Py.VFloat 0;
     "HumidityError" := Py.VFloat 0;
     "CoolingRequired" := Py.VBool false;
     "DehumidRequired" := Py.VBool false ]}.

Definition _initialize_default_memory : M unit :=
  update (with_memory (fun _ =>
    {| inputs := default_inputs; outputs := default_outputs;
       internal := default_internal |})).

(** [PLCRuntime.__init__] *)
Definition PLCRuntime_init (program : option Program) : PLCRuntime :=
  let rt := {| program := program;
               memory := {| inputs := ∅; outputs := ∅; internal := ∅ |};
               cycle_count := 0;
               system_enabled := Py.VBool false;
               log := [] |} in
  match program with
  | Some _ => snd (_initialize_memory rt)
  | None => snd (_initialize_default_memory rt)
  end.

(** [PLCRuntime._execute_default_logic] *)
Definition set_output (k : string) (v : Py.value) : M unit :=
  update (with_memory (set_outputs k v)).
Definition set_internal_var (k : string) (v : Py.value) : M unit :=
  update (with_memory (set_internal k v)).
Definition input (k : string) : M Py.value :=
  let* rt := self in lift (getitem (inputs (memory rt)) k).

Definition _execute_default_logic : M unit :=
  let* rt := self in
  if negb (Py.truthy (system_enabled rt)) then
    set_output "FanSpeed" (Py.VInt 0);;
    set_output "ChillerOn" (Py.VBool false);;
    set_output "SystemStatus" (Py.VInt 0)
  else
    let* room_temperature := input "RoomTemperature" in
    let* setpoint_temp := input "SetpointTemp" in
    let* temp_error := lift (Py.sub room_temperature setpoint_temp) in
    let* room_humidity := input "RoomHumidity" in
    let* setpoint_humidity := input "SetpointHumidity" in
    let* humidity_error := lift (Py.sub room_humidity setpoint_humidity) in
    set_internal_var "TempError" temp_error;;
    set_internal_var "HumidityError" humidity_error;;
    let* temp_deadband := input "TempDeadband" in
    let* cooling_required := lift (Py.gt temp_error temp_deadband) in
    let* humidity_deadband := input "HumidityDeadband" in
    let* dehumid_required := lift (Py.gt humidity_error humidity_deadband) in
    set_internal_var "CoolingRequired" cooling_required;;
    set_internal_var "DehumidRequired" dehumid_required;;
    if Py.truthy (Py.or_ cooling_required dehumid_required) then
      set_output "ChillerOn" (Py.VBool true);;
      set_output "SystemStatus" (Py.VInt 1);;
      let* fan_speed :=
        if Py.truthy cooling_required then
          let* scaled := lift (Py.mul temp_error (Py.VInt 20)) in
          let* k := lift (Py.int scaled) in
          ret (Z.min 100 (Z.max 30 k))
        else ret 50 in
      set_output "FanSpeed" (Py.VInt fan_speed)
    else
      set_output "ChillerOn" (Py.VBool false);;
      set_output "FanSpeed" (Py.VInt 20);;
      set_output "SystemStatus" (Py.VInt 2).

(** [PLCRuntime.execute_cycle]: the body of the [try], then the handler. *)
Definition cycle_body : M unit :=
  let* rt := self in
  update (fun rt =>
    {| program := program rt; memory := memory rt; cycle_count := cycle_count rt;
       system_enabled := default (Py.VBool false) (inputs (memory rt) !! "SystemEnable");
       log := log rt |});;
  match program rt with
  | Some p =>
      match statements p with
      | [] => _execute_default_logic
      | stmts => execute_block _execute_statement stmts
      end
  | None => _execute_default_logic
  end.

Definition begin_cycle (rt : PLCRuntime) : PLCRuntime :=
  {| program := program rt; memory := memory rt;
     cycle_count := cycle_count rt + 1;
     system_enabled := system_enabled rt; log := log rt |}.

Definition execute_cycle (rt : PLCRuntime) : PLCRuntime :=
  match cycle_body (begin_cycle rt) with
  | (Py.Ok _, rt') => rt'
  | (Py.Raise e, rt') =>
      with_memory (set_outputs "AlarmActive" (Py.VBool true))
        (with_log (LogCycleError e) rt')
  end.

(** ** The register bridge ([modbus_interface.py]) and the scan loop ([main.py]) *)

(** [ModbusInterface.register_map] *)
Definition register_map : gmap string Z :=
  list_to_map
    [ ("SystemEnable", 40001); ("SetpointTemp", 40002);
      ("SetpointHumidity", 40003); ("TempDeadband", 40004);
      ("HumidityDeadband", 40005);
      ("RoomTemperature", 40101); ("RoomHumidity", 40102);
      ("FanSpeed", 40103); ("ChillerOn", 40104);
      ("SystemStatus", 40105); ("AlarmActive", 40106);
      ("SensorTemp", 40201); ("SensorHumidity", 40202);
      ("ActuatorFanSpeed", 40301); ("ActuatorChiller", 40302) ].

(** [self.register_map[name] - 40001], for the names the sources write
    out, all of them keys of the map. *)
Definition address (name : string) : Z := default 0 (register_map !! name) - 40001.

(** The simulator with its bridge. [ModbusInterface.plc_runtime] is the
    object [PLCSimulator.runtime], so there is one field for both.
    [holding_registers] is the block [ModbusSequentialDataBlock(0, [0] * 1000)]
    of the server context (zero mode: word [a] is at index [a]); the
    supervisory client reads and writes it through the server.
    [sent_to_plant] collects what [write_outputs] writes to the plant. *)
Record PLCSimulator : Type := {
  runtime : PLCRuntime;
  holding_registers : list Z;
  client : bool;
  sent_to_plant : list (Z * Z)
}.

Abbreviation B := (StateExn PLCSimulator).

Definition on_runtime (f : PLCRuntime -> PLCRuntime) : B unit :=
  update (fun sim =>
    {| runtime := f (runtime sim); holding_registers := holding_registers sim;
       client := client sim; sent_to_plant := sent_to_plant sim |}).

Definition on_registers (f : list Z -> list Z) (sim : PLCSimulator) : PLCSimulator :=
  {| runtime := runtime sim; holding_registers := f (holding_registers sim);
     client := client sim; sent_to_plant := sent_to_plant sim |}.

(** [context.getValues(3, address, 1)[0]] and [context.setValues(3, address, [value])] *)
Definition word (regs : list Z) (address : Z) : Z := default 0 (regs !! Z.to_nat address).
Definition getValues (address : Z) : B Z :=
  let* sim := self in ret (word (holding_registers sim) address).
Definition setValues (address value : Z) : B unit :=
  update (on_registers <[Z.to_nat address := value]>).

(** [except Exception as e: logger.error(...)] around a method body. *)
Definition try_except {S : Type} (body : StateExn S unit) (s : S) : S := snd (body s).

(** [ModbusInterface._initialize_datastore] *)
Definition _initialize_datastore : list Z :=
  <[Z.to_nat (address "HumidityDeadband") := 50]>
    (<[Z.to_nat (address "TempDeadband") := 10]>
      (<[Z.to_nat (address "SetpointHumidity") := 450]>
        (<[Z.to_nat (address "SetpointTemp") := 220]> (replicate 1000 0)))).

(** [ModbusInterface._write_register], [ModbusInterface._read_register] *)
Definition _write_register (name : string) (value : Z) : B unit :=
  match register_map !! name with
  | Some a => setValues (a - 40001) value
  | None => ret tt
  end.

Definition _read_register (name : string) : B Z :=
  match register_map !! name with
  | Some a => getValues (a - 40001)
  | None => ret 0
  end.

Definition set_input (k : string) (v : Py.value) : B unit :=
  on_runtime (with_memory (set_inputs k v)).

(** [ModbusInterface.read_inputs]; [reply] is what the plant answers to
    the read of two registers at [SensorTemp]: the two words, or [None]
    for an error reply or a failed request. [mirror_sensors] is the
    update of the status registers at the end of the [try]. *)
Definition mirror_sensors (temp humidity : Py.value) : B unit :=
  let* t10 := lift (Py.mul temp (Py.VInt 10)) in
  let* t := lift (Py.int t10) in
  _write_register "RoomTemperature" t;;
  let* h10 := lift (Py.mul humidity (Py.VInt 10)) in
  let* h := lift (Py.int h10) in
  _write_register "RoomHumidity" h.

Definition read_inputs (reply : option (Z * Z)) (sim : PLCSimulator) : PLCSimulator :=
  if negb (client sim) then sim
  else
    match reply with
    | None => sim
    | Some (r0, r1) =>
        try_except (let* temp := lift (Py.truediv (Py.VInt r0) (Py.VFloat 10)) in
             let* humidity := lift (Py.truediv (Py.VInt r1) (Py.VFloat 10)) in
             set_input "RoomTemperature" temp;;
             set_input "RoomHumidity" humidity;;
             mirror_sensors temp humidity) sim
    end.

(** [ModbusInterface.write_outputs] *)
Definition write_outputs (sim : PLCSimulator) : PLCSimulator :=
  if negb (client sim) then sim
  else
    try_except (let* sim := self in
         let out := outputs (memory (runtime sim)) in
         let* fan_speed := lift (Py.int (default (Py.VInt 0) (out !! "FanSpeed"))) in
         let* chiller_on := lift (Py.int (default (Py.VBool false) (out !! "ChillerOn"))) in
         update (fun sim =>
           {| runtime := runtime sim; holding_registers := holding_registers sim;
              client := client sim;
              sent_to_plant := sent_to_plant sim ++ [(fan_speed, chiller_on)] |})) sim.

(** [ModbusInterface.update_server_registers]: first the command block
    is copied into the inputs, then the outputs are published, all in
    one [try]. *)
Definition scaled_command (name : string) : B unit :=
  let* raw := getValues (address name) in
  let* v := lift (Py.truediv (Py.VInt raw) (Py.VFloat 10)) in
  set_input name v.

Definition output_word (name : string) (missing : Py.value) : B Z :=
  let* sim := self in
  lift (Py.int (default missing (outputs (memory (runtime sim)) !! name))).

Definition copy_commands : B unit :=
  let* system_enable := getValues (address "SystemEnable") in
  set_input "SystemEnable" (Py.VBool (negb (system_enable =? 0)));;
  scaled_command "SetpointTemp";;
  scaled_command "SetpointHumidity";;
  scaled_command "TempDeadband";;
  scaled_command "HumidityDeadband".

Definition publish_status : B unit :=
  let* fan_speed := output_word "FanSpeed" (Py.VInt 0) in
  let* chiller_on := output_word "ChillerOn" (Py.VBool false) in
  let* system_status := output_word "SystemStatus" (Py.VInt 0) in
  let* alarm_active := output_word "AlarmActive" (Py.VBool false) in
  _write_register "FanSpeed" fan_speed;;
  _write_register "ChillerOn" chiller_on;;
  _write_register "SystemStatus" system_status;;
  _write_register "AlarmActive" alarm_active.

Definition update_server_registers : PLCSimulator -> PLCSimulator :=
  try_except (copy_commands;; publish_status).

(** A supervisory client's register write, served by the Modbus server
    task on the shared context: [context.setValues(3, address, [value])],
    a pair of an address and a word. *)
Definition supervisory_write (w : nat * Z) : PLCSimulator -> PLCSimulator :=
  on_registers <[fst w := snd w]>.

Definition supervisory_writes (ws : list (nat * Z)) (sim : PLCSimulator) : PLCSimulator :=
  foldl (fun sim w => supervisory_write w sim) sim ws.

(** One iteration of the loop of [PLCSimulator.run_cycle]. The loop and
    the server share one event loop, so the server's writes land only
    where the loop awaits: the plant read (before [read_inputs] stores
    the reply), the plant write (after [write_outputs] has read the
    outputs) and the sleep. [execute_cycle] and
    [update_server_registers] await nothing. *)
Record iteration_events : Type := {
  plant_reply : option (Z * Z);
  writes_during_read : list (nat * Z);
  writes_during_write : list (nat * Z);
  writes_during_sleep : list (nat * Z)
}.

Definition phase_read (ev : iteration_events) (sim : PLCSimulator) : PLCSimulator :=
  read_inputs (plant_reply ev) (supervisory_writes (writes_during_read ev) sim).

Definition phase_execute (sim : PLCSimulator) : PLCSimulator :=
  try_except (on_runtime execute_cycle) sim.

Definition phase_write (ev : iteration_events) (sim : PLCSimulator) : PLCSimulator :=
  supervisory_writes (writes_during_write ev) (write_outputs sim).

Definition phase_publish (sim : PLCSimulator) : PLCSimulator :=
  update_server_registers sim.

Definition phase_sleep (ev : iteration_events) (sim : PLCSimulator) : PLCSimulator :=
  supervisory_writes (writes_during_sleep ev) sim.

Definition run_iteration (ev : iteration_events) (sim : PLCSimulator) : PLCSimulator :=
  phase_sleep ev (phase_publish (phase_write ev (phase_execute (phase_read ev sim)))).

Definition run_cycle (evs : list iteration_events) (sim : PLCSimulator) : PLCSimulator :=
  foldl (fun sim ev => run_iteration ev sim) sim evs.

(** [PLCSimulator.start] up to the first iteration: runtime loaded from
    the parse result, bridge created, plant client created or not. *)
Definition PLCSimulator_start (program : option Program) (has_client : bool) : PLCSimulator :=
  {| runtime := PLCRuntime_init program;
     holding_registers := _initialize_datastore;
     client := has_client;
     sent_to_plant := [] |}.

(** ** Vocabulary of the statements

    Relations between states, the spec's own notions where a claim is
    compared with them, and the programs and scenarios the concrete
    lemmas run. *)

(** A method preserves [R] when the state it leaves, on return or on
    raise, is related by [R] to the state it started from. *)
Definition preserves {S A : Type} (R : S -> S -> Prop) (c : StateExn S A) : Prop :=
  forall s, R s (snd (c s)).

(** Evaluation may only add to the log. *)
Definition only_logs (rt rt' : PLCRuntime) : Prop :=
  program rt' = program rt /\ memory rt' = memory rt /\
  cycle_count rt' = cycle_count rt /\ system_enabled rt' = system_enabled rt.

(** Memory as a whole, and its input mapping, are what they were. *)
Definition same_memory (rt rt' : PLCRuntime) : Prop := memory rt' = memory rt.
Definition same_inputs (rt rt' : PLCRuntime) : Prop :=
  inputs (memory rt') = inputs (memory rt).

(** The statement contains no assignment, at any depth. *)
Fixpoint assignment_free (s : statement) : bool :=
  match s with
  | Assignment _ _ => false
  | IfStatement _ then_block elsif_clauses else_block =>
      forallb assignment_free then_block
      && forallb (fun clause => forallb assignment_free (snd clause)) elsif_clauses
      && match else_block with
         | Some b => forallb assignment_free b
         | None => true
         end
  | FunctionCall _ _ => true
  end.

(** A program that reads the undeclared name [y]:
    [VAR x : REAL; END_VAR  VAR_OUTPUT AlarmActive : BOOL; END_VAR  x := y;] *)
Definition reads_missing_variable : Program :=
  {| program_name := "Main";
     variables :=
       {[ "x" := {| var_name := "x"; var_type := "REAL"; initial_value := None;
                    is_input := false; is_output := false |};
          "AlarmActive" := {| var_name := "AlarmActive"; var_type := "BOOL";
                              initial_value := None;
                              is_input := false; is_output := true |} ]};
     statements := [Assignment "x" (VariableRef "y")] |}.

(** A program that declares [AlarmActive] as an input and whose second
    statement raises:
    [VAR_INPUT AlarmActive : BOOL; END_VAR  VAR x : REAL; END_VAR
     AlarmActive := FALSE;  x := y + 1;] *)
Definition alarm_declared_as_input : Program :=
  {| program_name := "Main";
     variables :=
       {[ "AlarmActive" := {| var_name := "AlarmActive"; var_type := "BOOL";
                              initial_value := None;
                              is_input := true; is_output := false |};
          "x" := {| var_name := "x"; var_type := "REAL"; initial_value := None;
                    is_input := false; is_output := false |} ]};
     statements :=
       [ Assignment "AlarmActive" (Literal (Py.VBool false));
         Assignment "x" (BinaryOp OpAdd (VariableRef "y") (Literal (Py.VFloat 1))) ] |}.

(** The cycle runs the default controller: no program, or a program
    without statements. *)
Definition runs_default_controller (rt : PLCRuntime) : Prop :=
  match program rt with
  | None => True
  | Some p => statements p = []
  end.

(** The spec's fan speed under cooling, [clamp(30, 100, round(temp_error * 20))],
    in the spec's words: [clamp(lo, hi, v)] bounds [v] into [[lo, hi]] and
    [round], here [spec_round], is the nearest integer (a tie goes away from zero). *)
Definition clamp (lo hi v : Z) : Z := Z.max lo (Z.min hi v).

Definition spec_round (f : float) : option Z :=
  match Prim2SF f with
  | S754_zero _ => Some 0
  | S754_finite s m e =>
      let whole := Z.shiftl (Zpos m) e in
      let nearest := if Z.testbit (Zpos m) (- e - 1) then whole + 1 else whole in
      Some (if s then - nearest else nearest)
  | _ => None
  end.

Definition spec_fan_speed (temp_error : float) : option Z :=
  clamp 30 100 <$> spec_round (temp_error * 20)%float.

(** The default runtime with the system enabled, a room at 21.7 degrees
    (the sensor word 217) and a setpoint of 20.0 degrees (the command
    word 200). *)
Definition room_21_7_setpoint_20 : PLCRuntime :=
  with_memory (fun m =>
    set_inputs "SystemEnable" (Py.VBool true)
      (set_inputs "RoomTemperature" (Py.VFloat (217 / 10))
         (set_inputs "SetpointTemp" (Py.VFloat (200 / 10)) m)))
    (PLCRuntime_init None).

(** Scenario B of the spec. *)
Definition scenario_B : PLCRuntime :=
  with_memory (fun m =>
    set_inputs "SystemEnable" (Py.VBool true)
      (set_inputs "RoomTemperature" (Py.VFloat 25) m))
    (PLCRuntime_init None).

(** The conditions of a run of ELSIF clauses are evaluated in order and
    all come out false; [rt'] is the state after the last of them. *)
Inductive conditions_false :
    list (expr * list statement) -> PLCRuntime -> PLCRuntime -> Prop :=
| conditions_false_nil rt : conditions_false [] rt rt
| conditions_false_cons cond block rest rt v rt1 rt2 :
    _evaluate_expression cond rt = (Py.Ok v, rt1) ->
    Py.truthy v = false ->
    conditions_false rest rt1 rt2 ->
    conditions_false ((cond, block) :: rest) rt rt2.

(** The statements of a block run one after the other, each on the
    state the one before it left; the first one that raises ends the
    block, and the statements after it do not run. [result] is how the
    block ends: returned or raised, and the state it leaves. *)
Inductive runs_in_order :
    list statement -> PLCRuntime -> Py.outcome unit * PLCRuntime -> Prop :=
| runs_nothing rt : runs_in_order [] rt (Py.Ok tt, rt)
| runs_next stmt rest rt rt1 result :
    _execute_statement stmt rt = (Py.Ok tt, rt1) ->
    runs_in_order rest rt1 result ->
    runs_in_order (stmt :: rest) rt result
| runs_until_raise stmt rest rt e rt1 :
    _execute_statement stmt rt = (Py.Raise e, rt1) ->
    runs_in_order (stmt :: rest) rt (Py.Raise e, rt1).

(** The mapping a declaration is stored in. *)
Definition class_of (var : ProgramVariable) (m : PLCMemory) : gmap string Py.value :=
  if is_input var then inputs m
  else if is_output var then outputs m
  else internal m.

(** What [read_inputs] does to the runtime: the two sensor values go
    into the inputs when the plant answered and both convert. *)
Definition merge_sensors (reply : option (Z * Z)) (rt : PLCRuntime) : PLCRuntime :=
  match reply with
  | Some (r0, r1) =>
      match Py.truediv (Py.VInt r0) (Py.VFloat 10), Py.truediv (Py.VInt r1) (Py.VFloat 10) with
      | Py.Ok temp, Py.Ok humidity =>
          with_memory (fun m => set_inputs "RoomHumidity" humidity
                                  (set_inputs "RoomTemperature" temp m)) rt
      | _, _ => rt
      end
  | None => rt
  end.

(** The runtime is what it was (the registers may have changed). *)
Definition same_runtime (sim sim' : PLCSimulator) : Prop := runtime sim' = runtime sim.

(** A register word divided by 10.0, as [update_server_registers] and
    [read_inputs] decode scaled quantities. *)
Definition tenths (w : Z) : Py.value :=
  match Py.truediv (Py.VInt w) (Py.VFloat 10) with
  | Py.Ok v => v
  | Py.Raise _ => Py.VNone
  end.

(** The word converts: dividing it by 10.0 raises nothing, as is the case
    for the 16-bit words of the protocol. *)
Definition converts (w : Z) : bool :=
  match Py.truediv (Py.VInt w) (Py.VFloat 10) with
  | Py.Ok _ => true
  | Py.Raise _ => false
  end.

(** The inputs after the command block has been copied from [regs]. *)
Definition copied_inputs (regs : list Z) (m : PLCMemory) : PLCMemory :=
  set_inputs "HumidityDeadband" (tenths (word regs (address "HumidityDeadband")))
    (set_inputs "TempDeadband" (tenths (word regs (address "TempDeadband")))
       (set_inputs "SetpointHumidity" (tenths (word regs (address "SetpointHumidity")))
          (set_inputs "SetpointTemp" (tenths (word regs (address "SetpointTemp")))
             (set_inputs "SystemEnable"
                (Py.VBool (negb (word regs (address "SystemEnable") =? 0))) m)))).

(** The commands that are stored times ten, and the condition that
    their four words convert. *)
Definition scaled_commands : list string :=
  ["SetpointTemp"; "SetpointHumidity"; "TempDeadband"; "HumidityDeadband"].

Definition command_words (regs : list Z) : Prop :=
  Forall (fun name => converts (word regs (address name)) = true) scaled_commands.

(** Runtime and registers are what they were. *)
Definition same_runtime_and_registers (sim sim' : PLCSimulator) : Prop :=
  runtime sim' = runtime sim /\ holding_registers sim' = holding_registers sim.

(** Two register tables that may differ in the sensor mirror only
    (addresses 100 and 101, written by [read_inputs]). *)
Definition same_commands (regs regs' : list Z) : Prop :=
  length regs = length regs' /\
  forall i : nat, i <> 100%nat -> i <> 101%nat -> regs !! i = regs' !! i.

Definition same_commands_sim (sim sim' : PLCSimulator) : Prop :=
  same_commands (holding_registers sim) (holding_registers sim').

(** The value [update_server_registers] gives the input [name]. *)
Definition command_input (regs : list Z) (name : string) : Py.value :=
  if decide (name = "SystemEnable")
  then Py.VBool (negb (word regs (address name) =? 0))
  else tenths (word regs (address name)).

(** A write that lands while the loop sleeps: the plant answers 25.0
    degrees and 50 % in every iteration, and a supervisory client writes
    1 to the SystemEnable register (address 0) during the sleep of the
    iteration [enable_during_sleep]; nothing is written during
    [quiet_iteration]. *)
Definition quiet_iteration : iteration_events :=
  {| plant_reply := Some (250, 500); writes_during_read := [];
     writes_during_write := []; writes_during_sleep := [] |}.

Definition enable_during_sleep : iteration_events :=
  {| plant_reply := Some (250, 500); writes_during_read := [];
     writes_during_write := []; writes_during_sleep := [(0%nat, 1)] |}.

(** ** More of the runtime ([plc_runtime.py]) *)

(** [PLCRuntime.get_diagnostics], the dictionary it returns;
    [last_cycle_time_ms] is wall-clock time and is left out. *)
Definition get_diagnostics (rt : PLCRuntime) : gmap string Py.value :=
  {[ "cycle_count" := Py.VInt (cycle_count rt);
     "system_enabled" := system_enabled rt;
     "program_loaded" := Py.VBool (if program rt is Some _ then true else false) ]}.

(** ** More of the bridge ([modbus_interface.py]) *)

(** [ModbusInterface.get_register_map_info], of the register map [rm]
    of the interface. *)
Definition in_band (lo hi : Z) (entry : string * Z) : Prop := lo <= entry.2 <= hi.

Definition get_register_map_info (rm : gmap string Z) : gmap string (gmap string Z) :=
  {[ "commands" := filter (in_band 40001 40099) rm;
     "status" := filter (in_band 40101 40199) rm;
     "sensors" := filter (in_band 40201 40299) rm;
     "actuators" := filter (in_band 40301 40399) rm ]}.

(** ** The backend's Modbus client ([backend/modbus_client.py])

    A call of the client either returns or raises ([None]): the client
    logs the error, drops the connection and raises again. *)

(** [ModbusClient.registers] *)
Definition registers : gmap string Z :=
  list_to_map
    [ ("system_enable", 40001 - 40001); ("setpoint_temp", 40002 - 40001);
      ("setpoint_humidity", 40003 - 40001); ("temp_deadband", 40004 - 40001);
      ("humidity_deadband", 40005 - 40001);
      ("room_temperature", 40101 - 40001); ("room_humidity", 40102 - 40001);
      ("fan_speed", 40103 - 40001); ("chiller_on", 40104 - 40001);
      ("system_status", 40105 - 40001); ("alarm_active", 40106 - 40001) ].

(** [address - 40001 if address >= 40001 else address], the adjustment
    in [read_holding_registers], [write_register] and [write_registers]. *)
Definition modbus_address (address : Z) : Z :=
  if 40001 <=? address then address - 40001 else address.

(** What the PLC's Modbus server answers to a read of [count] holding
    registers at [address] of its table: the words, when the range is in
    the table and every word fits the 16 bits of a register; [None]
    stands for an error reply. *)
Definition wire_word (w : Z) : option Z :=
  if bool_decide (0 <= w < 65536) then Some w else None.

Definition served (regs : list Z) (address : Z) (count : nat) : option (list Z) :=
  if bool_decide (0 <= address /\ (Z.to_nat address + count <= length regs)%nat)
  then mapM wire_word (take count (drop (Z.to_nat address) regs))
  else None.

(** [ModbusClient.read_system_status]; [server] answers the request
    [self.client.read_holding_registers(self.registers["room_temperature"], 6)]. *)
Definition status_float (w : Z) : option Py.value :=
  match Py.truediv (Py.VInt w) (Py.VFloat 10) with
  | Py.Ok v => Some v
  | Py.Raise _ => None
  end.

Definition read_system_status (server : Z -> nat -> option (list Z)) :
    option (gmap string Py.value) :=
  a ← registers !! "room_temperature";
  result ← server a 6%nat;
  r0 ← result !! 0%nat; room_temperature ← status_float r0;
  r1 ← result !! 1%nat; room_humidity ← status_float r1;
  r2 ← result !! 2%nat;
  r3 ← result !! 3%nat;
  r4 ← result !! 4%nat;
  r5 ← result !! 5%nat;
  Some (list_to_map
    [ ("room_temperature", room_temperature);
      ("room_humidity", room_humidity);
      ("fan_speed", Py.VInt r2);
      ("chiller_status", Py.VBool (negb (r3 =? 0)));
      ("system_status", Py.VInt r4);
      ("alarm_active", Py.VBool (negb (r5 =? 0))) ]).

(** [ModbusClient.write_register] up to the request it sends: the word
    goes to the adjusted address; a value that does not fit the 16 bits
    of a register cannot be encoded, and the call raises ([None]). *)
Definition write_register (address value : Z) : option (nat * Z) :=
  if bool_decide (0 <= value < 65536)
  then Some (Z.to_nat (modbus_address address), value)
  else None.

(** ** The backend's control route ([backend/routes/system.py]) *)

(** [Settings.REG_*] of [core/config.py] *)
Definition REG_SYSTEM_ENABLE : Z := 40001.
Definition REG_SETPOINT_TEMP : Z := 40002.
Definition REG_SETPOINT_HUMIDITY : Z := 40003.

(** How a request to [control_system] ends: with the register write
    that was sent to the PLC, without any (no branch taken), or with an
    [HTTPException]. *)
Inductive response : Type :=
| Written (write : nat * Z)
| NoBranch
| HTTPException.

(** [int(command.value * 10)] *)
Definition times_ten (value : float) : option Z :=
  match Py.mul (Py.VFloat value) (Py.VInt 10) with
  | Py.Ok scaled =>
      match Py.int scaled with
      | Py.Ok w => Some w
      | Py.Raise _ => None
      end
  | Py.Raise _ => None
  end.

Definition sent (write : option (nat * Z)) : response :=
  match write with
  | Some w => Written w
  | None => HTTPException
  end.

(** [control_system]; [connected] is the outcome of the connection test,
    [system_state] the dictionary shared by the routes. A register write
    that can be encoded is taken to reach the PLC's server. *)
Definition control_system (connected : bool) (command : string) (value : option float)
    (system_state : gmap string Py.value) : gmap string Py.value * response :=
  if negb connected then (system_state, HTTPException)
  else if decide (command = "start") then
    (<["plc_running" := Py.VBool true]> system_state,
     sent (write_register REG_SYSTEM_ENABLE 1))
  else if decide (command = "stop") then
    (<["plc_running" := Py.VBool false]> system_state,
     sent (write_register REG_SYSTEM_ENABLE 0))
  else if decide (command = "set_temperature") then
    match value with
    | None => (system_state, HTTPException)
    | Some v =>
        (<["setpoint_temperature" := Py.VFloat v]> system_state,
         sent (w ← times_ten v; write_register REG_SETPOINT_TEMP w))
    end
  else if decide (command = "set_humidity") then
    match value with
    | None => (system_state, HTTPException)
    | Some v =>
        (<["setpoint_humidity" := Py.VFloat v]> system_state,
         sent (w ← times_ten v; write_register REG_SETPOINT_HUMIDITY w))
    end
  else (system_state, NoBranch).

(** ** Vocabulary of the further properties *)

(** The names a statement assigns to, at any depth. *)
Fixpoint targets (s : statement) : list string :=
  match s with
  | Assignment target _ => [target]
  | IfStatement _ then_block elsif_clauses else_block =>
      flat_map targets then_block
      ++ flat_map (fun clause => flat_map targets (snd clause)) elsif_clauses
      ++ match else_block with
         | Some b => flat_map targets b
         | None => []
         end
  | FunctionCall _ _ => []
  end.

(** The variable [name] has in the output and internal mappings what it
    had. *)
Definition same_variable (name : string) (rt rt' : PLCRuntime) : Prop :=
  outputs (memory rt') !! name = outputs (memory rt) !! name /\
  internal (memory rt') !! name = internal (memory rt) !! name.

(** Program, cycle counter, enable snapshot and inputs are what they
    were: only outputs, internal variables and the log may differ. *)
Definition same_control (rt rt' : PLCRuntime) : Prop :=
  program rt' = program rt /\ cycle_count rt' = cycle_count rt /\
  system_enabled rt' = system_enabled rt /\
  inputs (memory rt') = inputs (memory rt).

(** The variables the default controller assigns, and the variables a
    cycle of the runtime may assign: those of its statements, or those
    of the default controller when that is what the cycle runs. *)
Definition default_targets : list string :=
  ["FanSpeed"; "ChillerOn"; "SystemStatus";
   "TempError"; "HumidityError"; "CoolingRequired"; "DehumidRequired"].

Definition cycle_targets (rt : PLCRuntime) : list string :=
  match program rt with
  | Some p =>
      match statements p with
      | [] => default_targets
      | stmts => flat_map targets stmts
      end
  | None => default_targets
  end.

(** The two steps of the [try] of [execute_cycle] by themselves: the
    enable snapshot, and what the cycle then runs. *)
Definition enable_snapshot (rt : PLCRuntime) : PLCRuntime :=
  {| program := program rt; memory := memory rt; cycle_count := cycle_count rt;
     system_enabled := default (Py.VBool false) (inputs (memory rt) !! "SystemEnable");
     log := log rt |}.

Definition cycle_dispatch (rt : PLCRuntime) : M unit :=
  match program rt with
  | Some p =>
      match statements p with
      | [] => _execute_default_logic
      | stmts => execute_block _execute_statement stmts
      end
  | None => _execute_default_logic
  end.

(** A program whose second statement raises ([y] is not declared):
    [VAR a : REAL; c : REAL; END_VAR  VAR_OUTPUT Lamp : BOOL := TRUE; END_VAR
     a := 1;  b := y + 1;  c := 3;] *)
Definition raises_in_the_middle : Program :=
  {| program_name := "Main";
     variables :=
       {[ "a" := {| var_name := "a"; var_type := "REAL"; initial_value := None;
                    is_input := false; is_output := false |};
          "c" := {| var_name := "c"; var_type := "REAL"; initial_value := None;
                    is_input := false; is_output := false |};
          "Lamp" := {| var_name := "Lamp"; var_type := "BOOL";
                       initial_value := Some (InitExpr (Literal (Py.VBool true)));
                       is_input := false; is_output := true |} ]};
     statements :=
       [ Assignment "a" (Literal (Py.VFloat 1));
         Assignment "b" (BinaryOp OpAdd (VariableRef "y") (Literal (Py.VFloat 1)));
         Assignment "c" (Literal (Py.VFloat 3)) ] |}.

(** The three mappings share no name. *)
Definition classes_disjoint (m : PLCMemory) : Prop :=
  dom (inputs m) ## dom (outputs m) /\
  dom (inputs m) ## dom (internal m) /\
  dom (outputs m) ## dom (internal m).

(** The inputs and the output names are what they were, no internal
    name is lost, and the mappings still share no name if they did not. *)
Definition keeps_classes (rt rt' : PLCRuntime) : Prop :=
  inputs (memory rt') = inputs (memory rt) /\
  dom (outputs (memory rt')) = dom (outputs (memory rt)) /\
  dom (internal (memory rt)) ⊆ dom (internal (memory rt')) /\
  (classes_disjoint (memory rt) -> classes_disjoint (memory rt')).

(** The output mappings one run of [_execute_default_logic] can leave,
    from the mapping [o] it starts with: nothing written (an input is
    missing or is no number), the three writes of a disabled system, the
    chiller and status writes of the active branch (the fan-speed
    conversion raised), those with a fan speed, or the idle writes. *)
Inductive default_outcome (o : gmap string Py.value) : gmap string Py.value -> Prop :=
  | outcome_untouched : default_outcome o o
  | outcome_disabled :
      default_outcome o
        (<["SystemStatus" := Py.VInt 0]>
           (<["ChillerOn" := Py.VBool false]> (<["FanSpeed" := Py.VInt 0]> o)))
  | outcome_active_no_speed :
      default_outcome o
        (<["SystemStatus" := Py.VInt 1]> (<["ChillerOn" := Py.VBool true]> o))
  | outcome_active fan :
      30 <= fan <= 100 ->
      default_outcome o
        (<["FanSpeed" := Py.VInt fan]>
           (<["SystemStatus" := Py.VInt 1]> (<["ChillerOn" := Py.VBool true]> o)))
  | outcome_idle :
      default_outcome o
        (<["SystemStatus" := Py.VInt 2]>
           (<["FanSpeed" := Py.VInt 20]> (<["ChillerOn" := Py.VBool false]> o))).

(** The three controller outputs agree with each other: the chiller is
    on exactly in status 1, the fan is at 0 in status 0, at 20 in status
    2 and within 0..100 in status 1. *)
Definition consistent_outputs (o : gmap string Py.value) : Prop :=
  exists fan status : Z,
    o !! "FanSpeed" = Some (Py.VInt fan) /\
    o !! "SystemStatus" = Some (Py.VInt status) /\
    o !! "ChillerOn" = Some (Py.VBool (status =? 1)) /\
    (status = 0 /\ fan = 0 \/ status = 1 /\ 0 <= fan <= 100 \/ status = 2 /\ fan = 20).

(** A humid room at the default setpoints with the system enabled:
    20.0 degrees (setpoint 22.0, deadband 1.0) and 60 % (setpoint 45 %,
    deadband 5 %). *)
Definition humid_room : PLCRuntime :=
  with_memory (fun m =>
    set_inputs "SystemEnable" (Py.VBool true)
      (set_inputs "RoomHumidity" (Py.VFloat 60) m))
    (PLCRuntime_init None).

(** ** Vocabulary of the bridge properties *)

(** The inputs the bridge stores: the two sensor values of
    [read_inputs] and the five commands of [update_server_registers]. *)
Definition bridge_inputs : list string :=
  [ "RoomTemperature"; "RoomHumidity"; "SystemEnable"; "SetpointTemp";
    "SetpointHumidity"; "TempDeadband"; "HumidityDeadband" ].

(** What a step of the bridge leaves alone: everything of the runtime
    but the inputs it stores, and the plant client. *)
Definition bridge_frame (sim sim' : PLCSimulator) : Prop :=
  program (runtime sim') = program (runtime sim) /\
  cycle_count (runtime sim') = cycle_count (runtime sim) /\
  system_enabled (runtime sim') = system_enabled (runtime sim) /\
  log (runtime sim') = log (runtime sim) /\
  outputs (memory (runtime sim')) = outputs (memory (runtime sim)) /\
  internal (memory (runtime sim')) = internal (memory (runtime sim)) /\
  client sim' = client sim /\
  forall name, name ∉ bridge_inputs ->
    inputs (memory (runtime sim')) !! name = inputs (memory (runtime sim)) !! name.

(** The status block of the server's table: addresses 100..105
    (registers 40101..40106). Two tables agree outside of it. *)
Definition status_block (i : nat) : bool := (100 <=? i)%nat && (i <=? 105)%nat.

Definition same_outside_status_block (regs regs' : list Z) : Prop :=
  length regs' = length regs /\
  forall i : nat, status_block i = false -> regs' !! i = regs !! i.

Definition status_block_only (sim sim' : PLCSimulator) : Prop :=
  same_outside_status_block (holding_registers sim) (holding_registers sim').

(** All supervisory writes of a run of iterations, in the order they land. *)
Definition supervisory_log (evs : list iteration_events) : list (nat * Z) :=
  flat_map (fun ev => writes_during_read ev ++ writes_during_write ev
                      ++ writes_during_sleep ev) evs.

(** A command pair for the plant: a fan speed in 0..100 and a chiller
    word 0 or 1; with the chiller off the fan is at 0 or at 20. *)
Definition plant_command_ok (c : Z * Z) : Prop :=
  0 <= fst c <= 100 /\ (snd c = 1 \/ snd c = 0 /\ (fst c = 0 \/ fst c = 20)).

(** The commands sent to the plant so far are what they were. *)
Definition same_sent (sim sim' : PLCSimulator) : Prop :=
  sent_to_plant sim' = sent_to_plant sim.

(** The default controller is in charge, its outputs are consistent and
    every command sent to the plant so far was in order. *)
Definition plant_safe (sim : PLCSimulator) : Prop :=
  runs_default_controller (runtime sim) /\
  consistent_outputs (outputs (memory (runtime sim))) /\
  Forall plant_command_ok (sent_to_plant sim).

(** ** Vocabulary of the controller at rest *)

(** A write to the output or to the internal mapping, and a method that
    does nothing but such writes, chosen by the inputs and the enable
    snapshot alone. *)
Inductive memory_write : Type :=
| ToOutput (k : string) (v : Py.value)
| ToInternal (k : string) (v : Py.value).

Definition apply_write (m : PLCMemory) (w : memory_write) : PLCMemory :=
  match w with
  | ToOutput k v => set_outputs k v m
  | ToInternal k v => set_internal k v m
  end.

Definition apply_writes (ws : list memory_write) (m : PLCMemory) : PLCMemory :=
  foldl apply_write m ws.

Definition writes_only {A : Type} (c : M A) : Type :=
  { g : gmap string Py.value -> Py.value -> Py.outcome A * list memory_write |
    forall s, c s = (fst (g (inputs (memory s)) (system_enabled s)),
                     with_memory (apply_writes (snd (g (inputs (memory s))
                                                      (system_enabled s)))) s) }.

(** Two writes to the same name of the same mapping. *)
Definition same_slot (w w' : memory_write) : Prop :=
  match w, w' with
  | ToOutput k _, ToOutput k' _ => k = k'
  | ToInternal k _, ToInternal k' _ => k = k'
  | _, _ => False
  end.

(** ** Vocabulary of the backend properties *)

(** The simulator after the interpreter run of Scenario B, before the
    publish step. *)
Definition scenario_B_executed : PLCSimulator :=
  {| runtime := execute_cycle scenario_B;
     holding_registers := _initialize_datastore;
     client := true;
     sent_to_plant := [] |}.

(** The input a command of the control route is meant for, and the
    value [update_server_registers] decodes for the input [name] from
    the word [w]. *)
Definition command_target (command : string) : string :=
  if decide (command = "start") then "SystemEnable"
  else if decide (command = "stop") then "SystemEnable"
  else if decide (command = "set_temperature") then "SetpointTemp"
  else "SetpointHumidity".

Definition decoded_command (name : string) (w : Z) : Py.value :=
  if decide (name = "SystemEnable") then Py.VBool (negb (w =? 0)) else tenths w.

(** * Proofs *)

(** ** Python operators on concrete values *)

Example py_sub_25_22 : Py.sub (Py.VFloat 25) (Py.VFloat 22) = Py.Ok (Py.VFloat 3).
Proof. reflexivity. Qed.
Example py_int_trunc : Py.int (Py.VFloat 31.875) = Py.Ok 31.
Proof. reflexivity. Qed.
Example py_int_trunc_neg : Py.int (Py.VFloat (-31.875)) = Py.Ok (-31).
Proof. reflexivity. Qed.
Example py_truediv_int : Py.truediv (Py.VInt 1) (Py.VInt 4) = Py.Ok (Py.VFloat 0.25).
Proof. reflexivity. Qed.
Example py_truediv_220 : Py.truediv (Py.VInt 220) (Py.VFloat 10) = Py.Ok (Py.VFloat 22).
Proof. reflexivity. Qed.
Example py_float_of_Z_20 : Py.float_of_Z 20 = Py.Ok 20%float.
Proof. reflexivity. Qed.
Example py_eq_bool_float : Py.eq (Py.VBool true) (Py.VFloat 1) = true.
Proof. reflexivity. Qed.
Example py_cmp_big : Py.gt (Py.VInt (2 ^ 53 + 1)) (Py.VFloat 9007199254740992) = Py.Ok (Py.VBool true).
Proof. reflexivity. Qed.
Example py_truediv_rounds_once :
  Py.truediv (Py.VInt (2 ^ 53 + 1)) (Py.VInt 1) = Py.Ok (Py.VFloat 9007199254740992).
Proof. reflexivity. Qed.
Example py_truediv_large :
  Py.truediv (Py.VInt (10 ^ 400)) (Py.VInt (10 ^ 399)) = Py.Ok (Py.VFloat 10).
Proof. vm_compute. reflexivity. Qed.
Example py_truediv_large_by_float :
  Py.truediv (Py.VInt (10 ^ 400)) (Py.VFloat 0) = Py.Raise Py.OverflowError.
Proof. vm_compute. reflexivity. Qed.
Example py_truediv_zero_sign :
  Py.truediv (Py.VInt 0) (Py.VInt (-5)) = Py.Ok (Py.VFloat (-0)).
Proof. reflexivity. Qed.
Example py_and_returns_operand : Py.and_ Py.VNone (Py.VInt 1) = Py.VNone.
Proof. reflexivity. Qed.

(** ** Reasoning about methods *)

Lemma bind_ok {S A B : Type} (c : StateExn S A) (k : A -> StateExn S B) s a s' :
  c s = (Py.Ok a, s') -> bind c k s = k a s'.
Proof. intros H. unfold bind. by rewrite H. Qed.

Lemma bind_raise {S A B : Type} (c : StateExn S A) (k : A -> StateExn S B) s e s' :
  c s = (Py.Raise e, s') -> bind c k s = (Py.Raise e, s').
Proof. intros H. unfold bind. by rewrite H. Qed.

Section Preserves.
Context {S : Type} (R : S -> S -> Prop).
Hypothesis R_refl : forall s, R s s.
Hypothesis R_trans : forall s1 s2 s3, R s1 s2 -> R s2 s3 -> R s1 s3.

Lemma preserves_ret {A : Type} (a : A) : preserves R (ret a).
Proof using R_refl. intros s. apply R_refl. Qed.

Lemma preserves_lift {A : Type} (o : Py.outcome A) : preserves R (lift o).
Proof using R_refl. intros s. apply R_refl. Qed.

Lemma preserves_self : preserves R self.
Proof using R_refl. intros s. apply R_refl. Qed.

Lemma preserves_update (f : S -> S) : (forall s, R s (f s)) -> preserves R (update f).
Proof. intros H s. apply H. Qed.

Lemma preserves_bind {A B : Type} (c : StateExn S A) (k : A -> StateExn S B) :
  preserves R c -> (forall a, preserves R (k a)) -> preserves R (bind c k).
Proof using R_trans.
  intros Hc Hk s. unfold bind. specialize (Hc s).
  destruct (c s) as [[a|e] s']; simpl in *; [|done].
  eapply R_trans; [exact Hc | apply Hk].
Qed.

Lemma preserves_try (body : StateExn S unit) s : preserves R body -> R s (try_except body s).
Proof. intros H. apply H. Qed.
End Preserves.

(** Induction on statements that reaches the statements of the blocks. *)
Lemma statement_nested_ind (P : statement -> Prop) :
  (forall target e, P (Assignment target e)) ->
  (forall c then_block elsif_clauses else_block,
      Forall P then_block ->
      Forall (fun clause => Forall P (snd clause)) elsif_clauses ->
      match else_block with Some b => Forall P b | None => True end ->
      P (IfStatement c then_block elsif_clauses else_block)) ->
  (forall name args, P (FunctionCall name args)) ->
  forall s, P s.
Proof.
  intros HA HI HF. fix IH 1. intros [target e | c tb ec eb | name args].
  - apply HA.
  - apply HI.
    + induction tb as [|s tb IHtb]; constructor; [apply IH | exact IHtb].
    + induction ec as [|[c' b] ec IHec]; constructor; [|exact IHec].
      simpl. induction b as [|s b IHb]; constructor; [apply IH | exact IHb].
    + destruct eb as [b|]; [|exact I].
      induction b as [|s b IHb]; constructor; [apply IH | exact IHb].
  - apply HF.
Qed.

Section Blocks.
Context (R : PLCRuntime -> PLCRuntime -> Prop).
Hypothesis R_refl : forall s, R s s.
Hypothesis R_trans : forall s1 s2 s3, R s1 s2 -> R s2 s3 -> R s1 s3.
Hypothesis R_eval : forall e, preserves R (_evaluate_expression e).
Variable exec : statement -> M unit.

Lemma execute_block_preserves block :
  Forall (fun s => preserves R (exec s)) block ->
  preserves R (execute_block exec block).
Proof using R_refl R_trans.
  induction 1 as [|s block Hs _ IH]; simpl.
  - by apply preserves_ret.
  - by apply (preserves_bind R R_trans).
Qed.

Lemma execute_elsif_preserves else_block clauses :
  Forall (fun clause => Forall (fun s => preserves R (exec s)) (snd clause)) clauses ->
  match else_block with
  | Some b => Forall (fun s => preserves R (exec s)) b
  | None => True
  end ->
  preserves R (execute_elsif exec else_block clauses).
Proof using R_refl R_trans R_eval.
  intros Hc He. induction Hc as [|[c b] clauses Hb _ IH]; simpl.
  - destruct else_block as [[|s b]|]; try by apply preserves_ret.
    by apply (execute_block_preserves (s :: b)).
  - apply (preserves_bind R R_trans); [apply R_eval|]. intros v.
    destruct (Py.truthy v); [by apply execute_block_preserves | exact IH].
Qed.
End Blocks.

Lemma only_logs_refl rt : only_logs rt rt.
Proof. by repeat split. Qed.

Lemma only_logs_trans rt1 rt2 rt3 : only_logs rt1 rt2 -> only_logs rt2 rt3 -> only_logs rt1 rt3.
Proof. unfold only_logs. intros (?&?&?&?) (?&?&?&?). repeat split; congruence. Qed.

Lemma only_logs_with_log r rt : only_logs rt (with_log r rt).
Proof. by repeat split. Qed.

Lemma get_value_only_logs name : preserves only_logs (get_value name).
Proof.
  intros rt. unfold get_value.
  repeat case_match; simpl; auto using only_logs_refl, only_logs_with_log.
Qed.

(** Walks through a method built from [let*], [ret] and [lift]. *)
Ltac preserves_step refl trans :=
  first
    [ apply (preserves_ret _ refl)
    | apply (preserves_lift _ refl)
    | apply (preserves_self _ refl)
    | assumption
    | apply (preserves_bind _ trans); [| intros ?] ].

Lemma _evaluate_expression_only_logs e : preserves only_logs (_evaluate_expression e).
Proof.
  induction e as [v | name | op l IHl r IHr | op l IHl r IHr | op l IHl r IHr
                 | op x IHx | name args]; simpl;
    try apply get_value_only_logs;
    repeat preserves_step only_logs_refl only_logs_trans;
    destruct op; repeat case_match;
    repeat preserves_step only_logs_refl only_logs_trans.
Qed.

Lemma preserves_weaken {S A : Type} (R R' : S -> S -> Prop) (c : StateExn S A) :
  (forall s s', R s s' -> R' s s') -> preserves R c -> preserves R' c.
Proof. intros HR Hc s. apply HR, Hc. Qed.

Lemma Forall_forallb_mp {A : Type} (f : A -> bool) (Q : A -> Prop) (l : list A) :
  Forall (fun x => f x = true -> Q x) l -> forallb f l = true -> Forall Q l.
Proof.
  induction 1 as [|x l Hx _ IH]; simpl; intros Hf; constructor;
    apply andb_prop in Hf as [? ?]; auto.
Qed.

(** *** Blocks run their statements in order *)

Lemma execute_block_runs_in_order block rt :
  runs_in_order block rt (execute_block _execute_statement block rt).
Proof.
  revert rt. induction block as [|stmt rest IH]; intros rt.
  - apply runs_nothing.
  - change (execute_block _execute_statement (stmt :: rest))
      with (_execute_statement stmt;; execute_block _execute_statement rest).
    destruct (_execute_statement stmt rt) as [[[]|e] rt1] eqn:E.
    + rewrite (bind_ok _ _ _ _ _ E). by eapply runs_next.
    + rewrite (bind_raise _ _ _ _ _ E). by apply runs_until_raise.
Qed.

Lemma runs_in_order_unique block rt result :
  runs_in_order block rt result ->
  execute_block _execute_statement block rt = result.
Proof.
  induction 1 as [rt | stmt rest rt rt1 result E _ IH | stmt rest rt e rt1 E].
  - reflexivity.
  - change (execute_block _execute_statement (stmt :: rest))
      with (_execute_statement stmt;; execute_block _execute_statement rest).
    by rewrite (bind_ok _ _ _ _ _ E).
  - change (execute_block _execute_statement (stmt :: rest))
      with (_execute_statement stmt;; execute_block _execute_statement rest).
    by rewrite (bind_raise _ _ _ _ _ E).
Qed.

(** *** Memory relations *)

Lemma same_memory_refl rt : same_memory rt rt.
Proof. done. Qed.
Lemma same_memory_trans rt1 rt2 rt3 :
  same_memory rt1 rt2 -> same_memory rt2 rt3 -> same_memory rt1 rt3.
Proof. unfold same_memory. congruence. Qed.
Lemma same_inputs_refl rt : same_inputs rt rt.
Proof. done. Qed.
Lemma same_inputs_trans rt1 rt2 rt3 :
  same_inputs rt1 rt2 -> same_inputs rt2 rt3 -> same_inputs rt1 rt3.
Proof. unfold same_inputs. congruence. Qed.

Lemma _evaluate_expression_same_memory e : preserves same_memory (_evaluate_expression e).
Proof.
  eapply preserves_weaken; [|apply _evaluate_expression_only_logs].
  by intros rt rt' (_ & ? & _).
Qed.

Lemma _evaluate_expression_same_inputs e : preserves same_inputs (_evaluate_expression e).
Proof.
  eapply preserves_weaken; [|apply _evaluate_expression_same_memory].
  unfold same_memory, same_inputs. by intros rt rt' ->.
Qed.

(** *** Statements never write an input *)

Lemma set_value_same_inputs name value var_type :
  var_type <> "input" -> preserves same_inputs (set_value name value var_type).
Proof. intros Hne rt. unfold set_value. repeat case_decide; done. Qed.

(** A step that leaves the inputs as they are, by computation. *)
Ltac same_inputs_step :=
  first
    [ apply (preserves_bind _ same_inputs_trans); [| intros ?]
    | intros ?; reflexivity ].

Lemma _execute_statement_same_inputs s : preserves same_inputs (_execute_statement s).
Proof.
  induction s as [target e | c tb ec eb IHtb IHec IHeb | name args]
    using statement_nested_ind; simpl.
  - apply (preserves_bind _ same_inputs_trans); [apply _evaluate_expression_same_inputs|].
    intros value. same_inputs_step; [same_inputs_step|].
    repeat case_decide; try by apply set_value_same_inputs.
    same_inputs_step.
  - apply (preserves_bind _ same_inputs_trans); [apply _evaluate_expression_same_inputs|].
    intros v. destruct (Py.truthy v).
    + by apply (execute_block_preserves _ same_inputs_refl same_inputs_trans).
    + by apply (execute_elsif_preserves _ same_inputs_refl same_inputs_trans
                  _evaluate_expression_same_inputs).
  - same_inputs_step.
Qed.

Lemma _execute_default_logic_same_inputs : preserves same_inputs _execute_default_logic.
Proof.
  unfold _execute_default_logic, input, set_output, set_internal_var.
  same_inputs_step; [same_inputs_step|].
  destruct (negb _); repeat same_inputs_step;
    repeat case_match; repeat same_inputs_step.
Qed.

Lemma cycle_body_same_inputs : preserves same_inputs cycle_body.
Proof.
  unfold cycle_body.
  do 2 (same_inputs_step; [same_inputs_step|]).
  destruct (program _) as [p|]; [|apply _execute_default_logic_same_inputs].
  destruct (statements p) as [|s stmts]; [apply _execute_default_logic_same_inputs|].
  apply (execute_block_preserves _ same_inputs_refl same_inputs_trans).
  apply Forall_forall. intros ? _. apply _execute_statement_same_inputs.
Qed.

Lemma execute_cycle_same_inputs rt : same_inputs rt (execute_cycle rt).
Proof.
  unfold execute_cycle.
  match goal with |- context [cycle_body ?r] => pose proof (cycle_body_same_inputs r) as H end.
  destruct (cycle_body _) as [[[]|e] rt']; exact H.
Qed.

Lemma execute_cycles_same_inputs n rt : same_inputs rt (Nat.iter n execute_cycle rt).
Proof.
  induction n as [|n IH]; simpl; [done|].
  eapply same_inputs_trans; [exact IH | apply execute_cycle_same_inputs].
Qed.

(** *** Statements without an assignment *)

Lemma assignment_free_same_memory s :
  assignment_free s = true -> preserves same_memory (_execute_statement s).
Proof.
  induction s as [target e | c tb ec eb IHtb IHec IHeb | name args]
    using statement_nested_ind; simpl; intros Hfree.
  - discriminate.
  - apply andb_prop in Hfree as [Hfree Heb]. apply andb_prop in Hfree as [Htb Hec].
    apply (preserves_bind _ same_memory_trans); [apply _evaluate_expression_same_memory|].
    intros v. destruct (Py.truthy v).
    + apply (execute_block_preserves _ same_memory_refl same_memory_trans).
      by eapply Forall_forallb_mp.
    + apply (execute_elsif_preserves _ same_memory_refl same_memory_trans
                _evaluate_expression_same_memory).
      * eapply Forall_forallb_mp; [|exact Hec].
        eapply Forall_impl; [exact IHec|]. intros [c' b] Hb Hf.
        by eapply Forall_forallb_mp.
      * destruct eb as [b|]; [|done]. by eapply Forall_forallb_mp.
  - by intros ?.
Qed.

(** ** The claims *)

(** *** Expression evaluation *)

(** C9. Evaluating an expression leaves Memory (the input, output and
    internal mappings) as it was, whether the evaluation returns or
    raises; and a statement that contains no assignment leaves Memory as
    it was too: within the interpreter only assignments write Memory. *)
Theorem evaluation_is_side_effect_free :
  (forall e rt, memory (snd (_evaluate_expression e rt)) = memory rt) /\
  (forall s rt, assignment_free s = true ->
                memory (snd (_execute_statement s rt)) = memory rt).
Proof.
  split.
  - intros e rt. apply (_evaluate_expression_same_memory e rt).
  - intros s rt Hfree. by apply (assignment_free_same_memory s Hfree rt).
Qed.

Lemma evaluation_is_side_effect_free_witness :
  let rt := PLCRuntime_init None in
  let s := IfStatement (Comparison OpGt (VariableRef "Missing") (Literal (Py.VFloat 1)))
             [FunctionCall "f" []] [] None in
  memory (snd (_execute_statement s rt)) = memory rt.
Proof. apply (proj2 evaluation_is_side_effect_free). reflexivity. Defined.

(** C4. When the right operand of [/] evaluates to zero (the integer 0,
    the float 0.0 or -0.0, or False) the division evaluates to the
    integer 0 and raises nothing, whatever value the left operand has. *)
Theorem division_by_zero_yields_zero l r rt a zero rt1 rt2 :
  _evaluate_expression l rt = (Py.Ok a, rt1) ->
  _evaluate_expression r rt1 = (Py.Ok zero, rt2) ->
  Py.eq zero (Py.VInt 0) = true ->
  _evaluate_expression (BinaryOp OpDiv l r) rt = (Py.Ok (Py.VInt 0), rt2).
Proof.
  intros Hl Hr Hz. simpl.
  rewrite (bind_ok _ _ _ _ _ Hl), (bind_ok _ _ _ _ _ Hr).
  unfold Py.ne. by rewrite Hz.
Qed.

Lemma division_by_zero_yields_zero_witness :
  let rt := PLCRuntime_init None in
  _evaluate_expression
    (BinaryOp OpDiv (VariableRef "RoomTemperature") (Literal (Py.VFloat 0))) rt
  = (Py.Ok (Py.VInt 0), rt).
Proof.
  intros rt.
  apply (division_by_zero_yields_zero _ _ rt (Py.VFloat 20) (Py.VFloat 0) rt rt);
    reflexivity.
Defined.

(** C3, the counterexample: [5 AND 3] evaluates to the float 3.0, which
    is not a boolean. *)
Lemma logical_and_of_numbers_is_a_number :
  let rt := PLCRuntime_init None in
  _evaluate_expression
    (LogicalOp OpAND (Literal (Py.VFloat 5)) (Literal (Py.VFloat 3))) rt
  = (Py.Ok (Py.VFloat 3), rt)
  /\ Py.is_bool (Py.VFloat 3) = false.
Proof. split; reflexivity. Qed.

(** C3, as the code has it. The operands of a comparison and of AND/OR
    are evaluated left to right and both of them, whatever the left
    value is. An exception of the left operand is the expression's,
    before the right operand is looked at; otherwise an exception of the
    right operand is. With both values, a comparison is Python's
    operator on them: [=] and [<>] always yield a boolean, the four
    ordering operators raise TypeError when an operand is None and yield
    a boolean otherwise (on integers the comparison of the integers,
    on floats that of the floats). AND and OR yield one of the two
    operand values, as Python's [and] and [or] do: the left one decides
    by its truth. The result is a boolean when both operands are. *)
Theorem operands_evaluated_unconditionally l r rt :
  (forall e rt1,
     _evaluate_expression l rt = (Py.Raise e, rt1) ->
     (forall op, _evaluate_expression (Comparison op l r) rt = (Py.Raise e, rt1)) /\
     (forall op, _evaluate_expression (LogicalOp op l r) rt = (Py.Raise e, rt1))) /\
  (forall a rt1,
     _evaluate_expression l rt = (Py.Ok a, rt1) ->
     (forall e rt2,
        _evaluate_expression r rt1 = (Py.Raise e, rt2) ->
        (forall op, _evaluate_expression (Comparison op l r) rt = (Py.Raise e, rt2)) /\
        (forall op, _evaluate_expression (LogicalOp op l r) rt = (Py.Raise e, rt2))) /\
     (forall b rt2,
        _evaluate_expression r rt1 = (Py.Ok b, rt2) ->
        (_evaluate_expression (Comparison OpGt l r) rt = (Py.gt a b, rt2) /\
         _evaluate_expression (Comparison OpLt l r) rt = (Py.lt a b, rt2) /\
         _evaluate_expression (Comparison OpGe l r) rt = (Py.ge a b, rt2) /\
         _evaluate_expression (Comparison OpLe l r) rt = (Py.le a b, rt2) /\
         _evaluate_expression (Comparison OpEq l r) rt
         = (Py.Ok (Py.VBool (Py.eq a b)), rt2) /\
         _evaluate_expression (Comparison OpNe l r) rt
         = (Py.Ok (Py.VBool (negb (Py.eq a b))), rt2)) /\
        (forall op,
           op <> OpEq -> op <> OpNe -> a = Py.VNone \/ b = Py.VNone ->
           _evaluate_expression (Comparison op l r) rt = (Py.Raise Py.TypeError, rt2)) /\
        (forall op,
           a <> Py.VNone -> b <> Py.VNone ->
           exists t, _evaluate_expression (Comparison op l r) rt
                     = (Py.Ok (Py.VBool t), rt2)) /\
        (forall x y,
           a = Py.VInt x -> b = Py.VInt y ->
           _evaluate_expression (Comparison OpGt l r) rt = (Py.Ok (Py.VBool (x >? y)), rt2) /\
           _evaluate_expression (Comparison OpLt l r) rt = (Py.Ok (Py.VBool (x <? y)), rt2) /\
           _evaluate_expression (Comparison OpGe l r) rt = (Py.Ok (Py.VBool (x >=? y)), rt2) /\
           _evaluate_expression (Comparison OpLe l r) rt = (Py.Ok (Py.VBool (x <=? y)), rt2) /\
           _evaluate_expression (Comparison OpEq l r) rt = (Py.Ok (Py.VBool (x =? y)), rt2) /\
           _evaluate_expression (Comparison OpNe l r) rt
           = (Py.Ok (Py.VBool (negb (x =? y))), rt2)) /\
        (forall f g,
           a = Py.VFloat f -> b = Py.VFloat g ->
           _evaluate_expression (Comparison OpLt l r) rt
           = (Py.Ok (Py.VBool (PrimFloat.ltb f g)), rt2) /\
           _evaluate_expression (Comparison OpLe l r) rt
           = (Py.Ok (Py.VBool (PrimFloat.leb f g)), rt2) /\
           _evaluate_expression (Comparison OpEq l r) rt
           = (Py.Ok (Py.VBool (PrimFloat.eqb f g)), rt2)) /\
        _evaluate_expression (LogicalOp OpAND l r) rt
        = (Py.Ok (if Py.truthy a then b else a), rt2) /\
        _evaluate_expression (LogicalOp OpOR l r) rt
        = (Py.Ok (if Py.truthy a then a else b), rt2) /\
        (forall op v rt',
           _evaluate_expression (LogicalOp op l r) rt = (Py.Ok v, rt') ->
           Py.is_bool a = true -> Py.is_bool b = true -> Py.is_bool v = true))).
Proof.
  split.
  - intros e rt1 Hl. split; intros op; simpl; by rewrite (bind_raise _ _ _ _ _ Hl).
  - intros a rt1 Hl. split.
    + intros e rt2 Hr. split; intros op; simpl;
        by rewrite (bind_ok _ _ _ _ _ Hl), (bind_raise _ _ _ _ _ Hr).
    + intros b rt2 Hr.
      assert (Hcmp : forall op,
                _evaluate_expression (Comparison op l r) rt
                = (match op with
                   | OpGt => Py.gt a b
                   | OpLt => Py.lt a b
                   | OpGe => Py.ge a b
                   | OpLe => Py.le a b
                   | OpEq => Py.Ok (Py.VBool (Py.eq a b))
                   | OpNe => Py.Ok (Py.VBool (negb (Py.eq a b)))
                   end, rt2)).
      { intros op. simpl. rewrite (bind_ok _ _ _ _ _ Hl), (bind_ok _ _ _ _ _ Hr).
        by destruct op. }
      assert (Hlog : forall op,
                _evaluate_expression (LogicalOp op l r) rt
                = (Py.Ok (match op with
                          | OpAND => if Py.truthy a then b else a
                          | OpOR => if Py.truthy a then a else b
                          end), rt2)).
      { intros op. simpl. rewrite (bind_ok _ _ _ _ _ Hl), (bind_ok _ _ _ _ _ Hr).
        by destruct op. }
      split; [by rewrite !Hcmp|]. split; [|split; [|split; [|split]]].
      * intros op Heq Hne Hnone. rewrite Hcmp.
        destruct op; try done;
          unfold Py.gt, Py.lt, Py.ge, Py.le, Py.ordering;
          destruct Hnone as [-> | ->]; simpl; try done; by destruct (Py.as_num a).
      * intros op Ha Hb. rewrite Hcmp.
        destruct op; unfold Py.gt, Py.lt, Py.ge, Py.le, Py.ordering;
          destruct a, b; try done; simpl; eauto.
      * intros x y -> ->. rewrite !Hcmp.
        assert (Heq : Py.eq (Py.VInt x) (Py.VInt y) = (x =? y)).
        { unfold Py.eq. simpl. destruct (Z.eqb_spec x y) as [->|Hxy].
          - by rewrite Z.compare_refl.
          - destruct (Z.compare_spec x y); done. }
        rewrite Heq. by repeat split.
      * intros f g -> ->. rewrite !Hcmp.
        unfold Py.lt, Py.le, Py.ordering, Py.eq. simpl. unfold Py.float_compare.
        rewrite FloatAxioms.ltb_spec, FloatAxioms.leb_spec, FloatAxioms.eqb_spec,
          FloatAxioms.compare_spec. unfold flatten_cmp_opt.
        unfold SFltb, SFleb, SFeqb.
        by destruct (SFcompare (Prim2SF f) (Prim2SF g)) as [[]|].
      * split; [by rewrite Hlog|]. split; [by rewrite Hlog|].
        intros op v rt' Hv Ha Hb. rewrite Hlog in Hv. injection Hv as <- _.
        destruct op; by destruct (Py.truthy a).
Qed.

(** [FALSE AND -Missing], [Missing < 3], [2 > 1] and [TRUE AND FALSE] on
    the default memory: the right operand of the AND is evaluated though
    the left one is false, and its TypeError is the expression's; the
    ordering of None raises; the other two are false and true. *)
Lemma operands_evaluated_unconditionally_witness :
  let rt := PLCRuntime_init None in
  _evaluate_expression
    (LogicalOp OpAND (Literal (Py.VBool false))
       (UnaryOp OpNeg (VariableRef "Missing"))) rt
  = (Py.Raise Py.TypeError, with_log (LogVariableNotFound "Missing") rt) /\
  _evaluate_expression
    (Comparison OpLt (VariableRef "Missing") (Literal (Py.VFloat 3))) rt
  = (Py.Raise Py.TypeError, with_log (LogVariableNotFound "Missing") rt) /\
  _evaluate_expression
    (Comparison OpGt (Literal (Py.VFloat 2)) (Literal (Py.VFloat 1))) rt
  = (Py.Ok (Py.VBool true), rt) /\
  _evaluate_expression
    (LogicalOp OpAND (Literal (Py.VBool true)) (Literal (Py.VBool false))) rt
  = (Py.Ok (Py.VBool false), rt).
Proof.
  intros rt. split; [|split; [|split]].
  - destruct (operands_evaluated_unconditionally
                (Literal (Py.VBool false)) (UnaryOp OpNeg (VariableRef "Missing")) rt)
      as [_ H].
    destruct (H (Py.VBool false) rt eq_refl) as [Hraise _].
    apply (Hraise Py.TypeError (with_log (LogVariableNotFound "Missing") rt) eq_refl).
  - destruct (operands_evaluated_unconditionally
                (VariableRef "Missing") (Literal (Py.VFloat 3)) rt) as [_ H].
    destruct (H Py.VNone (with_log (LogVariableNotFound "Missing") rt) eq_refl)
      as [_ Hboth].
    destruct (Hboth (Py.VFloat 3) (with_log (LogVariableNotFound "Missing") rt) eq_refl)
      as (_ & Hnone & _).
    apply Hnone; [discriminate | discriminate | by left].
  - destruct (operands_evaluated_unconditionally
                (Literal (Py.VFloat 2)) (Literal (Py.VFloat 1)) rt) as [_ H].
    destruct (H (Py.VFloat 2) rt eq_refl) as [_ Hboth].
    destruct (Hboth (Py.VFloat 1) rt eq_refl) as ((Hgt & _) & _).
    exact Hgt.
  - destruct (operands_evaluated_unconditionally
                (Literal (Py.VBool true)) (Literal (Py.VBool false)) rt) as [_ H].
    destruct (H (Py.VBool true) rt eq_refl) as [_ Hboth].
    destruct (Hboth (Py.VBool false) rt eq_refl) as (_ & _ & _ & _ & _ & Hand & _).
    exact Hand.
Defined.

(** *** The handler of a cycle *)

Lemma execute_cycle_raise rt e rt' :
  cycle_body (begin_cycle rt) = (Py.Raise e, rt') ->
  execute_cycle rt =
    with_memory (set_outputs "AlarmActive" (Py.VBool true))
      (with_log (LogCycleError e) rt').
Proof. intros H. unfold execute_cycle. by rewrite H. Qed.

(** *** Assignments and the inputs *)

(** C5, the counterexample: [AlarmActive] is a declared input; the
    first cycle raises, which puts the name into the outputs as well;
    from then on the assignment [AlarmActive := FALSE] is carried out on
    the output mapping, so Memory is not what it was before it. *)
Lemma declared_input_written_as_output :
  let rt1 := execute_cycle (PLCRuntime_init (Some alarm_declared_as_input)) in
  let rt2 := snd (_execute_statement
                    (Assignment "AlarmActive" (Literal (Py.VBool false))) rt1) in
  is_input <$> variables alarm_declared_as_input !! "AlarmActive" = Some true /\
  inputs (memory rt1) !! "AlarmActive" = Some (Py.VBool false) /\
  outputs (memory rt1) !! "AlarmActive" = Some (Py.VBool true) /\
  outputs (memory rt2) !! "AlarmActive" = Some (Py.VBool false).
Proof. vm_compute. done. Qed.

Lemma assignment_to_input_same_memory target e rt :
  is_Some (inputs (memory rt) !! target) ->
  outputs (memory rt) !! target = None ->
  memory (snd (_execute_statement (Assignment target e) rt)) = memory rt.
Proof.
  intros Hin Hout. simpl. unfold bind.
  pose proof (_evaluate_expression_same_memory e rt) as Hmem.
  destruct (_evaluate_expression e rt) as [[value|err] rt1]; simpl in *; [|exact Hmem].
  unfold same_memory in Hmem. unfold self. rewrite Hmem, Hout.
  rewrite decide_False by (by intros [? ?]).
  by rewrite decide_True.
Qed.

(** C5, as the code has it. An assignment whose target is in the input
    mapping and not in the output mapping is rejected: Memory after the
    statement is Memory before it (the value is still evaluated, and a
    warning is logged). And no number of cycles, of any program or of
    the default controller, changes the input mapping. *)
Theorem input_assignment_rejected target e rt :
  is_Some (inputs (memory rt) !! target) ->
  outputs (memory rt) !! target = None ->
  memory (snd (_execute_statement (Assignment target e) rt)) = memory rt /\
  forall n rt0, inputs (memory (Nat.iter n execute_cycle rt0)) = inputs (memory rt0).
Proof.
  intros Hin Hout. split.
  - by apply assignment_to_input_same_memory.
  - intros n rt0. apply (execute_cycles_same_inputs n rt0).
Qed.

Lemma input_assignment_rejected_witness :
  let rt := PLCRuntime_init (Some alarm_declared_as_input) in
  memory (snd (_execute_statement
                 (Assignment "AlarmActive" (Literal (Py.VBool true))) rt))
  = memory rt.
Proof.
  intros rt.
  apply (input_assignment_rejected "AlarmActive" (Literal (Py.VBool true)) rt).
  - by exists (Py.VBool false).
  - reflexivity.
Defined.

(** *** The default controller *)

Lemma cycle_body_default rt :
  runs_default_controller rt ->
  cycle_body (begin_cycle rt) =
    _execute_default_logic
      {| program := program rt; memory := memory rt;
         cycle_count := cycle_count rt + 1;
         system_enabled :=
           default (Py.VBool false) (inputs (memory rt) !! "SystemEnable");
         log := log rt |}.
Proof.
  unfold runs_default_controller, cycle_body, bind, self, update. simpl.
  destruct (program rt) as [p|]; [|done]. by intros ->.
Qed.

Lemma _execute_default_logic_disabled rt :
  Py.truthy (system_enabled rt) = false ->
  _execute_default_logic rt =
    (Py.Ok tt,
     with_memory (fun m => set_outputs "SystemStatus" (Py.VInt 0)
                             (set_outputs "ChillerOn" (Py.VBool false)
                                (set_outputs "FanSpeed" (Py.VInt 0) m))) rt).
Proof.
  intros Hoff. unfold _execute_default_logic, bind, self. by rewrite Hoff.
Qed.

(** C7. With [system_enabled] false the default controller returns
    without raising and without reading any input, and leaves
    FanSpeed = 0, ChillerOn = False and SystemStatus = 0 in the outputs;
    the inputs and internal variables are as they were. So does a whole
    cycle of the default controller when the SystemEnable input is false
    or absent. *)
Theorem default_controller_disabled rt :
  Py.truthy (system_enabled rt) = false ->
  fst (_execute_default_logic rt) = Py.Ok tt /\
  outputs (memory (snd (_execute_default_logic rt))) !! "FanSpeed" = Some (Py.VInt 0) /\
  outputs (memory (snd (_execute_default_logic rt))) !! "ChillerOn" = Some (Py.VBool false) /\
  outputs (memory (snd (_execute_default_logic rt))) !! "SystemStatus" = Some (Py.VInt 0) /\
  inputs (memory (snd (_execute_default_logic rt))) = inputs (memory rt) /\
  internal (memory (snd (_execute_default_logic rt))) = internal (memory rt) /\
  (forall rt0,
     runs_default_controller rt0 ->
     Py.truthy (default (Py.VBool false) (inputs (memory rt0) !! "SystemEnable")) = false ->
     outputs (memory (execute_cycle rt0)) !! "FanSpeed" = Some (Py.VInt 0) /\
     outputs (memory (execute_cycle rt0)) !! "ChillerOn" = Some (Py.VBool false) /\
     outputs (memory (execute_cycle rt0)) !! "SystemStatus" = Some (Py.VInt 0) /\
     log (execute_cycle rt0) = log rt0).
Proof.
  intros Hoff. rewrite (_execute_default_logic_disabled rt Hoff). simpl.
  do 6 (split; [by simplify_map_eq|]).
  intros rt0 Hdefault Hen.
  unfold execute_cycle. rewrite (cycle_body_default rt0 Hdefault).
  rewrite _execute_default_logic_disabled by exact Hen. simpl.
  by simplify_map_eq.
Qed.

Lemma default_controller_disabled_witness :
  let rt := with_memory (set_inputs "RoomTemperature" (Py.VFloat 35))
              (PLCRuntime_init None) in
  outputs (memory (execute_cycle rt)) !! "FanSpeed" = Some (Py.VInt 0).
Proof.
  intros rt.
  apply (default_controller_disabled rt eq_refl); reflexivity || exact I.
Defined.

(** C2, the counterexample: the temperature error is about 1.7, above
    the deadband 1.0, and 20 times it is 33.999999999999986; the
    controller sets FanSpeed to 33, the integer part, where the rounded
    value is 34. *)
Lemma fan_speed_is_truncated :
  internal (memory (execute_cycle room_21_7_setpoint_20)) !! "CoolingRequired"
  = Some (Py.VBool true) /\
  outputs (memory (execute_cycle room_21_7_setpoint_20)) !! "FanSpeed"
  = Some (Py.VInt 33) /\
  spec_fan_speed (217 / 10 - 200 / 10) = Some 34.
Proof. vm_compute. done. Qed.

Lemma sub_floats f g : Py.sub (Py.VFloat f) (Py.VFloat g) = Py.Ok (Py.VFloat (f - g)).
Proof. reflexivity. Qed.

Lemma mul_float_20 f : Py.mul (Py.VFloat f) (Py.VInt 20) = Py.Ok (Py.VFloat (f * 20)).
Proof. reflexivity. Qed.

Lemma gt_floats f g : exists b, Py.gt (Py.VFloat f) (Py.VFloat g) = Py.Ok (Py.VBool b).
Proof. by eexists. Qed.

#[local] Arguments Py.sub : simpl never.
#[local] Arguments Py.mul : simpl never.
#[local] Arguments Py.gt : simpl never.
#[local] Arguments Py.int : simpl never.

Lemma _execute_default_logic_cooling rt room setpoint deadband hroom hsetpoint hdeadband k :
  Py.truthy (system_enabled rt) = true ->
  inputs (memory rt) !! "RoomTemperature" = Some (Py.VFloat room) ->
  inputs (memory rt) !! "SetpointTemp" = Some (Py.VFloat setpoint) ->
  inputs (memory rt) !! "TempDeadband" = Some (Py.VFloat deadband) ->
  inputs (memory rt) !! "RoomHumidity" = Some (Py.VFloat hroom) ->
  inputs (memory rt) !! "SetpointHumidity" = Some (Py.VFloat hsetpoint) ->
  inputs (memory rt) !! "HumidityDeadband" = Some (Py.VFloat hdeadband) ->
  Py.gt (Py.VFloat (room - setpoint)) (Py.VFloat deadband) = Py.Ok (Py.VBool true) ->
  Py.Z_of_float ((room - setpoint) * 20) = Py.Ok k ->
  exists dehumid,
  _execute_default_logic rt =
    (Py.Ok tt,
     with_memory (fun m =>
       set_outputs "FanSpeed" (Py.VInt (Z.min 100 (Z.max 30 k)))
         (set_outputs "SystemStatus" (Py.VInt 1)
            (set_outputs "ChillerOn" (Py.VBool true)
               (set_internal "DehumidRequired" (Py.VBool dehumid)
                  (set_internal "CoolingRequired" (Py.VBool true)
                     (set_internal "HumidityError" (Py.VFloat (hroom - hsetpoint))
                        (set_internal "TempError" (Py.VFloat (room - setpoint)) m)))))))
       rt).
Proof.
  intros Hon Hroom Hset Hdead Hhroom Hhset Hhdead Hcool Hint.
  destruct (gt_floats (hroom - hsetpoint) hdeadband) as [dehumid Hdehumid].
  exists dehumid.
  unfold _execute_default_logic, input, getitem, bind, self, lift; simpl.
  rewrite Hon; simpl.
  rewrite Hroom, Hset, Hhroom, Hhset, Hdead, Hhdead, !sub_floats, Hcool, Hdehumid; cbn.
  rewrite mul_float_20. unfold Py.int; cbn. by rewrite Hint.
Qed.

Lemma clamp_min_max k : Z.min 100 (Z.max 30 k) = clamp 30 100 k.
Proof. unfold clamp. lia. Qed.

(** C2, as the code has it. In a cycle of the default controller with
    SystemEnable true and the six inputs floats, when the temperature
    error [RoomTemperature - SetpointTemp] is above TempDeadband and [k]
    is 20 times that error cut to its integer part ([int], toward zero),
    the cycle raises nothing and leaves ChillerOn = True,
    SystemStatus = 1 and FanSpeed = clamp(30, 100, k). *)
Theorem default_controller_cooling rt enable room setpoint deadband
    hroom hsetpoint hdeadband k :
  runs_default_controller rt ->
  inputs (memory rt) !! "SystemEnable" = Some enable ->
  Py.truthy enable = true ->
  inputs (memory rt) !! "RoomTemperature" = Some (Py.VFloat room) ->
  inputs (memory rt) !! "SetpointTemp" = Some (Py.VFloat setpoint) ->
  inputs (memory rt) !! "TempDeadband" = Some (Py.VFloat deadband) ->
  inputs (memory rt) !! "RoomHumidity" = Some (Py.VFloat hroom) ->
  inputs (memory rt) !! "SetpointHumidity" = Some (Py.VFloat hsetpoint) ->
  inputs (memory rt) !! "HumidityDeadband" = Some (Py.VFloat hdeadband) ->
  Py.gt (Py.VFloat (room - setpoint)) (Py.VFloat deadband) = Py.Ok (Py.VBool true) ->
  Py.int (Py.VFloat ((room - setpoint) * 20)) = Py.Ok k ->
  outputs (memory (execute_cycle rt)) !! "ChillerOn" = Some (Py.VBool true) /\
  outputs (memory (execute_cycle rt)) !! "SystemStatus" = Some (Py.VInt 1) /\
  outputs (memory (execute_cycle rt)) !! "FanSpeed" = Some (Py.VInt (clamp 30 100 k)) /\
  log (execute_cycle rt) = log rt.
Proof.
  intros Hdefault Hen Hon Hroom Hset Hdead Hhroom Hhset Hhdead Hcool Hint.
  unfold execute_cycle. rewrite (cycle_body_default rt Hdefault).
  edestruct (_execute_default_logic_cooling) as [dehumid ->]; try eassumption.
  - simpl. by rewrite Hen.
  - simpl. rewrite clamp_min_max. by simplify_map_eq.
Qed.

Lemma default_controller_cooling_witness :
  outputs (memory (execute_cycle scenario_B)) !! "ChillerOn" = Some (Py.VBool true) /\
  outputs (memory (execute_cycle scenario_B)) !! "SystemStatus" = Some (Py.VInt 1) /\
  outputs (memory (execute_cycle scenario_B)) !! "FanSpeed" = Some (Py.VInt 60) /\
  log (execute_cycle scenario_B) = log scenario_B.
Proof.
  apply (default_controller_cooling scenario_B (Py.VBool true) 25 22 1 50 45 5 60);
    reflexivity || exact I.
Defined.

(** *** IF statements *)

Lemma conditions_false_same_memory clauses rt rt' :
  conditions_false clauses rt rt' -> memory rt' = memory rt.
Proof.
  induction 1 as [|cond block rest rt v rt1 rt2 Hcond _ _ IH]; [done|].
  rewrite IH. pose proof (_evaluate_expression_same_memory cond rt) as Hmem.
  by rewrite Hcond in Hmem.
Qed.

Lemma execute_elsif_skip exec else_block before rest rt rt' :
  conditions_false before rt rt' ->
  execute_elsif exec else_block (before ++ rest) rt =
  execute_elsif exec else_block rest rt'.
Proof.
  induction 1 as [|cond block before rt v rt1 rt2 Hcond Hfalse _ IH]; [done|].
  simpl. rewrite (bind_ok _ _ _ _ _ Hcond), Hfalse. exact IH.
Qed.

Lemma execute_elsif_else exec else_block rt :
  execute_elsif exec else_block [] rt = execute_block exec (default [] else_block) rt.
Proof. by destruct else_block as [[|s b]|]. Qed.

(** C6. An IF statement whose condition has a value runs the
    statements of one block, in order, and of no other. A true condition
    runs the THEN block: the ELSIF clauses and the ELSE block play no
    part in the result. A false condition runs the block of the first
    ELSIF clause, in order, whose condition is true: the clauses after
    it and the ELSE block play no part in the result, so they are
    neither evaluated nor run. When all conditions are false the ELSE
    block runs, or nothing when there is none. The block runs on the
    Memory the IF started with, and how it ends is how the IF ends. *)
Theorem if_runs_one_branch c then_block elsif_clauses else_block rt v rt1 :
  _evaluate_expression c rt = (Py.Ok v, rt1) ->
  memory rt1 = memory rt /\
  (Py.truthy v = true ->
   runs_in_order then_block rt1
     (_execute_if_statement c then_block elsif_clauses else_block rt) /\
   (forall other_clauses other_else,
      _execute_if_statement c then_block other_clauses other_else rt
      = _execute_if_statement c then_block elsif_clauses else_block rt)) /\
  (Py.truthy v = false ->
   forall before cond block after rt2 w rt3,
     elsif_clauses = before ++ (cond, block) :: after ->
     conditions_false before rt1 rt2 ->
     _evaluate_expression cond rt2 = (Py.Ok w, rt3) ->
     Py.truthy w = true ->
     runs_in_order block rt3
       (_execute_if_statement c then_block elsif_clauses else_block rt) /\
     memory rt3 = memory rt /\
     (forall other_then other_after other_else,
        _execute_if_statement c other_then
          (before ++ (cond, block) :: other_after) other_else rt
        = _execute_if_statement c then_block elsif_clauses else_block rt)) /\
  (Py.truthy v = false ->
   forall rt2,
     conditions_false elsif_clauses rt1 rt2 ->
     runs_in_order (default [] else_block) rt2
       (_execute_if_statement c then_block elsif_clauses else_block rt) /\
     memory rt2 = memory rt /\
     (forall other_then,
        _execute_if_statement c other_then elsif_clauses else_block rt
        = _execute_if_statement c then_block elsif_clauses else_block rt)).
Proof.
  intros Hc.
  assert (Hmem1 : memory rt1 = memory rt).
  { pose proof (_evaluate_expression_same_memory c rt) as H. by rewrite Hc in H. }
  split; [exact Hmem1|].
  assert (Hif : forall tb clauses eb,
            _execute_if_statement c tb clauses eb rt
            = if Py.truthy v then execute_block _execute_statement tb rt1
              else execute_elsif _execute_statement eb clauses rt1).
  { intros tb clauses eb. unfold _execute_if_statement. simpl.
    rewrite (bind_ok _ _ _ _ _ Hc). by destruct (Py.truthy v). }
  split; [|split]; intros Hv.
  - split.
    + rewrite Hif, Hv. apply execute_block_runs_in_order.
    + intros other_clauses other_else. by rewrite !Hif, Hv.
  - intros before cond block after rt2 w rt3 -> Hbefore Hcond Htrue.
    assert (Hrun : forall after' eb,
              execute_elsif _execute_statement eb (before ++ (cond, block) :: after') rt1
              = execute_block _execute_statement block rt3).
    { intros after' eb. rewrite (execute_elsif_skip _ _ _ _ _ _ Hbefore). simpl.
      by rewrite (bind_ok _ _ _ _ _ Hcond), Htrue. }
    split; [|split].
    + rewrite Hif, Hv, Hrun. apply execute_block_runs_in_order.
    + pose proof (_evaluate_expression_same_memory cond rt2) as H.
      rewrite Hcond in H. unfold same_memory in H. simpl in H.
      by rewrite H, (conditions_false_same_memory _ _ _ Hbefore).
    + intros other_then other_after other_else. by rewrite !Hif, Hv, !Hrun.
  - intros rt2 Hall.
    assert (Hrun : execute_elsif _execute_statement else_block elsif_clauses rt1
                   = execute_block _execute_statement (default [] else_block) rt2).
    { rewrite <- (app_nil_r elsif_clauses), (execute_elsif_skip _ _ _ _ _ _ Hall).
      apply execute_elsif_else. }
    split; [|split].
    + rewrite Hif, Hv, Hrun. apply execute_block_runs_in_order.
    + by rewrite (conditions_false_same_memory _ _ _ Hall).
    + intros other_then. by rewrite !Hif, Hv.
Qed.

(** [IF FALSE THEN x := 1; ELSIF y = 0 THEN x := 2; ELSIF TRUE THEN x := 3;
     ELSIF TRUE THEN x := 4; ELSE x := 5; END_IF;] with [y] missing from
    memory: the block of the second ELSIF is the one that runs, so [x]
    holds 3.0 afterwards, and the only log entry is the warning for [y]. *)
Lemma if_runs_one_branch_witness :
  let set_x n := [Assignment "x" (Literal (Py.VFloat n))] in
  let y_is_0 := Comparison OpEq (VariableRef "y") (Literal (Py.VFloat 0)) in
  let yes := Literal (Py.VBool true) in
  let rt := PLCRuntime_init None in
  let result :=
    _execute_if_statement (Literal (Py.VBool false)) (set_x 1%float)
      [(y_is_0, set_x 2%float); (yes, set_x 3%float); (yes, set_x 4%float)]
      (Some (set_x 5%float)) rt in
  fst result = Py.Ok tt /\
  internal (memory (snd result)) !! "x" = Some (Py.VFloat 3) /\
  log (snd result) = [LogVariableNotFound "y"].
Proof.
  intros set_x y_is_0 yes rt result.
  destruct (if_runs_one_branch (Literal (Py.VBool false)) (set_x 1%float)
              [(y_is_0, set_x 2%float); (yes, set_x 3%float); (yes, set_x 4%float)]
              (Some (set_x 5%float)) rt (Py.VBool false) rt eq_refl)
    as (_ & _ & Helsif & _).
  destruct (Helsif eq_refl [(y_is_0, set_x 2%float)] yes (set_x 3%float)
              [(yes, set_x 4%float)] (with_log (LogVariableNotFound "y") rt)
              (Py.VBool true) (with_log (LogVariableNotFound "y") rt)
              eq_refl
              (conditions_false_cons y_is_0 (set_x 2%float) [] rt (Py.VBool false)
                 (with_log (LogVariableNotFound "y") rt)
                 (with_log (LogVariableNotFound "y") rt)
                 eq_refl eq_refl (conditions_false_nil _))
              eq_refl eq_refl) as (Hruns & _ & _).
  apply runs_in_order_unique in Hruns. unfold result. rewrite <- Hruns.
  repeat split.
Defined.

(** *** Memory initialisation *)

Lemma initialize_variable_lookup_eq name var m :
  class_of var (initialize_variable name var m) !! name
  = Some (_get_default_value (var_type var) (initial_value var)).
Proof.
  unfold class_of, initialize_variable.
  destruct (is_input var), (is_output var); simpl; by simplify_map_eq.
Qed.

Lemma initialize_variable_lookup_ne name var other var' m :
  name <> other ->
  class_of var' (initialize_variable name var m) !! other = class_of var' m !! other.
Proof.
  intros Hne. unfold class_of, initialize_variable.
  destruct (is_input var), (is_output var), (is_input var'), (is_output var');
    simpl; by simplify_map_eq.
Qed.

Lemma map_fold_initialize_variable (vars : gmap string ProgramVariable) m0 name var :
  vars !! name = Some var ->
  class_of var (map_fold initialize_variable m0 vars) !! name
  = Some (_get_default_value (var_type var) (initial_value var)).
Proof.
  revert name var.
  apply (map_fold_weak_ind (fun m (vars : gmap string ProgramVariable) =>
    forall name var, vars !! name = Some var ->
      class_of var m !! name
      = Some (_get_default_value (var_type var) (initial_value var)))).
  - intros name var Hlookup. by rewrite lookup_empty in Hlookup.
  - intros i x vars' m Hfresh IH name var Hlookup.
    destruct (decide (i = name)) as [->|Hne].
    + rewrite lookup_insert_eq in Hlookup. injection Hlookup as ->.
      apply initialize_variable_lookup_eq.
    + rewrite lookup_insert_ne in Hlookup by done.
      rewrite initialize_variable_lookup_ne by done. by apply IH.
Qed.

(** C10. After a runtime is built from a program, every declared
    variable is in the mapping of its class (input, output or internal)
    with the value [_get_default_value] gives; that value is the
    declared literal when the declaration has one, and without an
    initial value it is False for BOOL, the integer 0 for INT, the float
    0.0 for REAL and the integer 0 for TIME. *)
Theorem memory_initialized_from_declarations p name var :
  variables p !! name = Some var ->
  class_of var (memory (PLCRuntime_init (Some p))) !! name
  = Some (_get_default_value (var_type var) (initial_value var)) /\
  (forall type_name v,
     _get_default_value type_name (Some (InitExpr (Literal v))) = v) /\
  _get_default_value "BOOL" None = Py.VBool false /\
  _get_default_value "INT" None = Py.VInt 0 /\
  _get_default_value "REAL" None = Py.VFloat 0 /\
  _get_default_value "TIME" None = Py.VInt 0.
Proof.
  intros Hlookup. split; [|by repeat split].
  unfold PLCRuntime_init, _initialize_memory, bind, self, update. simpl.
  by apply map_fold_initialize_variable.
Qed.

Lemma memory_initialized_from_declarations_witness :
  internal (memory (PLCRuntime_init (Some reads_missing_variable))) !! "x"
  = Some (Py.VFloat 0).
Proof.
  apply (memory_initialized_from_declarations reads_missing_variable "x"
           {| var_name := "x"; var_type := "REAL"; initial_value := None;
              is_input := false; is_output := false |}).
  reflexivity.
Defined.

(** *** The scan loop and supervisory writes *)

(** Supervisory writes land in the register table only. *)
Lemma supervisory_writes_runtime ws sim :
  runtime (supervisory_writes ws sim) = runtime sim /\
  client (supervisory_writes ws sim) = client sim.
Proof.
  revert sim. induction ws as [|w ws IH]; intros sim; [done|].
  simpl. destruct (IH (supervisory_write w sim)) as [-> ->]. done.
Qed.

Lemma same_runtime_refl sim : same_runtime sim sim.
Proof. done. Qed.
Lemma same_runtime_trans sim1 sim2 sim3 :
  same_runtime sim1 sim2 -> same_runtime sim2 sim3 -> same_runtime sim1 sim3.
Proof. unfold same_runtime. congruence. Qed.

Lemma _write_register_same_runtime name value :
  preserves same_runtime (_write_register name value).
Proof. intros sim. unfold _write_register. by destruct (register_map !! name). Qed.

Ltac same_runtime_step :=
  first
    [ apply _write_register_same_runtime
    | preserves_step same_runtime_refl same_runtime_trans ].

Lemma mirror_sensors_same_runtime temp humidity :
  preserves same_runtime (mirror_sensors temp humidity).
Proof. unfold mirror_sensors. repeat same_runtime_step. Qed.

Lemma read_inputs_runtime reply sim :
  runtime (read_inputs reply sim)
  = if client sim then merge_sensors reply (runtime sim) else runtime sim.
Proof.
  unfold read_inputs, merge_sensors. destruct (client sim); [|done].
  destruct reply as [[r0 r1]|]; [|done].
  unfold negb, try_except. unfold bind at 1, lift at 1.
  destruct (Py.truediv (Py.VInt r0) _) as [temp|]; [|done].
  unfold bind at 1, lift at 1.
  destruct (Py.truediv (Py.VInt r1) _) as [humidity|]; [|done].
  unfold bind at 1 2, set_input, on_runtime, update.
  apply (mirror_sensors_same_runtime temp humidity).
Qed.

Lemma converts_tenths w :
  converts w = true -> Py.truediv (Py.VInt w) (Py.VFloat 10) = Py.Ok (tenths w).
Proof. unfold converts, tenths. by destruct (Py.truediv _ _). Qed.

Lemma scaled_command_ok name sim :
  converts (word (holding_registers sim) (address name)) = true ->
  scaled_command name sim =
    (Py.Ok tt,
     snd (set_input name (tenths (word (holding_registers sim) (address name))) sim)).
Proof.
  intros Hw. unfold scaled_command, getValues, bind, self, ret, lift.
  by rewrite (converts_tenths _ Hw).
Qed.

Lemma copy_commands_ok sim :
  command_words (holding_registers sim) ->
  copy_commands sim =
    (Py.Ok tt,
     {| runtime := with_memory (copied_inputs (holding_registers sim)) (runtime sim);
        holding_registers := holding_registers sim;
        client := client sim; sent_to_plant := sent_to_plant sim |}).
Proof.
  unfold command_words, scaled_commands. rewrite !Forall_cons.
  intros (H1 & H2 & H3 & H4 & _).
  unfold copy_commands.
  unfold bind at 1. unfold getValues at 1. unfold bind at 1. unfold self, ret.
  unfold bind at 1. unfold set_input at 1. unfold on_runtime, update.
  unfold bind at 1. rewrite scaled_command_ok by exact H1.
  unfold bind at 1. rewrite scaled_command_ok by exact H2.
  unfold bind at 1. rewrite scaled_command_ok by exact H3.
  rewrite scaled_command_ok by exact H4.
  reflexivity.
Qed.

Lemma publish_status_same_runtime : preserves same_runtime publish_status.
Proof. unfold publish_status, output_word. repeat same_runtime_step. Qed.

Lemma update_server_registers_runtime sim :
  command_words (holding_registers sim) ->
  runtime (update_server_registers sim)
  = with_memory (copied_inputs (holding_registers sim)) (runtime sim).
Proof.
  intros Hw. unfold update_server_registers, try_except.
  unfold bind. rewrite (copy_commands_ok sim Hw).
  match goal with
  | |- context [publish_status ?s] => apply (publish_status_same_runtime s)
  end.
Qed.

Lemma same_runtime_and_registers_refl sim : same_runtime_and_registers sim sim.
Proof. done. Qed.
Lemma same_runtime_and_registers_trans sim1 sim2 sim3 :
  same_runtime_and_registers sim1 sim2 -> same_runtime_and_registers sim2 sim3 ->
  same_runtime_and_registers sim1 sim3.
Proof. unfold same_runtime_and_registers. intros [? ?] [? ?]. split; congruence. Qed.

Lemma write_outputs_runtime sim :
  runtime (write_outputs sim) = runtime sim /\
  holding_registers (write_outputs sim) = holding_registers sim.
Proof.
  unfold write_outputs. destruct (client sim); [|done]. unfold negb, try_except.
  match goal with |- context [snd (?c sim)] =>
    cut (preserves same_runtime_and_registers c); [intros H; apply (H sim)|]
  end.
  repeat preserves_step same_runtime_and_registers_refl same_runtime_and_registers_trans.
Qed.

Lemma phase_execute_runtime sim :
  runtime (phase_execute sim) = execute_cycle (runtime sim) /\
  holding_registers (phase_execute sim) = holding_registers sim.
Proof. done. Qed.

(** *** The command block between two publish steps *)

Lemma same_commands_refl regs : same_commands regs regs.
Proof. done. Qed.

Lemma same_commands_trans regs1 regs2 regs3 :
  same_commands regs1 regs2 -> same_commands regs2 regs3 -> same_commands regs1 regs3.
Proof.
  intros [Hlen1 H1] [Hlen2 H2]. split; [congruence|].
  intros i ? ?. by rewrite H1, H2.
Qed.

Lemma same_commands_insert regs regs' (i : nat) (v : Z) :
  same_commands regs regs' -> same_commands (<[i := v]> regs) (<[i := v]> regs').
Proof.
  intros [Hlen H]. split; [by rewrite !length_insert|].
  intros j Hj Hj'. destruct (decide (i = j)) as [->|Hne].
  - destruct (decide (j < length regs)%nat) as [Hlt|Hge].
    + rewrite !list_lookup_insert_eq by lia. done.
    + rewrite !list_insert_ge by lia. by apply H.
  - rewrite !list_lookup_insert_ne by done. by apply H.
Qed.

Lemma same_commands_mirror regs (i : nat) (v : Z) :
  i = 100%nat \/ i = 101%nat -> same_commands regs (<[i := v]> regs).
Proof.
  intros Hi. split; [by rewrite length_insert|].
  intros j ? ?. rewrite list_lookup_insert_ne; [done|]. lia.
Qed.

Lemma same_commands_word regs regs' name :
  same_commands regs regs' ->
  name ∈ "SystemEnable" :: scaled_commands ->
  word regs (address name) = word regs' (address name).
Proof.
  intros [_ H] Hname. unfold word. rewrite H; [done| |];
    unfold scaled_commands in Hname;
    repeat (apply elem_of_cons in Hname as [->|Hname]; [by vm_compute|]);
    by apply elem_of_nil in Hname.
Qed.

Lemma same_commands_sim_refl sim : same_commands_sim sim sim.
Proof. apply same_commands_refl. Qed.

Lemma same_commands_sim_trans sim1 sim2 sim3 :
  same_commands_sim sim1 sim2 -> same_commands_sim sim2 sim3 -> same_commands_sim sim1 sim3.
Proof. apply same_commands_trans. Qed.

Lemma _write_register_sensor_mirror name value :
  name = "RoomTemperature" \/ name = "RoomHumidity" ->
  preserves same_commands_sim (_write_register name value).
Proof.
  intros [-> | ->] sim.
  - change (_write_register "RoomTemperature" value sim)
      with (setValues 100 value sim).
    apply (same_commands_mirror (holding_registers sim)). by left.
  - change (_write_register "RoomHumidity" value sim)
      with (setValues 101 value sim).
    apply (same_commands_mirror (holding_registers sim)). by right.
Qed.

Lemma mirror_sensors_same_commands temp humidity :
  preserves same_commands_sim (mirror_sensors temp humidity).
Proof.
  unfold mirror_sensors.
  repeat (first
    [ apply _write_register_sensor_mirror; by auto
    | preserves_step same_commands_sim_refl same_commands_sim_trans ]).
Qed.

Lemma read_inputs_same_commands reply sim :
  same_commands (holding_registers sim) (holding_registers (read_inputs reply sim)).
Proof.
  unfold read_inputs. destruct (client sim); [|apply same_commands_refl].
  destruct reply as [[r0 r1]|]; [|apply same_commands_refl].
  unfold negb, try_except. unfold bind at 1, lift at 1.
  destruct (Py.truediv (Py.VInt r0) _) as [temp|]; [|apply same_commands_refl].
  unfold bind at 1, lift at 1.
  destruct (Py.truediv (Py.VInt r1) _) as [humidity|]; [|apply same_commands_refl].
  unfold bind at 1 2, set_input, on_runtime, update.
  match goal with |- context [mirror_sensors _ _ ?s] =>
    apply (mirror_sensors_same_commands temp humidity s)
  end.
Qed.

Lemma supervisory_writes_same_commands ws sim sim' :
  same_commands (holding_registers sim) (holding_registers sim') ->
  same_commands (holding_registers (supervisory_writes ws sim))
                (holding_registers (supervisory_writes ws sim')).
Proof.
  revert sim sim'. induction ws as [|w ws IH]; intros sim sim' H; [done|].
  simpl. apply IH. by apply same_commands_insert.
Qed.

Lemma supervisory_writes_app ws ws' sim :
  supervisory_writes (ws ++ ws') sim = supervisory_writes ws' (supervisory_writes ws sim).
Proof. apply foldl_app. Qed.

Lemma copied_inputs_lookup regs m name :
  name ∈ "SystemEnable" :: scaled_commands ->
  inputs (copied_inputs regs m) !! name = Some (command_input regs name).
Proof.
  intros Hname. unfold scaled_commands in Hname.
  repeat (apply elem_of_cons in Hname as [->|Hname]; [by simplify_map_eq|]).
  by apply elem_of_nil in Hname.
Qed.

Lemma merge_sensors_lookup reply rt name :
  name ∈ "SystemEnable" :: scaled_commands ->
  inputs (memory (merge_sensors reply rt)) !! name = inputs (memory rt) !! name.
Proof.
  intros Hname. unfold merge_sensors.
  destruct reply as [[r0 r1]|]; [|done].
  destruct (Py.truediv (Py.VInt r0) _) as [temp|]; [|done].
  destruct (Py.truediv (Py.VInt r1) _) as [humidity|]; [|done].
  unfold scaled_commands in Hname. simpl.
  repeat (apply elem_of_cons in Hname as [->|Hname]; [by simplify_map_eq|]).
  by apply elem_of_nil in Hname.
Qed.

Lemma memory_with_memory f rt : memory (with_memory f rt) = f (memory rt).
Proof. done. Qed.

Lemma phase_read_runtime ev sim :
  runtime (phase_read ev sim) = runtime (read_inputs (plant_reply ev) sim).
Proof.
  unfold phase_read. rewrite !read_inputs_runtime.
  by destruct (supervisory_writes_runtime (writes_during_read ev) sim) as [-> ->].
Qed.

Lemma before_publish_same_commands ev sim :
  same_commands
    (holding_registers
       (supervisory_writes (writes_during_read ev ++ writes_during_write ev) sim))
    (holding_registers (phase_write ev (phase_execute (phase_read ev sim)))).
Proof.
  unfold phase_write.
  rewrite supervisory_writes_app. apply supervisory_writes_same_commands.
  destruct (write_outputs_runtime (phase_execute (phase_read ev sim))) as [_ ->].
  apply (read_inputs_same_commands (plant_reply ev)
           (supervisory_writes (writes_during_read ev) sim)).
Qed.

Lemma command_input_same_commands regs regs' name :
  same_commands regs regs' ->
  name ∈ "SystemEnable" :: scaled_commands ->
  command_input regs name = command_input regs' name.
Proof.
  intros H Hname. unfold command_input.
  by rewrite (same_commands_word regs regs' name H Hname).
Qed.

Lemma command_words_same_commands regs regs' :
  same_commands regs regs' -> command_words regs -> command_words regs'.
Proof.
  intros H. unfold command_words. rewrite !Forall_forall. intros Hw name Hname.
  rewrite <- (same_commands_word regs regs' name H); [by apply Hw|].
  by apply elem_of_cons; right.
Qed.

(** C8, the counterexample: the write lands in the first iteration
    (the register holds 1 when that iteration ends), the interpreter
    run of the second iteration still finds SystemEnable false and
    leaves the chiller off, and only the run of the third iteration
    finds it true. *)
Lemma write_during_sleep_skips_next_cycle :
  word (holding_registers
          (run_iteration enable_during_sleep (PLCSimulator_start None true))) 0 = 1 /\
  system_enabled
    (runtime (phase_execute (phase_read quiet_iteration
       (run_cycle [enable_during_sleep] (PLCSimulator_start None true)))))
  = Py.VBool false /\
  outputs (memory (runtime
    (run_cycle [enable_during_sleep; quiet_iteration] (PLCSimulator_start None true))))
    !! "ChillerOn" = Some (Py.VBool false) /\
  system_enabled
    (runtime (phase_execute (phase_read quiet_iteration
       (run_cycle [enable_during_sleep; quiet_iteration] (PLCSimulator_start None true)))))
  = Py.VBool true /\
  outputs (memory (runtime
    (run_cycle [enable_during_sleep; quiet_iteration; quiet_iteration]
       (PLCSimulator_start None true))))
    !! "ChillerOn" = Some (Py.VBool true).
Proof. vm_compute. done. Qed.

(** C8, as the code has it. The interpreter run of an iteration works on
    a runtime that no supervisory write of that iteration has touched:
    it is the runtime the plant read leaves, whatever was written to the
    registers. The copy into the inputs is made by
    [update_server_registers], after the interpreter run and the plant
    write. So the interpreter run of the following iteration finds, for
    SystemEnable and the four scaled commands, the register words as the
    writes that landed during the plant read and the plant write of this
    iteration left them; writes that land during the sleep of this
    iteration, and all writes of the following one, are not in them (they
    are copied one publish step later). *)
Theorem commands_visible_after_publish sim ev ev' :
  command_words
    (holding_registers
       (supervisory_writes (writes_during_read ev ++ writes_during_write ev) sim)) ->
  runtime (phase_execute (phase_read ev sim))
  = execute_cycle (runtime (read_inputs (plant_reply ev) sim)) /\
  Forall (fun name =>
            inputs (memory (runtime (phase_read ev' (run_iteration ev sim)))) !! name
            = Some (command_input
                      (holding_registers
                         (supervisory_writes
                            (writes_during_read ev ++ writes_during_write ev) sim))
                      name))
    ("SystemEnable" :: scaled_commands).
Proof.
  intros Hwords. split.
  - destruct (phase_execute_runtime (phase_read ev sim)) as [-> _].
    by rewrite phase_read_runtime.
  - pose proof (before_publish_same_commands ev sim) as Hsame.
    apply Forall_forall. intros name Hname.
    rewrite phase_read_runtime, read_inputs_runtime.
    assert (Hrun : inputs (memory (runtime (run_iteration ev sim))) !! name
                   = Some (command_input
                             (holding_registers
                                (supervisory_writes
                                   (writes_during_read ev ++ writes_during_write ev) sim))
                             name)).
    { unfold run_iteration, phase_sleep, phase_publish.
      destruct (supervisory_writes_runtime (writes_during_sleep ev)
                  (update_server_registers
                     (phase_write ev (phase_execute (phase_read ev sim))))) as [-> _].
      rewrite update_server_registers_runtime
        by (by apply (command_words_same_commands _ _ Hsame)).
      rewrite memory_with_memory, (copied_inputs_lookup _ _ _ Hname).
      by rewrite (command_input_same_commands _ _ _ Hsame Hname). }
    destruct (client _); [|exact Hrun].
    by rewrite (merge_sensors_lookup _ _ _ Hname).
Qed.

Lemma commands_visible_after_publish_witness :
  inputs (memory (runtime
    (phase_read quiet_iteration
       (run_iteration enable_during_sleep (PLCSimulator_start None true)))))
    !! "SystemEnable"
  = Some (Py.VBool false).
Proof.
  assert (Hwords : command_words
            (holding_registers
               (supervisory_writes
                  (writes_during_read enable_during_sleep
                   ++ writes_during_write enable_during_sleep)
                  (PLCSimulator_start None true)))).
  { repeat constructor. }
  destruct (commands_visible_after_publish (PLCSimulator_start None true)
              enable_during_sleep quiet_iteration Hwords) as [_ Hnext].
  apply Forall_cons in Hnext as [Hnext _]. exact Hnext.
Defined.

(** * Further properties of the sources *)

(** ** Memory: classes, reads after writes *)

Lemma initialize_variable_dom name var m :
  dom (inputs (initialize_variable name var m))
  ∪ dom (outputs (initialize_variable name var m))
  ∪ dom (internal (initialize_variable name var m))
  = {[name]} ∪ (dom (inputs m) ∪ dom (outputs m) ∪ dom (internal m)).
Proof.
  unfold initialize_variable.
  destruct (is_input var), (is_output var); simpl; rewrite dom_insert_L; set_solver.
Qed.

Lemma initialize_variable_disjoint name var m :
  name ∉ dom (inputs m) ∪ dom (outputs m) ∪ dom (internal m) ->
  dom (inputs m) ## dom (outputs m) ->
  dom (inputs m) ## dom (internal m) ->
  dom (outputs m) ## dom (internal m) ->
  dom (inputs (initialize_variable name var m)) ## dom (outputs (initialize_variable name var m)) /\
  dom (inputs (initialize_variable name var m)) ## dom (internal (initialize_variable name var m)) /\
  dom (outputs (initialize_variable name var m)) ## dom (internal (initialize_variable name var m)).
Proof.
  unfold initialize_variable.
  destruct (is_input var), (is_output var); simpl; rewrite ?dom_insert_L; set_solver.
Qed.

(** X1. A runtime built from a program holds every declared name in
    exactly one of the three mappings: their key sets are pairwise
    disjoint and together they are the declared names. *)
Theorem initial_memory_classes_partition p :
  dom (inputs (memory (PLCRuntime_init (Some p))))
  ∪ dom (outputs (memory (PLCRuntime_init (Some p))))
  ∪ dom (internal (memory (PLCRuntime_init (Some p))))
  = dom (variables p) /\
  dom (inputs (memory (PLCRuntime_init (Some p))))
    ## dom (outputs (memory (PLCRuntime_init (Some p)))) /\
  dom (inputs (memory (PLCRuntime_init (Some p))))
    ## dom (internal (memory (PLCRuntime_init (Some p)))) /\
  dom (outputs (memory (PLCRuntime_init (Some p))))
    ## dom (internal (memory (PLCRuntime_init (Some p)))).
Proof.
  unfold PLCRuntime_init, _initialize_memory, bind, self, update. simpl.
  apply (map_fold_weak_ind (fun m (vars : gmap string ProgramVariable) =>
    dom (inputs m) ∪ dom (outputs m) ∪ dom (internal m) = dom vars /\
    dom (inputs m) ## dom (outputs m) /\
    dom (inputs m) ## dom (internal m) /\
    dom (outputs m) ## dom (internal m))).
  - simpl. rewrite !dom_empty_L. set_solver.
  - intros name var vars m Hfresh (Hdom & H1 & H2 & H3).
    split.
    + rewrite initialize_variable_dom, Hdom, dom_insert_L. done.
    + apply initialize_variable_disjoint; try done.
      rewrite Hdom. by apply not_elem_of_dom.
Qed.

(** X2. What is written with [set_value] is what [get_value] reads,
    unless a mapping earlier in the lookup order holds the name: a
    write to the inputs is always read back, a write to the outputs is
    read back when the name is not an input, any other write when the
    name is neither an input nor an output. Otherwise the read returns
    the shadowing value. No warning is logged in either case. *)
Theorem set_value_then_get_value name value var_type rt :
  (var_type = "input" \/
   (inputs (memory rt) !! name = None /\
    (var_type = "output" \/ outputs (memory rt) !! name = None)) ->
   get_value name (snd (set_value name value var_type rt))
   = (Py.Ok value, snd (set_value name value var_type rt))) /\
  (forall shadow,
     var_type <> "input" ->
     inputs (memory rt) !! name = Some shadow ->
     get_value name (snd (set_value name value var_type rt))
     = (Py.Ok shadow, snd (set_value name value var_type rt))).
Proof.
  unfold set_value, get_value. split.
  - intros [-> | [Hin [-> | Hout]]].
    + simpl. by rewrite lookup_insert_eq.
    + simpl. by rewrite Hin, lookup_insert_eq.
    + repeat case_decide; simpl; rewrite ?Hin, ?Hout, ?lookup_insert_eq; done.
  - intros shadow Hty Hin. repeat case_decide; simpl; by rewrite ?Hin.
Qed.

Lemma set_value_then_get_value_witness :
  get_value "FanSpeed"
    (snd (set_value "FanSpeed" (Py.VInt 40) "output" (PLCRuntime_init None)))
  = (Py.Ok (Py.VInt 40),
     snd (set_value "FanSpeed" (Py.VInt 40) "output" (PLCRuntime_init None))).
Proof.
  apply (proj1 (set_value_then_get_value "FanSpeed" (Py.VInt 40) "output"
                  (PLCRuntime_init None))).
  right. split; [reflexivity | left; reflexivity].
Defined.

Lemma _execute_statement_assignment target e rt value rt1 :
  _evaluate_expression e rt = (Py.Ok value, rt1) ->
  inputs (memory rt) !! target = None ->
  _execute_statement (Assignment target e) rt
  = (Py.Ok tt,
     with_memory (if decide (is_Some (outputs (memory rt) !! target))
                  then set_outputs target value
                  else set_internal target value) rt1).
Proof.
  intros Heval Hin. simpl. rewrite (bind_ok _ _ _ _ _ Heval).
  pose proof (_evaluate_expression_same_memory e rt) as Hmem.
  rewrite Heval in Hmem. unfold same_memory in Hmem. simpl in Hmem.
  unfold bind, self. rewrite Hmem, Hin.
  case_decide as Hout; [done|].
  rewrite decide_False by (by intros [? ?]). done.
Qed.

(** X3. After an assignment whose target is not an input and whose
    value evaluates without raising, a reference to the target
    evaluates to the assigned value, whether the target was an output,
    an internal variable or new (declared by the assignment), and logs
    nothing. *)
Theorem assignment_then_reference target e rt value rt1 :
  _evaluate_expression e rt = (Py.Ok value, rt1) ->
  inputs (memory rt) !! target = None ->
  fst (_execute_statement (Assignment target e) rt) = Py.Ok tt /\
  _evaluate_expression (VariableRef target)
    (snd (_execute_statement (Assignment target e) rt))
  = (Py.Ok value, snd (_execute_statement (Assignment target e) rt)).
Proof.
  intros Heval Hin.
  rewrite (_execute_statement_assignment _ _ _ _ _ Heval Hin). split; [done|].
  pose proof (_evaluate_expression_same_memory e rt) as Hmem.
  rewrite Heval in Hmem. unfold same_memory in Hmem. simpl in Hmem.
  case_decide as Hout; simpl; unfold get_value; simpl; rewrite Hmem, Hin.
  - by rewrite lookup_insert_eq.
  - assert (outputs (memory rt) !! target = None) as ->.
    { destruct (outputs (memory rt) !! target) eqn:E; [|done]. by destruct Hout. }
    by rewrite lookup_insert_eq.
Qed.

Lemma assignment_then_reference_witness :
  _evaluate_expression (VariableRef "Fresh")
    (snd (_execute_statement
            (Assignment "Fresh" (BinaryOp OpAdd (VariableRef "RoomTemperature")
                                   (Literal (Py.VFloat 1))))
            (PLCRuntime_init None)))
  = (Py.Ok (Py.VFloat 21),
     snd (_execute_statement
            (Assignment "Fresh" (BinaryOp OpAdd (VariableRef "RoomTemperature")
                                   (Literal (Py.VFloat 1))))
            (PLCRuntime_init None))).
Proof.
  apply (assignment_then_reference "Fresh" _ (PLCRuntime_init None)
           (Py.VFloat 21) (PLCRuntime_init None)); reflexivity.
Defined.

(** ** Statements: what they leave alone *)

Lemma same_variable_refl name rt : same_variable name rt rt.
Proof. done. Qed.

Lemma same_variable_trans name rt1 rt2 rt3 :
  same_variable name rt1 rt2 -> same_variable name rt2 rt3 -> same_variable name rt1 rt3.
Proof. unfold same_variable. intros [? ?] [? ?]. split; congruence. Qed.

Lemma _evaluate_expression_same_variable name e :
  preserves (same_variable name) (_evaluate_expression e).
Proof.
  eapply preserves_weaken; [|apply _evaluate_expression_same_memory].
  unfold same_memory, same_variable. by intros rt rt' ->.
Qed.

Lemma set_value_same_variable name target value var_type :
  var_type <> "input" -> target <> name ->
  preserves (same_variable name) (set_value target value var_type).
Proof.
  intros Hty Hne rt. unfold set_value, same_variable.
  repeat case_decide; simpl; rewrite ?lookup_insert_ne by done; done.
Qed.

Lemma not_in_flat_map_Forall {A : Type} (f : A -> list string) (Q : A -> Prop)
    (name : string) (l : list A) :
  Forall (fun x => name ∉ f x -> Q x) l -> name ∉ flat_map f l -> Forall Q l.
Proof.
  induction 1 as [|x l Hx _ IH]; simpl; intros Hnot; constructor;
    apply not_elem_of_app in Hnot as [? ?]; auto.
Qed.

Lemma _execute_statement_same_variable name s :
  name ∉ targets s -> preserves (same_variable name) (_execute_statement s).
Proof.
  induction s as [target e | c tb ec eb IHtb IHec IHeb | fname args]
    using statement_nested_ind; simpl; intros Hnot.
  - apply not_elem_of_cons in Hnot as [Hne _].
    apply (preserves_bind _ (same_variable_trans name));
      [apply _evaluate_expression_same_variable|].
    intros value. apply (preserves_bind _ (same_variable_trans name)); [by intros ?|].
    intros rt. repeat case_decide; try (by apply set_value_same_variable).
    by intros ?.
  - apply not_elem_of_app in Hnot as [Htb Hnot].
    apply not_elem_of_app in Hnot as [Hec Heb].
    apply (preserves_bind _ (same_variable_trans name));
      [apply _evaluate_expression_same_variable|].
    intros v. destruct (Py.truthy v).
    + apply (execute_block_preserves _ (same_variable_refl name) (same_variable_trans name)).
      by eapply not_in_flat_map_Forall.
    + apply (execute_elsif_preserves _ (same_variable_refl name) (same_variable_trans name)
               (_evaluate_expression_same_variable name)).
      * eapply not_in_flat_map_Forall; [|exact Hec].
        eapply Forall_impl; [exact IHec|]. intros [c' b] Hb Hf.
        by eapply not_in_flat_map_Forall.
      * destruct eb as [b|]; [|done]. by eapply not_in_flat_map_Forall.
  - by intros ?.
Qed.

Ltac same_variable_step name :=
  first
    [ apply (preserves_bind _ (same_variable_trans name)); [| intros ?]
    | intros ?; split; simpl; rewrite ?lookup_insert_ne by done; reflexivity ].

Lemma _execute_default_logic_same_variable name :
  name ∉ default_targets ->
  preserves (same_variable name) _execute_default_logic.
Proof.
  unfold default_targets. rewrite !not_elem_of_cons.
  intros (? & ? & ? & ? & ? & ? & ? & _).
  unfold _execute_default_logic, input, set_output, set_internal_var.
  same_variable_step name; [same_variable_step name|].
  destruct (negb _); repeat same_variable_step name;
    repeat case_match; repeat same_variable_step name.
Qed.

Lemma cycle_body_same_variable name rt :
  name ∉ cycle_targets rt ->
  same_variable name rt (snd (cycle_body (begin_cycle rt))).
Proof.
  unfold cycle_targets, cycle_body, bind, self, update. simpl.
  intros Hnot.
  match goal with |- same_variable _ _ (snd (_ ?r)) =>
    apply (same_variable_trans name rt r); [done|]
  end.
  destruct (program rt) as [p|];
    [|by apply _execute_default_logic_same_variable].
  destruct (statements p) as [|s stmts];
    [by apply _execute_default_logic_same_variable|].
  apply (execute_block_preserves _ (same_variable_refl name)
           (same_variable_trans name) _execute_statement (s :: stmts)).
  eapply not_in_flat_map_Forall; [|exact Hnot].
  apply Forall_forall. intros s' _ Hs'. by apply _execute_statement_same_variable.
Qed.

Lemma execute_cycle_same_variable name rt :
  name ∉ cycle_targets rt -> name <> "AlarmActive" ->
  same_variable name rt (execute_cycle rt).
Proof.
  intros Hnot Hne. pose proof (cycle_body_same_variable name rt Hnot) as H.
  unfold execute_cycle. destruct (cycle_body _) as [[[]|e] rt']; [exact H|].
  eapply same_variable_trans; [exact H|].
  split; simpl; [by rewrite lookup_insert_ne | done].
Qed.

(** Any relation kept by logging and by writes to the output and
    internal mappings is kept by evaluation, by every statement and by
    the default controller. *)
Section Statements.
Context (R : PLCRuntime -> PLCRuntime -> Prop).
Hypothesis R_refl : forall rt, R rt rt.
Hypothesis R_trans : forall rt1 rt2 rt3, R rt1 rt2 -> R rt2 rt3 -> R rt1 rt3.
Hypothesis R_log : forall r rt, R rt (with_log r rt).
Hypothesis R_outputs : forall k v rt, R rt (with_memory (set_outputs k v) rt).
Hypothesis R_internal : forall k v rt, R rt (with_memory (set_internal k v) rt).

Lemma _evaluate_expression_preserves e : preserves R (_evaluate_expression e).
Proof using R_refl R_trans R_log.
  induction e as [v | name | op l IHl r IHr | op l IHl r IHr | op l IHl r IHr
                 | op x IHx | name args]; simpl;
    try (intros rt; unfold get_value; repeat case_match; simpl; by auto);
    repeat preserves_step R_refl R_trans;
    destruct op; repeat case_match;
    repeat preserves_step R_refl R_trans.
Qed.

Lemma _execute_statement_preserves s : preserves R (_execute_statement s).
Proof using R_refl R_trans R_log R_outputs R_internal.
  induction s as [target e | c tb ec eb IHtb IHec IHeb | name args]
    using statement_nested_ind; simpl.
  - apply (preserves_bind _ R_trans); [apply _evaluate_expression_preserves|].
    intros value. apply (preserves_bind _ R_trans); [apply (preserves_self _ R_refl)|].
    intros rt. unfold set_value, logger.
    repeat case_decide; try discriminate; intros ?; simpl; auto.
  - apply (preserves_bind _ R_trans); [apply _evaluate_expression_preserves|].
    intros v. destruct (Py.truthy v).
    + by apply (execute_block_preserves _ R_refl R_trans).
    + by apply (execute_elsif_preserves _ R_refl R_trans _evaluate_expression_preserves).
  - intros ?. apply R_log.
Qed.

Lemma _execute_default_logic_preserves : preserves R _execute_default_logic.
Proof using R_refl R_trans R_outputs R_internal.
  unfold _execute_default_logic, input, set_output, set_internal_var.
  repeat (first
    [ preserves_step R_refl R_trans
    | intros ?; simpl; by auto
    | match goal with |- preserves _ (if ?b then _ else _) => destruct b end ]).
Qed.
Lemma cycle_dispatch_preserves rt0 : preserves R (cycle_dispatch rt0).
Proof using R_refl R_trans R_log R_outputs R_internal.
  unfold cycle_dispatch.
  destruct (program rt0) as [p|]; [|apply _execute_default_logic_preserves].
  destruct (statements p) as [|s stmts]; [apply _execute_default_logic_preserves|].
  apply (execute_block_preserves _ R_refl R_trans).
  apply Forall_forall. intros s' _. apply _execute_statement_preserves.
Qed.
End Statements.

(** The same for a relation kept only by the writes an assignment can
    make: to an output that exists, and to an internal variable whose
    name is neither an output nor an input. *)
Section Assignments.
Context (R : PLCRuntime -> PLCRuntime -> Prop).
Hypothesis R_refl : forall rt, R rt rt.
Hypothesis R_trans : forall rt1 rt2 rt3, R rt1 rt2 -> R rt2 rt3 -> R rt1 rt3.
Hypothesis R_log : forall r rt, R rt (with_log r rt).
Hypothesis R_output : forall k v rt,
  is_Some (outputs (memory rt) !! k) -> R rt (with_memory (set_outputs k v) rt).
Hypothesis R_new_internal : forall k v rt,
  outputs (memory rt) !! k = None -> inputs (memory rt) !! k = None ->
  R rt (with_memory (set_internal k v) rt).

Lemma _execute_statement_assigns s : preserves R (_execute_statement s).
Proof using R_refl R_trans R_log R_output R_new_internal.
  induction s as [target e | c tb ec eb IHtb IHec IHeb | name args]
    using statement_nested_ind; simpl.
  - intros rt0. unfold bind at 1.
    pose proof (_evaluate_expression_preserves R R_refl R_trans R_log e rt0) as He.
    destruct (_evaluate_expression e rt0) as [[value|err] rt1]; simpl in He; [|exact He].
    eapply R_trans; [exact He|].
    unfold bind, self, set_value, logger, update.
    destruct (decide (is_Some (outputs (memory rt1) !! target))) as [Hout|Hout].
    + simpl. by apply R_output.
    + destruct (decide (is_Some (inputs (memory rt1) !! target))) as [Hin|Hin].
      * apply R_log.
      * simpl. apply R_new_internal; by apply eq_None_not_Some.
  - apply (preserves_bind _ R_trans);
      [apply (_evaluate_expression_preserves R R_refl R_trans R_log)|].
    intros v. destruct (Py.truthy v).
    + by apply (execute_block_preserves _ R_refl R_trans).
    + by apply (execute_elsif_preserves _ R_refl R_trans
                  (_evaluate_expression_preserves R R_refl R_trans R_log)).
  - intros ?. apply R_log.
Qed.
End Assignments.

Lemma cycle_body_dispatch rt :
  cycle_body rt = cycle_dispatch rt (enable_snapshot rt).
Proof. reflexivity. Qed.

Lemma same_control_refl rt : same_control rt rt.
Proof. by repeat split. Qed.

Lemma same_control_trans rt1 rt2 rt3 :
  same_control rt1 rt2 -> same_control rt2 rt3 -> same_control rt1 rt3.
Proof. unfold same_control. intros (?&?&?&?) (?&?&?&?). repeat split; congruence. Qed.

Lemma cycle_dispatch_same_control rt0 : preserves same_control (cycle_dispatch rt0).
Proof.
  apply cycle_dispatch_preserves;
    first [ apply same_control_refl | apply same_control_trans
          | intros; by repeat split ].
Qed.

(** A cycle advances the counter by one and takes the enable snapshot;
    program and inputs stay. *)
Lemma execute_cycle_control rt :
  program (execute_cycle rt) = program rt /\
  cycle_count (execute_cycle rt) = cycle_count rt + 1 /\
  system_enabled (execute_cycle rt)
  = default (Py.VBool false) (inputs (memory rt) !! "SystemEnable") /\
  inputs (memory (execute_cycle rt)) = inputs (memory rt).
Proof.
  unfold execute_cycle. rewrite cycle_body_dispatch.
  pose proof (cycle_dispatch_same_control (begin_cycle rt)
                (enable_snapshot (begin_cycle rt))) as H.
  destruct (cycle_dispatch _ _) as [[[]|e] rt'];
    destruct H as (Hprog & Hcount & Hen & Hin); simpl in *; by repeat split.
Qed.

Lemma cycle_targets_execute_cycle rt : cycle_targets (execute_cycle rt) = cycle_targets rt.
Proof. unfold cycle_targets. by destruct (execute_cycle_control rt) as [-> _]. Qed.

(** X4. A statement writes only the variables it assigns: a name that
    is the target of no assignment in it, at any depth, has the same
    entry (or none) in the output and internal mappings after the
    statement, whether it returned or raised. The same holds over any
    number of cycles for a name, other than AlarmActive, that no
    statement of the program assigns (for the default controller: a name
    other than its three outputs and four internal variables). *)
Theorem statements_write_only_their_targets name :
  (forall s rt,
     name ∉ targets s ->
     same_variable name rt (snd (_execute_statement s rt))) /\
  (forall n rt,
     name ∉ cycle_targets rt -> name <> "AlarmActive" ->
     same_variable name rt (Nat.iter n execute_cycle rt)).
Proof.
  split.
  - intros s rt Hnot. by apply (_execute_statement_same_variable name s Hnot rt).
  - intros n rt Hnot Hne. induction n as [|n IH]; simpl; [done|].
    eapply same_variable_trans; [exact IH|].
    apply execute_cycle_same_variable; [|done].
    clear IH. induction n as [|n IH]; simpl; [done|].
    by rewrite cycle_targets_execute_cycle.
Qed.

Lemma statements_write_only_their_targets_witness :
  same_variable "Lamp" (PLCRuntime_init (Some raises_in_the_middle))
    (Nat.iter 3 execute_cycle (PLCRuntime_init (Some raises_in_the_middle))).
Proof.
  apply (proj2 (statements_write_only_their_targets "Lamp") 3%nat
           (PLCRuntime_init (Some raises_in_the_middle))); [|done].
  apply (bool_decide_unpack _). vm_compute. exact I.
Defined.

(** X5. Once the alarm output is true it stays true over any number of
    cycles of a runtime that never assigns AlarmActive: the default
    controller, and every program without such an assignment. Nothing in
    the runtime resets it. *)
Theorem alarm_latches n rt :
  "AlarmActive" ∉ cycle_targets rt ->
  outputs (memory rt) !! "AlarmActive" = Some (Py.VBool true) ->
  outputs (memory (Nat.iter n execute_cycle rt)) !! "AlarmActive" = Some (Py.VBool true).
Proof.
  intros Hnot Hon. induction n as [|n IH]; simpl; [done|].
  assert (Hnot' : "AlarmActive" ∉ cycle_targets (Nat.iter n execute_cycle rt)).
  { clear IH. induction n as [|n IH]; simpl; [done|].
    by rewrite cycle_targets_execute_cycle. }
  pose proof (cycle_body_same_variable _ _ Hnot') as [Hout _].
  unfold execute_cycle. destruct (cycle_body _) as [[[]|e] rt'].
  - simpl in Hout. congruence.
  - simpl. by rewrite lookup_insert_eq.
Qed.

Lemma alarm_latches_witness :
  outputs (memory (Nat.iter 2 execute_cycle
                     (execute_cycle (PLCRuntime_init (Some raises_in_the_middle)))))
    !! "AlarmActive" = Some (Py.VBool true).
Proof.
  apply (alarm_latches 2 (execute_cycle (PLCRuntime_init (Some raises_in_the_middle)))).
  - apply (bool_decide_unpack _). vm_compute. exact I.
  - reflexivity.
Defined.

(** X6. The diagnostics count cycles exactly: after [n] cycles the
    reported cycle count is [n] more than before, whether cycles raised
    or not; the program-loaded flag is unchanged; and after a cycle the
    reported enable state is the SystemEnable input (False when the input
    is absent), also when that cycle raised. *)
Theorem diagnostics_after_cycles n rt :
  get_diagnostics (Nat.iter n execute_cycle rt) !! "cycle_count"
  = Some (Py.VInt (cycle_count rt + Z.of_nat n)) /\
  get_diagnostics (Nat.iter n execute_cycle rt) !! "program_loaded"
  = get_diagnostics rt !! "program_loaded" /\
  get_diagnostics (Nat.iter (S n) execute_cycle rt) !! "system_enabled"
  = Some (default (Py.VBool false) (inputs (memory rt) !! "SystemEnable")).
Proof.
  assert (H : program (Nat.iter n execute_cycle rt) = program rt /\
              cycle_count (Nat.iter n execute_cycle rt) = cycle_count rt + Z.of_nat n /\
              inputs (memory (Nat.iter n execute_cycle rt)) = inputs (memory rt)).
  { induction n as [|n (IHp & IHc & IHi)]; simpl.
    - repeat split; lia.
    - destruct (execute_cycle_control (Nat.iter n execute_cycle rt))
        as (-> & -> & _ & ->). repeat split; try done. lia. }
  destruct H as (Hp & Hc & Hi).
  unfold get_diagnostics. split; [|split].
  - rewrite Hc. by simplify_map_eq.
  - rewrite Hp. by simplify_map_eq.
  - simpl Nat.iter.
    destruct (execute_cycle_control (Nat.iter n execute_cycle rt)) as (_ & _ & -> & _).
    rewrite Hi. by simplify_map_eq.
Qed.

Lemma execute_block_app exec before after rt :
  execute_block exec (before ++ after) rt
  = bind (execute_block exec before) (fun _ => execute_block exec after) rt.
Proof.
  revert rt. induction before as [|s before IH]; intros rt.
  - reflexivity.
  - change (execute_block exec ((s :: before) ++ after))
      with (exec s;; execute_block exec (before ++ after)).
    change (execute_block exec (s :: before))
      with (exec s;; execute_block exec before).
    destruct (exec s rt) as [[[]|e] rt1] eqn:E.
    + rewrite (bind_ok _ _ _ _ _ E), IH.
      unfold bind at 2. unfold bind at 2. by rewrite E.
    + rewrite (bind_raise _ _ _ _ _ E).
      unfold bind at 1. unfold bind at 1. by rewrite E.
Qed.

(** X7. A statement that raises ends the cycle: the statements before
    it have taken effect, the statements after it are not run (the
    result does not depend on them), the error is logged and the alarm
    output is set. *)
Theorem raising_statement_ends_cycle rt p before s after rt1 e rt2 :
  program rt = Some p ->
  statements p = before ++ s :: after ->
  execute_block _execute_statement before (enable_snapshot (begin_cycle rt))
  = (Py.Ok tt, rt1) ->
  _execute_statement s rt1 = (Py.Raise e, rt2) ->
  execute_cycle rt
  = with_memory (set_outputs "AlarmActive" (Py.VBool true))
      (with_log (LogCycleError e) rt2).
Proof.
  intros Hprog Hstmts Hbefore Hraise.
  apply execute_cycle_raise. rewrite cycle_body_dispatch.
  unfold cycle_dispatch. simpl. rewrite Hprog, Hstmts.
  assert (Hblock : execute_block _execute_statement (before ++ s :: after)
                     (enable_snapshot (begin_cycle rt)) = (Py.Raise e, rt2)).
  { rewrite execute_block_app. rewrite (bind_ok _ _ _ _ _ Hbefore).
    simpl. by rewrite (bind_raise _ _ _ _ _ Hraise). }
  destruct (before ++ s :: after) eqn:E; [by destruct before|exact Hblock].
Qed.

Lemma raising_statement_ends_cycle_witness :
  internal (memory (execute_cycle (PLCRuntime_init (Some raises_in_the_middle))))
    !! "a" = Some (Py.VFloat 1) /\
  internal (memory (execute_cycle (PLCRuntime_init (Some raises_in_the_middle))))
    !! "c" = Some (Py.VFloat 0) /\
  outputs (memory (execute_cycle (PLCRuntime_init (Some raises_in_the_middle))))
    !! "AlarmActive" = Some (Py.VBool true).
Proof.
  rewrite (raising_statement_ends_cycle
             (PLCRuntime_init (Some raises_in_the_middle)) raises_in_the_middle
             [Assignment "a" (Literal (Py.VFloat 1))]
             (Assignment "b" (BinaryOp OpAdd (VariableRef "y") (Literal (Py.VFloat 1))))
             [Assignment "c" (Literal (Py.VFloat 3))]
             _ Py.TypeError _ eq_refl eq_refl eq_refl eq_refl).
  vm_compute. done.
Defined.

(** X8. The default controller without a cooling demand. With the
    system enabled, float inputs and a temperature error that does not
    exceed its deadband, a cycle sets the chiller by the humidity alone:
    when the humidity error exceeds its deadband the chiller is on,
    status 1 and the fan at 50; otherwise the chiller is off, status 2
    (idle) and the fan at 20. Both errors and both demands are stored in
    the internal variables. *)
Theorem default_controller_without_cooling rt enable room setpoint deadband
    hroom hsetpoint hdeadband dehumid :
  runs_default_controller rt ->
  inputs (memory rt) !! "SystemEnable" = Some enable ->
  Py.truthy enable = true ->
  inputs (memory rt) !! "RoomTemperature" = Some (Py.VFloat room) ->
  inputs (memory rt) !! "SetpointTemp" = Some (Py.VFloat setpoint) ->
  inputs (memory rt) !! "TempDeadband" = Some (Py.VFloat deadband) ->
  inputs (memory rt) !! "RoomHumidity" = Some (Py.VFloat hroom) ->
  inputs (memory rt) !! "SetpointHumidity" = Some (Py.VFloat hsetpoint) ->
  inputs (memory rt) !! "HumidityDeadband" = Some (Py.VFloat hdeadband) ->
  Py.gt (Py.VFloat (room - setpoint)) (Py.VFloat deadband) = Py.Ok (Py.VBool false) ->
  Py.gt (Py.VFloat (hroom - hsetpoint)) (Py.VFloat hdeadband) = Py.Ok (Py.VBool dehumid) ->
  outputs (memory (execute_cycle rt)) !! "ChillerOn" = Some (Py.VBool dehumid) /\
  outputs (memory (execute_cycle rt)) !! "SystemStatus"
  = Some (Py.VInt (if dehumid then 1 else 2)) /\
  outputs (memory (execute_cycle rt)) !! "FanSpeed"
  = Some (Py.VInt (if dehumid then 50 else 20)) /\
  internal (memory (execute_cycle rt)) !! "TempError" = Some (Py.VFloat (room - setpoint)) /\
  internal (memory (execute_cycle rt)) !! "HumidityError"
  = Some (Py.VFloat (hroom - hsetpoint)) /\
  internal (memory (execute_cycle rt)) !! "CoolingRequired" = Some (Py.VBool false) /\
  internal (memory (execute_cycle rt)) !! "DehumidRequired" = Some (Py.VBool dehumid).
Proof.
  intros Hdefault Hen Hon Hroom Hset Hdead Hhroom Hhset Hhdead Hcool Hdehumid.
  unfold execute_cycle. rewrite (cycle_body_default rt Hdefault).
  unfold _execute_default_logic, input, getitem, bind, self, lift; simpl.
  rewrite Hen; simpl. rewrite Hon; simpl.
  rewrite Hroom, Hset, Hhroom, Hhset, Hdead, Hhdead, !sub_floats, Hcool, Hdehumid; cbn.
  destruct dehumid; cbn; by simplify_map_eq.
Qed.

Lemma default_controller_without_cooling_witness :
  outputs (memory (execute_cycle humid_room)) !! "ChillerOn" = Some (Py.VBool true) /\
  outputs (memory (execute_cycle humid_room)) !! "SystemStatus" = Some (Py.VInt 1) /\
  outputs (memory (execute_cycle humid_room)) !! "FanSpeed" = Some (Py.VInt 50) /\
  internal (memory (execute_cycle humid_room)) !! "TempError" = Some (Py.VFloat (20 - 22)) /\
  internal (memory (execute_cycle humid_room)) !! "HumidityError"
  = Some (Py.VFloat (60 - 45)) /\
  internal (memory (execute_cycle humid_room)) !! "CoolingRequired" = Some (Py.VBool false) /\
  internal (memory (execute_cycle humid_room)) !! "DehumidRequired" = Some (Py.VBool true).
Proof.
  apply (default_controller_without_cooling humid_room (Py.VBool true) 20 22 1 60 45 5 true);
    reflexivity || exact I.
Defined.

#[local] Arguments Py.truthy : simpl never.
#[local] Arguments Py.or_ : simpl never.

Lemma _execute_default_logic_outputs rt :
  default_outcome (outputs (memory rt)) (outputs (memory (snd (_execute_default_logic rt)))).
Proof.
  unfold _execute_default_logic.
  unfold bind at 1. unfold self at 1.
  destruct (negb (Py.truthy (system_enabled rt))).
  { cbn. constructor. }
  unfold input, set_internal_var, set_output, update, lift, self, bind, getitem.
  cbn.
  repeat match goal with
  | |- context [match ?x with _ => _ end] => destruct x eqn:?; cbn
  end; try (constructor; fail);
  match goal with
  | H : (if Py.truthy ?c then _ else _) _ = _ |- _ =>
      revert H; destruct (Py.truthy c); unfold ret;
      repeat match goal with
      | |- context [match ?x with _ => _ end] => destruct x eqn:?
      end; intros [= <- <-] || intros [= <-] || intros [= ? <-]; subst; cbn
  end; try (constructor; lia).
Qed.

Lemma default_outcome_consistent o o' :
  consistent_outputs o -> default_outcome o o' -> consistent_outputs o'.
Proof.
  intros (fan & status & Hfan & Hstatus & Hchiller & Hrange) Hout.
  unfold consistent_outputs.
  destruct Hout as [ | | | fan' Hfan' | ].
  - by exists fan, status.
  - exists 0, 0. simplify_map_eq. repeat split; try done. lia.
  - exists fan, 1. simplify_map_eq. repeat split; try done. lia.
  - exists fan', 1. simplify_map_eq. repeat split; try done. lia.
  - exists 20, 2. simplify_map_eq. repeat split; try done. lia.
Qed.

Lemma runs_default_controller_execute_cycle rt :
  runs_default_controller rt -> runs_default_controller (execute_cycle rt).
Proof.
  unfold runs_default_controller. by destruct (execute_cycle_control rt) as [-> _].
Qed.

Lemma execute_cycle_default_outcome rt :
  runs_default_controller rt ->
  exists o, default_outcome (outputs (memory rt)) o /\
    forall name, name <> "AlarmActive" ->
      outputs (memory (execute_cycle rt)) !! name = o !! name.
Proof.
  intros Hdefault. unfold execute_cycle. rewrite (cycle_body_default rt Hdefault).
  match goal with |- context [_execute_default_logic ?s] =>
    pose proof (_execute_default_logic_outputs s) as Hout;
    destruct (_execute_default_logic s) as [[[]|e] rt']
  end; simpl in Hout; eexists; (split; [exact Hout|]); intros name Hne; [done|].
  simpl. by rewrite lookup_insert_ne.
Qed.

Lemma execute_cycle_consistent rt :
  runs_default_controller rt -> consistent_outputs (outputs (memory rt)) ->
  consistent_outputs (outputs (memory (execute_cycle rt))).
Proof.
  intros Hdefault Hrt.
  destruct (execute_cycle_default_outcome rt Hdefault) as (o & Ho & Hsame).
  destruct (default_outcome_consistent _ _ Hrt Ho)
    as (fan & status & Hfan & Hstatus & Hchiller & Hrange).
  exists fan, status. rewrite !Hsame by done. done.
Qed.

(** X9. The three outputs of the default controller stay consistent
    over any number of cycles, whatever the inputs hold and also through
    cycles that raise: the fan speed is an integer in 0..100, the status
    is 0, 1 or 2, the chiller is on exactly in status 1, the fan is at 0
    in status 0 and at 20 in status 2. *)
Theorem default_controller_outputs_consistent n rt :
  runs_default_controller rt ->
  consistent_outputs (outputs (memory rt)) ->
  consistent_outputs (outputs (memory (Nat.iter n execute_cycle rt))).
Proof.
  intros Hdefault Hrt.
  cut (runs_default_controller (Nat.iter n execute_cycle rt) /\
       consistent_outputs (outputs (memory (Nat.iter n execute_cycle rt))));
    [by intros [_ ?]|].
  induction n as [|n [IHd IHc]]; simpl; [done|].
  split; [by apply runs_default_controller_execute_cycle|].
  by apply execute_cycle_consistent.
Qed.

Lemma default_controller_outputs_consistent_witness :
  consistent_outputs (outputs (memory (Nat.iter 3 execute_cycle scenario_B))).
Proof.
  apply (default_controller_outputs_consistent 3 scenario_B).
  - exact I.
  - exists 0, 0. repeat split; try reflexivity. left. split; reflexivity.
Defined.

(** ** The bridge and the scan loop *)

Lemma bridge_frame_refl sim : bridge_frame sim sim.
Proof. by repeat split. Qed.

Lemma bridge_frame_trans sim1 sim2 sim3 :
  bridge_frame sim1 sim2 -> bridge_frame sim2 sim3 -> bridge_frame sim1 sim3.
Proof.
  intros (?&?&?&?&?&?&?&Hin1) (?&?&?&?&?&?&?&Hin2).
  do 7 (split; [congruence|]). intros name Hname. by rewrite Hin2, Hin1.
Qed.

Lemma set_input_bridge_frame k v :
  k ∈ bridge_inputs -> preserves bridge_frame (set_input k v).
Proof.
  intros Hk sim. do 7 (split; [done|]). intros name Hname. simpl.
  apply lookup_insert_ne. by intros ->.
Qed.

Lemma setValues_bridge_frame a v : preserves bridge_frame (setValues a v).
Proof. intros sim. by repeat split. Qed.

Lemma _write_register_bridge_frame name value :
  preserves bridge_frame (_write_register name value).
Proof.
  intros sim. unfold _write_register.
  destruct (register_map !! name); by repeat split.
Qed.

Ltac bridge_frame_step :=
  first
    [ apply _write_register_bridge_frame
    | apply setValues_bridge_frame
    | apply set_input_bridge_frame; apply (bool_decide_unpack _); by vm_compute
    | preserves_step bridge_frame_refl bridge_frame_trans ].

Lemma read_inputs_bridge_frame reply sim : bridge_frame sim (read_inputs reply sim).
Proof.
  unfold read_inputs. destruct (client sim); [|apply bridge_frame_refl].
  destruct reply as [[r0 r1]|]; [|apply bridge_frame_refl].
  unfold negb. apply preserves_try. unfold mirror_sensors.
  repeat bridge_frame_step.
Qed.

Lemma write_outputs_bridge_frame sim : bridge_frame sim (write_outputs sim).
Proof.
  unfold write_outputs. destruct (client sim); [|apply bridge_frame_refl].
  unfold negb. apply preserves_try.
  repeat bridge_frame_step.
Qed.

Lemma update_server_registers_bridge_frame sim :
  bridge_frame sim (update_server_registers sim).
Proof.
  unfold update_server_registers. apply preserves_try.
  unfold copy_commands, scaled_command, publish_status, output_word, getValues.
  repeat bridge_frame_step.
Qed.

Lemma supervisory_writes_bridge_frame ws sim :
  bridge_frame sim (supervisory_writes ws sim).
Proof.
  revert sim. induction ws as [|w ws IH]; intros sim; [apply bridge_frame_refl|].
  simpl. eapply bridge_frame_trans; [|apply IH]. by repeat split.
Qed.

Lemma run_iteration_runtime ev sim :
  program (runtime (run_iteration ev sim)) = program (runtime sim) /\
  cycle_count (runtime (run_iteration ev sim)) = cycle_count (runtime sim) + 1 /\
  client (run_iteration ev sim) = client sim /\
  forall name, name ∉ bridge_inputs ->
    inputs (memory (runtime (run_iteration ev sim))) !! name
    = inputs (memory (runtime sim)) !! name.
Proof.
  unfold run_iteration, phase_sleep, phase_publish, phase_write, phase_read.
  set (s1 := read_inputs _ (supervisory_writes (writes_during_read ev) sim)).
  assert (H1 : bridge_frame sim s1).
  { eapply bridge_frame_trans;
      [apply supervisory_writes_bridge_frame | apply read_inputs_bridge_frame]. }
  set (s2 := phase_execute s1).
  set (s3 := supervisory_writes (writes_during_sleep ev) _).
  assert (H3 : bridge_frame s2 s3).
  { eapply bridge_frame_trans; [|apply supervisory_writes_bridge_frame].
    eapply bridge_frame_trans; [|apply update_server_registers_bridge_frame].
    eapply bridge_frame_trans; [|apply supervisory_writes_bridge_frame].
    apply write_outputs_bridge_frame. }
  destruct H1 as (Hp1 & Hc1 & _ & _ & _ & _ & Hcl1 & Hin1).
  destruct H3 as (Hp3 & Hc3 & _ & _ & _ & _ & Hcl3 & Hin3).
  destruct (execute_cycle_control (runtime s1)) as (Hp2 & Hc2 & _ & Hin2).
  change (runtime s2) with (execute_cycle (runtime s1)) in *.
  change (client s2) with (client s1) in *.
  repeat split; try congruence.
  intros name Hname. by rewrite Hin3, Hin2, Hin1.
Qed.

(** X10. Every iteration of the scan loop runs exactly one interpreter
    cycle, whatever the plant replies, whatever a supervisory client
    writes and whether or not a step raised: after the iterations [evs]
    the cycle count has grown by their number, the program and the
    plant client are the same, and every input other than the seven the
    bridge stores (two sensor values, five commands) is unchanged. *)
Theorem scan_loop_runs_one_cycle_per_iteration evs sim :
  program (runtime (run_cycle evs sim)) = program (runtime sim) /\
  cycle_count (runtime (run_cycle evs sim))
  = cycle_count (runtime sim) + Z.of_nat (length evs) /\
  client (run_cycle evs sim) = client sim /\
  forall name, name ∉ bridge_inputs ->
    inputs (memory (runtime (run_cycle evs sim))) !! name
    = inputs (memory (runtime sim)) !! name.
Proof.
  revert sim. induction evs as [|ev evs IH]; intros sim.
  - simpl. repeat split; lia.
  - change (run_cycle (ev :: evs) sim) with (run_cycle evs (run_iteration ev sim)).
    destruct (IH (run_iteration ev sim)) as (-> & -> & -> & Hin).
    destruct (run_iteration_runtime ev sim) as (-> & -> & -> & Hin').
    repeat split; [simpl length; lia|].
    intros name Hname. by rewrite Hin, Hin'.
Qed.

Lemma same_outside_status_block_refl regs : same_outside_status_block regs regs.
Proof. done. Qed.

Lemma same_outside_status_block_trans regs1 regs2 regs3 :
  same_outside_status_block regs1 regs2 -> same_outside_status_block regs2 regs3 ->
  same_outside_status_block regs1 regs3.
Proof.
  intros [Hlen1 H1] [Hlen2 H2]. split; [congruence|].
  intros i Hi. by rewrite H2, H1.
Qed.

Lemma same_outside_status_block_insert regs regs' (i : nat) (v : Z) :
  same_outside_status_block regs regs' ->
  same_outside_status_block (<[i := v]> regs) (<[i := v]> regs').
Proof.
  intros [Hlen H]. split; [by rewrite !length_insert|].
  intros j Hj. destruct (decide (i = j)) as [->|Hne].
  - destruct (decide (j < length regs)%nat) as [Hlt|Hge].
    + rewrite !list_lookup_insert_eq by lia. done.
    + rewrite !list_insert_ge by lia. by apply H.
  - rewrite !list_lookup_insert_ne by done. by apply H.
Qed.

Lemma same_outside_status_block_write regs (i : nat) (v : Z) :
  status_block i = true -> same_outside_status_block regs (<[i := v]> regs).
Proof.
  intros Hi. split; [by rewrite length_insert|].
  intros j Hj. rewrite list_lookup_insert_ne; [done|]. congruence.
Qed.

Lemma status_block_only_refl sim : status_block_only sim sim.
Proof. apply same_outside_status_block_refl. Qed.

Lemma status_block_only_trans sim1 sim2 sim3 :
  status_block_only sim1 sim2 -> status_block_only sim2 sim3 -> status_block_only sim1 sim3.
Proof. apply same_outside_status_block_trans. Qed.

Lemma _write_register_status_block name value a :
  register_map !! name = Some a ->
  status_block (Z.to_nat (a - 40001)) = true ->
  preserves status_block_only (_write_register name value).
Proof.
  intros Ha Hblock sim. unfold _write_register. rewrite Ha.
  by apply (same_outside_status_block_write (holding_registers sim)).
Qed.

Lemma set_input_status_block_only k v : preserves status_block_only (set_input k v).
Proof. intros sim. apply (same_outside_status_block_refl (holding_registers sim)). Qed.

Ltac status_block_step :=
  first
    [ eapply _write_register_status_block; by vm_compute
    | apply set_input_status_block_only
    | preserves_step status_block_only_refl status_block_only_trans ].

Lemma read_inputs_status_block_only reply sim :
  status_block_only sim (read_inputs reply sim).
Proof.
  unfold read_inputs. destruct (client sim); [|apply status_block_only_refl].
  destruct reply as [[r0 r1]|]; [|apply status_block_only_refl].
  unfold negb. apply preserves_try. unfold mirror_sensors.
  repeat status_block_step.
Qed.

Lemma update_server_registers_status_block_only sim :
  status_block_only sim (update_server_registers sim).
Proof.
  unfold update_server_registers. apply preserves_try.
  unfold copy_commands, scaled_command, publish_status, output_word, getValues.
  repeat status_block_step.
Qed.

Lemma supervisory_writes_status_block_only ws sim sim' :
  status_block_only sim sim' ->
  status_block_only (supervisory_writes ws sim) (supervisory_writes ws sim').
Proof.
  revert sim sim'. induction ws as [|w ws IH]; intros sim sim' H; [done|].
  simpl. apply IH. by apply same_outside_status_block_insert.
Qed.

Lemma run_iteration_status_block_only ev sim sim' :
  status_block_only sim sim' ->
  status_block_only
    (supervisory_writes
       (writes_during_read ev ++ writes_during_write ev ++ writes_during_sleep ev) sim)
    (run_iteration ev sim').
Proof.
  intros H. rewrite !supervisory_writes_app.
  unfold run_iteration, phase_sleep, phase_publish, phase_write, phase_read.
  apply supervisory_writes_status_block_only.
  eapply status_block_only_trans; [|apply update_server_registers_status_block_only].
  apply supervisory_writes_status_block_only.
  unfold status_block_only at 1.
  rewrite (proj2 (write_outputs_runtime _)), (proj2 (phase_execute_runtime _)).
  eapply same_outside_status_block_trans; [|apply read_inputs_status_block_only].
  by apply supervisory_writes_status_block_only.
Qed.

Lemma run_cycle_status_block_only evs sim sim' :
  status_block_only sim sim' ->
  status_block_only (supervisory_writes (supervisory_log evs) sim) (run_cycle evs sim').
Proof.
  revert sim sim'. induction evs as [|ev evs IH]; intros sim sim' H; [done|].
  change (run_cycle (ev :: evs) sim') with (run_cycle evs (run_iteration ev sim')).
  unfold supervisory_log. simpl flat_map. rewrite supervisory_writes_app.
  apply IH. by apply run_iteration_status_block_only.
Qed.

(** X11. The scan loop writes the status block of the server's table
    and nothing else: outside the addresses 100..105 the table after any
    run of iterations is the one the supervisory writes alone produce,
    applied in the order they landed, and the size of the table is the
    same. In particular the loop never changes a command register. *)
Theorem scan_loop_writes_status_block_only evs sim :
  length (holding_registers (run_cycle evs sim))
  = length (holding_registers (supervisory_writes (supervisory_log evs) sim)) /\
  forall i : nat, status_block i = false ->
    holding_registers (run_cycle evs sim) !! i
    = holding_registers (supervisory_writes (supervisory_log evs) sim) !! i.
Proof. apply (run_cycle_status_block_only evs sim sim). apply status_block_only_refl. Qed.

Lemma same_sent_refl sim : same_sent sim sim.
Proof. done. Qed.

Lemma same_sent_trans sim1 sim2 sim3 :
  same_sent sim1 sim2 -> same_sent sim2 sim3 -> same_sent sim1 sim3.
Proof. unfold same_sent. congruence. Qed.

Lemma set_input_same_sent k v : preserves same_sent (set_input k v).
Proof. by intros sim. Qed.

Lemma _write_register_same_sent name value : preserves same_sent (_write_register name value).
Proof. intros sim. unfold _write_register. by destruct (register_map !! name). Qed.

Ltac same_sent_step :=
  first
    [ apply _write_register_same_sent
    | apply set_input_same_sent
    | preserves_step same_sent_refl same_sent_trans ].

Lemma read_inputs_same_sent reply sim : same_sent sim (read_inputs reply sim).
Proof.
  unfold read_inputs. destruct (client sim); [|done].
  destruct reply as [[r0 r1]|]; [|done].
  unfold negb. apply preserves_try. unfold mirror_sensors.
  repeat same_sent_step.
Qed.

Lemma update_server_registers_same_sent sim : same_sent sim (update_server_registers sim).
Proof.
  unfold update_server_registers. apply preserves_try.
  unfold copy_commands, scaled_command, publish_status, output_word, getValues.
  repeat same_sent_step.
Qed.

Lemma supervisory_writes_same_sent ws sim : same_sent sim (supervisory_writes ws sim).
Proof.
  revert sim. induction ws as [|w ws IH]; intros sim; [done|].
  simpl. eapply same_sent_trans; [|apply IH]. done.
Qed.

Lemma write_outputs_sent sim fan chiller :
  outputs (memory (runtime sim)) !! "FanSpeed" = Some (Py.VInt fan) ->
  outputs (memory (runtime sim)) !! "ChillerOn" = Some (Py.VBool chiller) ->
  sent_to_plant (write_outputs sim)
  = if client sim then sent_to_plant sim ++ [(fan, if chiller then 1 else 0)]
    else sent_to_plant sim.
Proof.
  intros Hfan Hchiller. unfold write_outputs. destruct (client sim); [|done].
  unfold negb, try_except, bind, self, lift. rewrite Hfan, Hchiller.
  by destruct chiller.
Qed.

Lemma plant_safe_bridge sim sim' :
  bridge_frame sim sim' -> same_sent sim sim' -> plant_safe sim -> plant_safe sim'.
Proof.
  intros (Hp & _ & _ & _ & Hout & _) Hsent (Hdefault & Hcons & Hall).
  unfold plant_safe, runs_default_controller in *. by rewrite Hp, Hout, Hsent.
Qed.

Lemma plant_safe_execute sim : plant_safe sim -> plant_safe (phase_execute sim).
Proof.
  intros (Hdefault & Hcons & Hall). split; [|split]; [| |done].
  - by apply runs_default_controller_execute_cycle.
  - by apply execute_cycle_consistent.
Qed.

Lemma plant_safe_write_outputs sim :
  plant_safe sim ->
  plant_safe (write_outputs sim) /\
  length (sent_to_plant (write_outputs sim))
  = (length (sent_to_plant sim) + if client sim then 1 else 0)%nat.
Proof.
  intros (Hdefault & Hcons & Hall).
  pose proof (write_outputs_bridge_frame sim) as (Hp & _ & _ & _ & Hout & _).
  destruct Hcons as (fan & status & Hfan & Hstatus & Hchiller & Hrange).
  rewrite (write_outputs_sent sim fan (status =? 1) Hfan Hchiller).
  unfold plant_safe, runs_default_controller in *. rewrite Hp, Hout.
  rewrite (write_outputs_sent sim fan (status =? 1) Hfan Hchiller).
  split; [split; [done|split]|].
  - by exists fan, status.
  - destruct (client sim); [|done]. apply Forall_app. split; [done|].
    apply Forall_singleton. unfold plant_command_ok. simpl.
    destruct (Z.eqb_spec status 1); lia.
  - destruct (client sim); [|lia]. rewrite length_app. simpl. lia.
Qed.

Lemma run_iteration_plant_safe ev sim :
  plant_safe sim ->
  plant_safe (run_iteration ev sim) /\
  length (sent_to_plant (run_iteration ev sim))
  = (length (sent_to_plant sim) + if client sim then 1 else 0)%nat.
Proof.
  intros Hsafe.
  unfold run_iteration, phase_sleep, phase_publish, phase_write, phase_read.
  set (s0 := supervisory_writes (writes_during_read ev) sim).
  assert (H0 : plant_safe s0 /\ same_sent sim s0 /\ client s0 = client sim).
  { split; [|split].
    - eapply plant_safe_bridge; [| |exact Hsafe].
      + apply supervisory_writes_bridge_frame.
      + apply supervisory_writes_same_sent.
    - apply supervisory_writes_same_sent.
    - apply supervisory_writes_runtime. }
  destruct H0 as (Hsafe0 & Hsent0 & Hclient0).
  set (s1 := read_inputs (plant_reply ev) s0).
  assert (Hsafe1 : plant_safe s1).
  { eapply plant_safe_bridge; [| |exact Hsafe0].
    - apply read_inputs_bridge_frame.
    - apply read_inputs_same_sent. }
  assert (Hclient1 : client s1 = client s0) by apply read_inputs_bridge_frame.
  assert (Hsent1 : same_sent s0 s1) by apply read_inputs_same_sent.
  set (s2 := phase_execute s1).
  pose proof (plant_safe_execute s1 Hsafe1) as Hsafe2. fold s2 in Hsafe2.
  destruct (plant_safe_write_outputs s2 Hsafe2) as [Hsafe3 Hlen3].
  set (s3 := write_outputs s2) in *.
  set (s4 := supervisory_writes (writes_during_write ev) s3).
  set (s5 := update_server_registers s4).
  set (s6 := supervisory_writes (writes_during_sleep ev) s5).
  assert (Hsent6 : same_sent s3 s6).
  { eapply same_sent_trans; [|apply supervisory_writes_same_sent].
    eapply same_sent_trans; [|apply update_server_registers_same_sent].
    apply supervisory_writes_same_sent. }
  split.
  - eapply plant_safe_bridge; [|exact Hsent6|exact Hsafe3].
    eapply bridge_frame_trans; [|apply supervisory_writes_bridge_frame].
    eapply bridge_frame_trans; [|apply update_server_registers_bridge_frame].
    apply supervisory_writes_bridge_frame.
  - rewrite Hsent6, Hlen3.
    change (sent_to_plant s2) with (sent_to_plant s1).
    change (client s2) with (client s1).
    by rewrite Hsent1, Hsent0, Hclient1, Hclient0.
Qed.

(** X12. Under the default controller the plant only ever receives
    commands that are in order: starting from consistent outputs, every
    command pair sent over any run of iterations has a fan speed in
    0..100 and a chiller word 0 or 1, with the fan at 0 or 20 whenever
    the chiller is off. With a plant client exactly one pair is sent per
    iteration; without one nothing is sent. *)
Theorem plant_commands_in_order evs sim :
  runs_default_controller (runtime sim) ->
  consistent_outputs (outputs (memory (runtime sim))) ->
  Forall plant_command_ok (sent_to_plant sim) ->
  Forall plant_command_ok (sent_to_plant (run_cycle evs sim)) /\
  length (sent_to_plant (run_cycle evs sim))
  = (length (sent_to_plant sim) + if client sim then length evs else 0)%nat.
Proof.
  intros Hdefault Hcons Hall.
  assert (Hsafe : plant_safe sim) by done. clear Hdefault Hcons Hall.
  cut (plant_safe (run_cycle evs sim) /\
       length (sent_to_plant (run_cycle evs sim))
       = (length (sent_to_plant sim) + if client sim then length evs else 0)%nat).
  { intros [(_ & _ & ?) ?]. done. }
  revert sim Hsafe. induction evs as [|ev evs IH]; intros sim Hsafe.
  - simpl. split; [done|]. destruct (client sim); lia.
  - change (run_cycle (ev :: evs) sim) with (run_cycle evs (run_iteration ev sim)).
    destruct (run_iteration_plant_safe ev sim Hsafe) as [Hsafe' Hlen'].
    destruct (IH _ Hsafe') as [Hsafe'' Hlen'']. split; [done|].
    rewrite Hlen'', Hlen'.
    destruct (run_iteration_runtime ev sim) as (_ & _ & -> & _).
    destruct (client sim); simpl; lia.
Qed.

Lemma plant_commands_in_order_witness :
  Forall plant_command_ok
    (sent_to_plant
       (run_cycle [enable_during_sleep; quiet_iteration; quiet_iteration]
          (PLCSimulator_start None true))) /\
  length (sent_to_plant
            (run_cycle [enable_during_sleep; quiet_iteration; quiet_iteration]
               (PLCSimulator_start None true)))
  = 3%nat.
Proof.
  apply (plant_commands_in_order
           [enable_during_sleep; quiet_iteration; quiet_iteration]
           (PLCSimulator_start None true)).
  - exact I.
  - exists 0, 0. repeat split; try reflexivity. left. split; reflexivity.
  - apply Forall_nil_2.
Defined.

(** *** Registers by name *)

Lemma register_map_address name a :
  register_map !! name = Some a ->
  (0 <= a - 40001 < 1000) /\
  forall other b, register_map !! other = Some b -> other <> name -> b <> a.
Proof.
  intros Ha. unfold register_map in *.
  apply elem_of_list_to_map_2 in Ha.
  repeat (apply elem_of_cons in Ha as [[= -> ->]|Ha];
    [split; [lia|]; intros other b Hb Hne;
     apply elem_of_list_to_map_2 in Hb;
     repeat (apply elem_of_cons in Hb as [[= -> ->]|Hb]; [done || lia|]);
     by apply elem_of_nil in Hb|]).
  by apply elem_of_nil in Ha.
Qed.

(** X13. Registers by name round-trip: in a table of 1000 words, a
    value written to a mapped name is the value read back under that
    name, reading any other name gives what it gave before (no two
    names share a register), and for a name that is not in the register
    map a write changes nothing and a read gives 0. *)
Theorem register_write_then_read name value sim :
  length (holding_registers sim) = 1000%nat ->
  (is_Some (register_map !! name) ->
   fst (_read_register name (snd (_write_register name value sim))) = Py.Ok value) /\
  (forall other, other <> name ->
   fst (_read_register other (snd (_write_register name value sim)))
   = fst (_read_register other sim)) /\
  (register_map !! name = None ->
   snd (_write_register name value sim) = sim /\
   fst (_read_register name sim) = Py.Ok 0).
Proof.
  intros Hlen. unfold _write_register, _read_register. split; [|split].
  - intros [a Ha]. rewrite Ha.
    destruct (register_map_address name a Ha) as [Hrange _].
    unfold getValues, setValues, update, bind, self, ret, word. simpl.
    rewrite list_lookup_insert_eq by lia. done.
  - intros other Hne.
    destruct (register_map !! name) as [a|] eqn:Ha; [|done].
    destruct (register_map !! other) as [b|] eqn:Hb; [|done].
    destruct (register_map_address name a Ha) as [Hrange Hinj].
    destruct (register_map_address other b Hb) as [Hrange' _].
    specialize (Hinj other b Hb Hne).
    unfold getValues, setValues, update, bind, self, ret, word. simpl.
    rewrite list_lookup_insert_ne by lia. done.
  - intros Hnone. by rewrite Hnone.
Qed.

Lemma register_write_then_read_witness :
  fst (_read_register "FanSpeed"
         (snd (_write_register "FanSpeed" 60 (PLCSimulator_start None true))))
  = Py.Ok 60.
Proof.
  apply (proj1 (register_write_then_read "FanSpeed" 60 (PLCSimulator_start None true)
                  eq_refl)).
  by eexists.
Defined.

(** *** From the outputs to the backend *)

Lemma publish_status_registers sim fan chiller status alarm :
  outputs (memory (runtime sim)) !! "FanSpeed" = Some (Py.VInt fan) ->
  outputs (memory (runtime sim)) !! "ChillerOn" = Some (Py.VBool chiller) ->
  outputs (memory (runtime sim)) !! "SystemStatus" = Some (Py.VInt status) ->
  outputs (memory (runtime sim)) !! "AlarmActive" = Some (Py.VBool alarm) ->
  holding_registers (snd (publish_status sim))
  = <[105%nat := if alarm then 1 else 0]>
      (<[104%nat := status]>
         (<[103%nat := if chiller then 1 else 0]>
            (<[102%nat := fan]> (holding_registers sim)))).
Proof.
  intros Hfan Hchiller Hstatus Halarm.
  unfold publish_status, output_word, bind, self, lift.
  rewrite Hfan, Hchiller, Hstatus, Halarm.
  by destruct chiller, alarm.
Qed.

Lemma update_server_registers_registers sim fan chiller status alarm :
  command_words (holding_registers sim) ->
  outputs (memory (runtime sim)) !! "FanSpeed" = Some (Py.VInt fan) ->
  outputs (memory (runtime sim)) !! "ChillerOn" = Some (Py.VBool chiller) ->
  outputs (memory (runtime sim)) !! "SystemStatus" = Some (Py.VInt status) ->
  outputs (memory (runtime sim)) !! "AlarmActive" = Some (Py.VBool alarm) ->
  holding_registers (update_server_registers sim)
  = <[105%nat := if alarm then 1 else 0]>
      (<[104%nat := status]>
         (<[103%nat := if chiller then 1 else 0]>
            (<[102%nat := fan]> (holding_registers sim)))).
Proof.
  intros Hw Hfan Hchiller Hstatus Halarm.
  unfold update_server_registers, try_except.
  unfold bind. rewrite (copy_commands_ok sim Hw).
  by rewrite (publish_status_registers _ fan chiller status alarm).
Qed.

Lemma lookup_word regs (i : nat) :
  (i < length regs)%nat -> regs !! i = Some (word regs (Z.of_nat i)).
Proof.
  intros Hi. unfold word. rewrite Nat2Z.id.
  by destruct (lookup_lt_is_Some_2 regs i Hi) as [w ->].
Qed.

Lemma six_words (l : list Z) a0 a1 a2 a3 a4 a5 :
  length l = 6%nat ->
  l !! 0%nat = Some a0 -> l !! 1%nat = Some a1 -> l !! 2%nat = Some a2 ->
  l !! 3%nat = Some a3 -> l !! 4%nat = Some a4 -> l !! 5%nat = Some a5 ->
  l = [a0; a1; a2; a3; a4; a5].
Proof.
  do 7 (destruct l as [|? l]; try done). simpl. congruence.
Qed.

Lemma wire_word_fits w : 0 <= w < 65536 -> wire_word w = Some w.
Proof. intros Hw. unfold wire_word. by rewrite bool_decide_eq_true_2. Qed.

(** X14. What the PLC publishes is what the backend reads. After
    [update_server_registers] on a table of 1000 words whose command
    words convert, with integer FanSpeed and SystemStatus that fit a
    register and boolean ChillerOn and AlarmActive, the backend's
    [read_system_status] returns exactly these four outputs, together
    with the two mirrored sensor words divided by 10. *)
Theorem status_reaches_backend sim fan chiller status alarm temp humidity :
  length (holding_registers sim) = 1000%nat ->
  command_words (holding_registers sim) ->
  outputs (memory (runtime sim)) !! "FanSpeed" = Some (Py.VInt fan) ->
  outputs (memory (runtime sim)) !! "ChillerOn" = Some (Py.VBool chiller) ->
  outputs (memory (runtime sim)) !! "SystemStatus" = Some (Py.VInt status) ->
  outputs (memory (runtime sim)) !! "AlarmActive" = Some (Py.VBool alarm) ->
  0 <= fan < 65536 ->
  0 <= status < 65536 ->
  0 <= word (holding_registers sim) (address "RoomTemperature") < 65536 ->
  0 <= word (holding_registers sim) (address "RoomHumidity") < 65536 ->
  status_float (word (holding_registers sim) (address "RoomTemperature")) = Some temp ->
  status_float (word (holding_registers sim) (address "RoomHumidity")) = Some humidity ->
  read_system_status (served (holding_registers (update_server_registers sim)))
  = Some (list_to_map
      [ ("room_temperature", temp); ("room_humidity", humidity);
        ("fan_speed", Py.VInt fan); ("chiller_status", Py.VBool chiller);
        ("system_status", Py.VInt status); ("alarm_active", Py.VBool alarm) ]).
Proof.
  intros Hlen Hw Hfan Hchiller Hstatus Halarm Hfan16 Hstatus16 Ht16 Hh16 Htemp Hhum.
  rewrite (update_server_registers_registers sim fan chiller status alarm) by done.
  set (regs := holding_registers sim) in *.
  set (regs' := <[105%nat := _]> _).
  assert (Hlen' : length regs' = 1000%nat) by (unfold regs'; by rewrite !length_insert).
  change (address "RoomTemperature") with (Z.of_nat 100) in *.
  change (address "RoomHumidity") with (Z.of_nat 101) in *.
  assert (Hwords : take 6 (drop 100 regs')
                   = [ word regs (Z.of_nat 100); word regs (Z.of_nat 101); fan;
                       (if chiller then 1 else 0); status; (if alarm then 1 else 0) ]).
  { apply six_words.
    - rewrite length_take, length_drop. lia.
    - rewrite lookup_take_lt, lookup_drop by lia. unfold regs'.
      rewrite !list_lookup_insert_ne by lia. apply lookup_word. lia.
    - rewrite lookup_take_lt, lookup_drop by lia. unfold regs'.
      rewrite !list_lookup_insert_ne by lia. apply lookup_word. lia.
    - rewrite lookup_take_lt, lookup_drop by lia. unfold regs'.
      rewrite !list_lookup_insert_ne by lia.
      apply list_lookup_insert_eq. fold regs. lia.
    - rewrite lookup_take_lt, lookup_drop by lia. unfold regs'.
      rewrite !list_lookup_insert_ne by lia.
      apply list_lookup_insert_eq. rewrite !length_insert. fold regs. lia.
    - rewrite lookup_take_lt, lookup_drop by lia. unfold regs'.
      rewrite !list_lookup_insert_ne by lia.
      apply list_lookup_insert_eq. rewrite !length_insert. fold regs. lia.
    - rewrite lookup_take_lt, lookup_drop by lia. unfold regs'.
      apply list_lookup_insert_eq. rewrite !length_insert. fold regs. lia. }
  unfold read_system_status.
  change (registers !! "room_temperature") with (Some 100). simpl mbind at 1.
  unfold served. rewrite bool_decide_eq_true_2 by (rewrite Hlen'; lia).
  change (Z.to_nat 100) with 100%nat. rewrite Hwords.
  simpl mapM.
  rewrite (wire_word_fits (word regs _) Ht16), (wire_word_fits (word regs _) Hh16).
  rewrite (wire_word_fits fan Hfan16), (wire_word_fits status Hstatus16).
  rewrite (wire_word_fits (if chiller then 1 else 0)) by (destruct chiller; lia).
  rewrite (wire_word_fits (if alarm then 1 else 0)) by (destruct alarm; lia).
  simpl. rewrite Htemp. simpl. rewrite Hhum. simpl.
  by destruct chiller, alarm.
Qed.

Lemma status_reaches_backend_witness :
  read_system_status
    (served (holding_registers (update_server_registers scenario_B_executed)))
  = Some (list_to_map
      [ ("room_temperature", Py.VFloat 0); ("room_humidity", Py.VFloat 0);
        ("fan_speed", Py.VInt 60); ("chiller_status", Py.VBool true);
        ("system_status", Py.VInt 1); ("alarm_active", Py.VBool false) ]).
Proof.
  apply (status_reaches_backend scenario_B_executed 60 true 1 false
           (Py.VFloat 0) (Py.VFloat 0));
    try reflexivity; try lia.
  - repeat constructor.
  - vm_compute. split; [discriminate | reflexivity].
  - vm_compute. split; [discriminate | reflexivity].
Defined.

(** *** From the control route to the inputs *)

Lemma control_system_written connected command value st st' w :
  control_system connected command value st = (st', Written w) ->
  address (command_target command) = Z.of_nat (fst w) /\
  0 <= snd w < 65536 /\
  command_target command ∈ "SystemEnable" :: scaled_commands /\
  (command = "start" -> snd w = 1) /\
  (command = "stop" -> snd w = 0) /\
  (command = "set_temperature" \/ command = "set_humidity" ->
   exists v, value = Some v /\ times_ten v = Some (snd w)).
Proof.
  unfold control_system, command_target. destruct connected; [|done]. simpl.
  repeat case_decide; subst; try done.
  - intros [= <- <-].
    split; [done|]. split; [simpl; lia|]. split; [set_solver|].
    split; [done|]. split; [done|]. by intros [|].
  - intros [= <- <-].
    split; [done|]. split; [simpl; lia|]. split; [set_solver|].
    split; [done|]. split; [done|]. by intros [|].
  - destruct value as [v|]; [|done].
    destruct (times_ten v) as [k|] eqn:Hk; [|done]. simpl.
    unfold write_register. case_bool_decide; [|done].
    intros [= <- <-].
    split; [done|]. split; [simpl; lia|].
    split; [unfold scaled_commands; set_solver|].
    split; [done|]. split; [done|]. intros _. by exists v.
  - destruct value as [v|]; [|done].
    destruct (times_ten v) as [k|] eqn:Hk; [|done]. simpl.
    unfold write_register. case_bool_decide; [|done].
    intros [= <- <-].
    split; [done|]. split; [simpl; lia|].
    split; [unfold scaled_commands; set_solver|].
    split; [done|]. split; [done|]. intros _. by exists v.
Qed.

(** X15. A command of the control route reaches the interpreter's
    inputs at the next publish step. When [control_system] has sent its
    register write and the write has landed in a table of 1000 words
    whose scaled command words convert, [update_server_registers] stores
    in the input the command is meant for the value of the written word:
    SystemEnable is true after "start" and false after "stop", and the
    setpoint is [int(value * 10) / 10.0] after "set_temperature" and
    "set_humidity". *)
Theorem control_command_reaches_input connected command value st st' w sim :
  control_system connected command value st = (st', Written w) ->
  length (holding_registers sim) = 1000%nat ->
  command_words (holding_registers (supervisory_write w sim)) ->
  inputs (memory (runtime (update_server_registers (supervisory_write w sim))))
    !! command_target command
  = Some (decoded_command (command_target command) (snd w)) /\
  (command = "start" -> snd w = 1) /\
  (command = "stop" -> snd w = 0) /\
  (command = "set_temperature" \/ command = "set_humidity" ->
   exists v, value = Some v /\ times_ten v = Some (snd w)).
Proof.
  intros Hsent Hlen Hwords.
  destruct (control_system_written _ _ _ _ _ _ Hsent)
    as (Haddr & Hfits & Htarget & Hstart & Hstop & Hset).
  split; [|done].
  rewrite (update_server_registers_runtime _ Hwords).
  rewrite memory_with_memory, copied_inputs_lookup by done.
  unfold command_input, decoded_command.
  assert (Hword : word (holding_registers (supervisory_write w sim))
                    (address (command_target command)) = snd w); [|by rewrite Hword].
  rewrite Haddr. unfold word. rewrite Nat2Z.id. simpl.
  rewrite list_lookup_insert_eq; [done|].
  assert (address (command_target command) < 1000); [|lia].
  unfold scaled_commands in Htarget.
  repeat (apply elem_of_cons in Htarget as [->|Htarget]; [by vm_compute|]).
  by apply elem_of_nil in Htarget.
Qed.

Lemma control_command_reaches_input_witness :
  inputs (memory (runtime (update_server_registers
                             (supervisory_write (1%nat, 235)
                                (PLCSimulator_start None true)))))
    !! "SetpointTemp"
  = Some (Py.VFloat 23.5).
Proof.
  apply (proj1 (control_command_reaches_input true "set_temperature" (Some 23.5%float)
                  ∅ (<["setpoint_temperature" := Py.VFloat 23.5]> ∅) (1%nat, 235)
                  (PLCSimulator_start None true) eq_refl eq_refl
                  ltac:(repeat constructor))).
Defined.

(** *** The three mappings over the cycles of a program *)

Lemma keeps_classes_refl rt : keeps_classes rt rt.
Proof. split; [done|]. split; [done|]. split; [set_solver|done]. Qed.

Lemma keeps_classes_trans rt1 rt2 rt3 :
  keeps_classes rt1 rt2 -> keeps_classes rt2 rt3 -> keeps_classes rt1 rt3.
Proof.
  intros (Hi1 & Ho1 & Hn1 & Hd1) (Hi2 & Ho2 & Hn2 & Hd2).
  split; [congruence|]. split; [congruence|]. split; [set_solver|]. auto.
Qed.

Lemma keeps_classes_output k v rt :
  is_Some (outputs (memory rt) !! k) ->
  keeps_classes rt (with_memory (set_outputs k v) rt).
Proof.
  intros Hk. apply elem_of_dom in Hk.
  assert (Hdom : dom (<[k := v]> (outputs (memory rt))) = dom (outputs (memory rt))).
  { rewrite dom_insert_L. set_solver. }
  unfold keeps_classes, classes_disjoint. simpl. rewrite Hdom.
  split; [done|]. split; [done|]. split; [set_solver|done].
Qed.

Lemma keeps_classes_new_internal k v rt :
  outputs (memory rt) !! k = None -> inputs (memory rt) !! k = None ->
  keeps_classes rt (with_memory (set_internal k v) rt).
Proof.
  intros Hout Hin. apply not_elem_of_dom in Hout, Hin.
  unfold keeps_classes, classes_disjoint. simpl. rewrite dom_insert_L.
  split; [done|]. split; [done|]. split; [set_solver|].
  intros (H1 & H2 & H3). repeat split; set_solver.
Qed.

Lemma _execute_statement_keeps_classes s : preserves keeps_classes (_execute_statement s).
Proof.
  apply _execute_statement_assigns.
  - apply keeps_classes_refl.
  - apply keeps_classes_trans.
  - intros r rt. apply (keeps_classes_refl rt).
  - apply keeps_classes_output.
  - apply keeps_classes_new_internal.
Qed.

Lemma execute_cycle_keeps_classes rt p :
  program rt = Some p -> statements p <> [] ->
  "AlarmActive" ∈ dom (outputs (memory rt)) ->
  keeps_classes rt (execute_cycle rt).
Proof.
  intros Hp Hs Halarm. unfold execute_cycle. rewrite cycle_body_dispatch.
  destruct (statements p) as [|s stmts] eqn:Hstmts; [done|].
  assert (Hd : cycle_dispatch (begin_cycle rt)
               = execute_block _execute_statement (s :: stmts)).
  { unfold cycle_dispatch. simpl. by rewrite Hp, Hstmts. }
  rewrite Hd.
  assert (Hblock : preserves keeps_classes (execute_block _execute_statement (s :: stmts))).
  { apply (execute_block_preserves _ keeps_classes_refl keeps_classes_trans).
    apply Forall_forall. intros s' _. apply _execute_statement_keeps_classes. }
  specialize (Hblock (enable_snapshot (begin_cycle rt))).
  destruct (execute_block _execute_statement (s :: stmts)
              (enable_snapshot (begin_cycle rt))) as [[[]|e] rt']; simpl in Hblock.
  - exact Hblock.
  - apply (keeps_classes_trans rt rt'); [exact Hblock|].
    apply (keeps_classes_trans _ (with_log (LogCycleError e) rt'));
      [apply (keeps_classes_refl rt')|].
    apply keeps_classes_output. apply elem_of_dom.
    destruct Hblock as (_ & Hout & _). simpl in *. by rewrite Hout.
Qed.

(** X16. The storage classes of a program stay apart. For a program
    with statements whose Memory has the alarm among its outputs, any
    number of cycles leaves the input mapping as it was, keeps the set
    of output names, only ever adds internal names (an assignment to an
    undeclared name creates one), and, if the three mappings shared no
    name before, they share none afterwards. *)
Theorem storage_classes_stay_apart n rt p :
  program rt = Some p ->
  statements p <> [] ->
  "AlarmActive" ∈ dom (outputs (memory rt)) ->
  inputs (memory (Nat.iter n execute_cycle rt)) = inputs (memory rt) /\
  dom (outputs (memory (Nat.iter n execute_cycle rt))) = dom (outputs (memory rt)) /\
  dom (internal (memory rt)) ⊆ dom (internal (memory (Nat.iter n execute_cycle rt))) /\
  (classes_disjoint (memory rt) ->
   classes_disjoint (memory (Nat.iter n execute_cycle rt))).
Proof.
  intros Hp Hs Halarm.
  change (keeps_classes rt (Nat.iter n execute_cycle rt)).
  induction n as [|n IH]; simpl; [apply keeps_classes_refl|].
  eapply keeps_classes_trans; [exact IH|].
  apply (execute_cycle_keeps_classes _ p); [|done|].
  - clear IH. induction n as [|n IHn]; simpl; [done|].
    by destruct (execute_cycle_control (Nat.iter n execute_cycle rt)) as [-> _].
  - destruct IH as (_ & -> & _). done.
Qed.

Lemma storage_classes_stay_apart_witness :
  inputs (memory (Nat.iter 2 execute_cycle (PLCRuntime_init (Some reads_missing_variable))))
  = inputs (memory (PLCRuntime_init (Some reads_missing_variable))) /\
  dom (outputs (memory (Nat.iter 2 execute_cycle
                          (PLCRuntime_init (Some reads_missing_variable)))))
  = dom (outputs (memory (PLCRuntime_init (Some reads_missing_variable)))).
Proof.
  destruct (storage_classes_stay_apart 2 (PLCRuntime_init (Some reads_missing_variable))
              reads_missing_variable eq_refl) as (H1 & H2 & _).
  - discriminate.
  - apply (bool_decide_unpack _). by vm_compute.
  - split; [exact H1 | exact H2].
Defined.

(** *** Conditions built from AND, OR and NOT *)

(** X17. As the condition of an IF, AND, OR and NOT are the boolean
    connectives of the truth of their operands, whatever values the
    operands are: with both operands evaluated, [IF l AND r] runs its
    THEN block exactly when both are true, [IF l OR r] when one is, and
    [IF NOT l] when [l] is false; otherwise the statement does nothing
    more. *)
Theorem logical_operators_as_conditions l r rt a rt1 b rt2 then_block :
  _evaluate_expression l rt = (Py.Ok a, rt1) ->
  _evaluate_expression r rt1 = (Py.Ok b, rt2) ->
  _execute_statement (IfStatement (LogicalOp OpAND l r) then_block [] None) rt
  = (if Py.truthy a && Py.truthy b
     then execute_block _execute_statement then_block rt2 else (Py.Ok tt, rt2)) /\
  _execute_statement (IfStatement (LogicalOp OpOR l r) then_block [] None) rt
  = (if Py.truthy a || Py.truthy b
     then execute_block _execute_statement then_block rt2 else (Py.Ok tt, rt2)) /\
  _execute_statement (IfStatement (UnaryOp OpNOT l) then_block [] None) rt
  = (if negb (Py.truthy a)
     then execute_block _execute_statement then_block rt1 else (Py.Ok tt, rt1)).
Proof.
  intros Hl Hr.
  assert (Hand : _evaluate_expression (LogicalOp OpAND l r) rt = (Py.Ok (Py.and_ a b), rt2)).
  { simpl. by rewrite (bind_ok _ _ _ _ _ Hl), (bind_ok _ _ _ _ _ Hr). }
  assert (Hor : _evaluate_expression (LogicalOp OpOR l r) rt = (Py.Ok (Py.or_ a b), rt2)).
  { simpl. by rewrite (bind_ok _ _ _ _ _ Hl), (bind_ok _ _ _ _ _ Hr). }
  assert (Hnot : _evaluate_expression (UnaryOp OpNOT l) rt
                 = (Py.Ok (Py.VBool (negb (Py.truthy a))), rt1)).
  { simpl. by rewrite (bind_ok _ _ _ _ _ Hl). }
  split; [|split].
  - change (_execute_statement (IfStatement ?c then_block [] None))
      with (let* condition := _evaluate_expression c in
            if Py.truthy condition then execute_block _execute_statement then_block
            else execute_elsif _execute_statement None []).
    rewrite (bind_ok _ _ _ _ _ Hand). unfold Py.and_.
    destruct (Py.truthy a) eqn:Ha; simpl; [by destruct (Py.truthy b)|by rewrite Ha].
  - change (_execute_statement (IfStatement ?c then_block [] None))
      with (let* condition := _evaluate_expression c in
            if Py.truthy condition then execute_block _execute_statement then_block
            else execute_elsif _execute_statement None []).
    rewrite (bind_ok _ _ _ _ _ Hor). unfold Py.or_.
    destruct (Py.truthy a) eqn:Ha; simpl; [by rewrite Ha|by destruct (Py.truthy b)].
  - change (_execute_statement (IfStatement ?c then_block [] None))
      with (let* condition := _evaluate_expression c in
            if Py.truthy condition then execute_block _execute_statement then_block
            else execute_elsif _execute_statement None []).
    rewrite (bind_ok _ _ _ _ _ Hnot).
    change (Py.truthy (Py.VBool ?x)) with x. by destruct (Py.truthy a).
Qed.

Lemma logical_operators_as_conditions_witness :
  outputs (memory (snd (_execute_statement
    (IfStatement (LogicalOp OpAND (Literal (Py.VFloat 5)) (Literal (Py.VFloat 0)))
       [Assignment "FanSpeed" (Literal (Py.VFloat 77))] [] None)
    (PLCRuntime_init None)))) !! "FanSpeed" = Some (Py.VInt 0) /\
  outputs (memory (snd (_execute_statement
    (IfStatement (LogicalOp OpOR (Literal (Py.VFloat 5)) (Literal (Py.VFloat 0)))
       [Assignment "FanSpeed" (Literal (Py.VFloat 77))] [] None)
    (PLCRuntime_init None)))) !! "FanSpeed" = Some (Py.VFloat 77).
Proof.
  destruct (logical_operators_as_conditions
              (Literal (Py.VFloat 5)) (Literal (Py.VFloat 0)) (PLCRuntime_init None)
              (Py.VFloat 5) (PLCRuntime_init None) (Py.VFloat 0) (PLCRuntime_init None)
              [Assignment "FanSpeed" (Literal (Py.VFloat 77))] eq_refl eq_refl)
    as (-> & -> & _).
  split; reflexivity.
Defined.

(** *** The classes of the register map *)

(** X18. [get_register_map_info] sorts the register map into four
    classes by address band without changing an entry: every entry of a
    class is an entry of the map, no name is in two classes, and a name
    is in a class exactly when its address is in that class's band. For
    the map of the interface every name is in one of the classes. *)
Theorem register_classes_partition rm :
  (forall c m name a,
     get_register_map_info rm !! c = Some m -> m !! name = Some a ->
     rm !! name = Some a) /\
  (forall c c' m m' name,
     get_register_map_info rm !! c = Some m ->
     get_register_map_info rm !! c' = Some m' ->
     is_Some (m !! name) -> is_Some (m' !! name) -> c = c') /\
  (forall name a, rm !! name = Some a ->
     (exists c m, get_register_map_info rm !! c = Some m /\ m !! name = Some a) <->
     (40001 <= a <= 40099 \/ 40101 <= a <= 40199 \/
      40201 <= a <= 40299 \/ 40301 <= a <= 40399)) /\
  (forall name a, register_map !! name = Some a ->
     exists c m, get_register_map_info register_map !! c = Some m /\
                 m !! name = Some a).
Proof.
  assert (Hclass : forall c m, get_register_map_info rm !! c = Some m ->
            c = "commands" /\ m = filter (in_band 40001 40099) rm \/
            c = "status" /\ m = filter (in_band 40101 40199) rm \/
            c = "sensors" /\ m = filter (in_band 40201 40299) rm \/
            c = "actuators" /\ m = filter (in_band 40301 40399) rm).
  { intros c m. unfold get_register_map_info. intros H.
    repeat (apply lookup_insert_Some in H as [[<- <-]|[_ H]]; [by auto 10|]).
    by apply lookup_singleton_Some in H as [<- <-]; auto 10. }
  split; [|split; [|split]].
  - intros c m name a Hc Hm.
    destruct (Hclass c m Hc) as [[_ ->]|[[_ ->]|[[_ ->]|[_ ->]]]];
      by apply map_lookup_filter_Some in Hm as [? _].
  - intros c c' m m' name Hc Hc' [a Ha] [a' Ha'].
    destruct (Hclass c m Hc) as [[-> ->]|[[-> ->]|[[-> ->]|[-> ->]]]];
      destruct (Hclass c' m' Hc') as [[-> ->]|[[-> ->]|[[-> ->]|[-> ->]]]];
      try done;
      apply map_lookup_filter_Some in Ha as [Ha Hband];
      apply map_lookup_filter_Some in Ha' as [Ha' Hband'];
      unfold in_band in *; simpl in *; simplify_eq; lia.
  - intros name a Hname. split.
    + intros (c & m & Hc & Hm).
      destruct (Hclass c m Hc) as [[_ ->]|[[_ ->]|[[_ ->]|[_ ->]]]];
        apply map_lookup_filter_Some in Hm as [_ Hband];
        unfold in_band in Hband; simpl in Hband; lia.
    + intros [H|[H|[H|H]]].
      * exists "commands", (filter (in_band 40001 40099) rm). split; [done|].
        by apply map_lookup_filter_Some.
      * exists "status", (filter (in_band 40101 40199) rm). split; [done|].
        by apply map_lookup_filter_Some.
      * exists "sensors", (filter (in_band 40201 40299) rm). split; [done|].
        by apply map_lookup_filter_Some.
      * exists "actuators", (filter (in_band 40301 40399) rm). split; [done|].
        by apply map_lookup_filter_Some.
  - intros name a Hname.
    assert (Hband : 40001 <= a <= 40099 \/ 40101 <= a <= 40199 \/
                    40201 <= a <= 40299 \/ 40301 <= a <= 40399).
    { unfold register_map in Hname. apply elem_of_list_to_map_2 in Hname.
      repeat (apply elem_of_cons in Hname as [[= -> ->]|Hname]; [lia|]).
      by apply elem_of_nil in Hname. }
    destruct Hband as [H|[H|[H|H]]].
    * exists "commands", (filter (in_band 40001 40099) register_map). split; [done|].
      by apply map_lookup_filter_Some.
    * exists "status", (filter (in_band 40101 40199) register_map). split; [done|].
      by apply map_lookup_filter_Some.
    * exists "sensors", (filter (in_band 40201 40299) register_map). split; [done|].
      by apply map_lookup_filter_Some.
    * exists "actuators", (filter (in_band 40301 40399) register_map). split; [done|].
      by apply map_lookup_filter_Some.
Qed.

(** *** The default controller at rest *)

Lemma with_memory_id rt : with_memory (apply_writes []) rt = rt.
Proof. by destruct rt. Qed.

Lemma apply_writes_inputs ws m : inputs (apply_writes ws m) = inputs m.
Proof.
  revert m. induction ws as [|w ws IH]; intros m; [done|].
  unfold apply_writes in *. simpl. rewrite IH. by destruct w.
Qed.

Lemma apply_writes_app ws ws' m :
  apply_writes (ws ++ ws') m = apply_writes ws' (apply_writes ws m).
Proof. apply foldl_app. Qed.

Lemma writes_only_ret {A : Type} (a : A) : writes_only (ret a).
Proof.
  exists (fun _ _ => (Py.Ok a, [])). intros s. simpl. by rewrite with_memory_id.
Qed.

Lemma writes_only_lift {A : Type} (o : Py.outcome A) : writes_only (lift o).
Proof.
  exists (fun _ _ => (o, [])). intros s. simpl. by rewrite with_memory_id.
Qed.

Lemma writes_only_input k : writes_only (input k).
Proof.
  exists (fun ins _ => (getitem ins k, [])). intros s. simpl.
  by rewrite with_memory_id.
Qed.

Lemma writes_only_set_output k v : writes_only (set_output k v).
Proof. by exists (fun _ _ => (Py.Ok tt, [ToOutput k v])). Qed.

Lemma writes_only_set_internal_var k v : writes_only (set_internal_var k v).
Proof. by exists (fun _ _ => (Py.Ok tt, [ToInternal k v])). Qed.

Lemma writes_only_bind {A B : Type} (c : M A) (k : A -> M B) :
  writes_only c -> (forall a, writes_only (k a)) -> writes_only (bind c k).
Proof.
  intros [g Hg] Hk.
  exists (fun ins en =>
    match g ins en with
    | (Py.Ok a, ws) =>
        (fst (proj1_sig (Hk a) ins en), ws ++ snd (proj1_sig (Hk a) ins en))
    | (Py.Raise e, ws) => (Py.Raise e, ws)
    end).
  intros s. unfold bind. rewrite (Hg s).
  destruct (g (inputs (memory s)) (system_enabled s)) as [[a|e] ws]; simpl; [|done].
  destruct (Hk a) as [ga Hga]. simpl. rewrite Hga. simpl.
  rewrite apply_writes_inputs. f_equal.
  unfold with_memory. simpl. by rewrite apply_writes_app.
Qed.

Lemma writes_only_enabled {A : Type} (k : Py.value -> M A) :
  (forall enabled, writes_only (k enabled)) ->
  writes_only (let* rt := self in k (system_enabled rt)).
Proof.
  intros Hk.
  exists (fun ins en => proj1_sig (Hk en) ins en).
  intros s. unfold bind, self. destruct (Hk (system_enabled s)) as [g Hg]. apply Hg.
Qed.

Lemma _execute_default_logic_writes_only : writes_only _execute_default_logic.
Proof.
  unfold _execute_default_logic.
  apply (writes_only_enabled (fun enabled => if negb (Py.truthy enabled) then _ else _)).
  intros enabled.
  repeat (first
    [ apply writes_only_ret
    | apply writes_only_lift
    | apply writes_only_input
    | apply writes_only_set_output
    | apply writes_only_set_internal_var
    | apply writes_only_bind; [| intros ?]
    | match goal with |- writes_only (if ?b then _ else _) => destruct b end ]).
Qed.

Lemma apply_write_same_slot w w' m :
  same_slot w w' -> apply_write (apply_write m w') w = apply_write m w.
Proof.
  destruct w as [k v|k v], w' as [k' v'|k' v']; simpl; try done; intros ->;
    unfold set_outputs, set_internal; simpl; by rewrite insert_insert_eq.
Qed.

Lemma apply_write_other_slot w w' m :
  ~ same_slot w w' ->
  apply_write (apply_write m w') w = apply_write (apply_write m w) w'.
Proof.
  destruct w as [k v|k v], w' as [k' v'|k' v']; simpl; try done; intros Hne;
    unfold set_outputs, set_internal; simpl; by rewrite insert_insert_ne.
Qed.

Lemma same_slot_dec w w' : same_slot w w' \/ ~ same_slot w w'.
Proof.
  destruct w as [k v|k v], w' as [k' v'|k' v']; simpl;
    try (by right; intros []); destruct (decide (k = k')); auto.
Qed.

Lemma apply_writes_overwritten ws w w' m :
  same_slot w w' ->
  apply_write (apply_writes ws (apply_write m w')) w
  = apply_write (apply_writes ws m) w.
Proof.
  intros Hsame. revert m. induction ws as [|x ws IH]; intros m.
  - by apply apply_write_same_slot.
  - unfold apply_writes in *. simpl.
    destruct (same_slot_dec x w') as [Hx|Hx].
    + by rewrite (apply_write_same_slot x w' m Hx).
    + rewrite (apply_write_other_slot x w' m Hx). apply IH.
Qed.

Lemma apply_writes_twice ws m :
  apply_writes ws (apply_writes ws m) = apply_writes ws m.
Proof.
  revert m. induction ws as [|w ws IH] using rev_ind; intros m; [done|].
  rewrite !apply_writes_app. unfold apply_writes at 1 3. simpl.
  rewrite <- (IH m) at 2.
  apply (apply_writes_overwritten ws w w).
  by destruct w.
Qed.

Lemma execute_cycle_default_writes rt :
  exists ws, forall rt',
    runs_default_controller rt' ->
    inputs (memory rt') = inputs (memory rt) ->
    memory (execute_cycle rt') = apply_writes ws (memory rt').
Proof.
  destruct _execute_default_logic_writes_only as [g Hg].
  set (enabled := default (Py.VBool false) (inputs (memory rt) !! "SystemEnable")).
  exists (match fst (g (inputs (memory rt)) enabled) with
          | Py.Ok _ => snd (g (inputs (memory rt)) enabled)
          | Py.Raise _ =>
              snd (g (inputs (memory rt)) enabled)
              ++ [ToOutput "AlarmActive" (Py.VBool true)]
          end).
  intros rt' Hdefault Hin.
  unfold execute_cycle. rewrite (cycle_body_default rt' Hdefault), Hg. simpl.
  rewrite Hin. fold enabled.
  destruct (g (inputs (memory rt)) enabled) as [[[]|e] ws]; simpl; [done|].
  by rewrite apply_writes_app.
Qed.

Lemma runs_default_controller_cycles n rt :
  runs_default_controller rt -> runs_default_controller (Nat.iter n execute_cycle rt).
Proof.
  intros H. induction n as [|n IH]; simpl; [done|].
  by apply runs_default_controller_execute_cycle.
Qed.

(** X19. The default controller is at rest once it has run: a cycle
    determines Memory from the inputs alone, so as long as the inputs do
    not change (only the bridge changes them) every further cycle leaves
    Memory exactly as the first one left it, whether the cycles return
    or raise. The controller keeps no state of its own from cycle to
    cycle. *)
Theorem default_controller_at_rest n rt :
  runs_default_controller rt ->
  memory (Nat.iter n execute_cycle (execute_cycle rt)) = memory (execute_cycle rt).
Proof.
  intros Hdefault.
  destruct (execute_cycle_default_writes rt) as [ws Hws].
  assert (Hfirst : memory (execute_cycle rt) = apply_writes ws (memory rt))
    by by apply Hws.
  induction n as [|n IH]; simpl; [done|].
  rewrite Hws.
  - by rewrite IH, Hfirst, apply_writes_twice.
  - apply runs_default_controller_cycles.
    by apply runs_default_controller_execute_cycle.
  - rewrite (execute_cycles_same_inputs n (execute_cycle rt)).
    apply execute_cycle_same_inputs.
Qed.

Lemma default_controller_at_rest_witness :
  memory (Nat.iter 3 execute_cycle (execute_cycle scenario_B))
  = memory (execute_cycle scenario_B).
Proof. apply (default_controller_at_rest 3 scenario_B). exact I. Defined.

(** * Missing variables, raising statements and the alarm *)

(** C1, the counterexample: after a cycle of [x := y] with [y] missing,
    the statement has run to its end ([x] holds None), the alarm output
    is still false, and the log has the warning only. *)
Lemma missing_variable_sets_no_alarm :
  let rt := execute_cycle (PLCRuntime_init (Some reads_missing_variable)) in
  outputs (memory rt) !! "AlarmActive" = Some (Py.VBool false) /\
  internal (memory rt) !! "x" = Some Py.VNone /\
  log rt = [LogVariableNotFound "y"].
Proof. vm_compute. done. Qed.

(** C1, as the code has it. A name that is in none of the three
    mappings evaluates to None, with a warning in the log and no
    exception, and the statement goes on: assigning it to a target that
    is neither an input nor an output stores None in the internal
    mapping, and nothing else of Memory changes. The reference becomes
    an error only where an operator refuses None: [+], [-] and [*] raise
    TypeError, and the assignment they stand in raises with them.

    When a statement of a cycle raises, the statements before it have
    run, the statements after it are skipped (the state the cycle leaves
    does not depend on them), the error is logged and
    Output["AlarmActive"] is set to true. So it is for a cycle that
    reaches an assignment in which an operator refuses the None of a
    missing name. The next cycle runs the statements of the program from
    the first one again. *)
Theorem missing_variable_evaluates_to_none name rt :
  inputs (memory rt) !! name = None ->
  outputs (memory rt) !! name = None ->
  internal (memory rt) !! name = None ->
  let rt1 := with_log (LogVariableNotFound name) rt in
  _evaluate_expression (VariableRef name) rt = (Py.Ok Py.VNone, rt1) /\
  (forall target,
     inputs (memory rt) !! target = None ->
     outputs (memory rt) !! target = None ->
     _execute_statement (Assignment target (VariableRef name)) rt
     = (Py.Ok tt, with_memory (set_internal target Py.VNone) rt1)) /\
  (forall op r b rt2 target,
     op <> OpDiv ->
     _evaluate_expression r rt1 = (Py.Ok b, rt2) ->
     _evaluate_expression (BinaryOp op (VariableRef name) r) rt
     = (Py.Raise Py.TypeError, rt2) /\
     _execute_statement (Assignment target (BinaryOp op (VariableRef name) r)) rt
     = (Py.Raise Py.TypeError, rt2)) /\
  (forall rt0 e rt',
     cycle_body (begin_cycle rt0) = (Py.Raise e, rt') ->
     outputs (memory (execute_cycle rt0)) !! "AlarmActive" = Some (Py.VBool true) /\
     log (execute_cycle rt0) = log rt' ++ [LogCycleError e]) /\
  (forall rt0 p before s after rt_before e rt',
     program rt0 = Some p ->
     statements p = before ++ s :: after ->
     runs_in_order before (enable_snapshot (begin_cycle rt0)) (Py.Ok tt, rt_before) ->
     _execute_statement s rt_before = (Py.Raise e, rt') ->
     execute_cycle rt0
     = with_memory (set_outputs "AlarmActive" (Py.VBool true))
         (with_log (LogCycleError e) rt') /\
     runs_in_order (statements p)
       (enable_snapshot (begin_cycle (execute_cycle rt0)))
       (cycle_body (begin_cycle (execute_cycle rt0)))) /\
  (forall rt0 p before op r b rt2 target after,
     op <> OpDiv ->
     program rt0 = Some p ->
     statements p
     = before ++ Assignment target (BinaryOp op (VariableRef name) r) :: after ->
     runs_in_order before (enable_snapshot (begin_cycle rt0)) (Py.Ok tt, rt) ->
     _evaluate_expression r rt1 = (Py.Ok b, rt2) ->
     execute_cycle rt0
     = with_memory (set_outputs "AlarmActive" (Py.VBool true))
         (with_log (LogCycleError Py.TypeError) rt2)).
Proof.
  intros Hi Ho Hn rt1.
  assert (Hvar : _evaluate_expression (VariableRef name) rt = (Py.Ok Py.VNone, rt1)).
  { simpl. unfold get_value. by rewrite Hi, Ho, Hn. }
  assert (Hop : forall op r b rt2,
            op <> OpDiv ->
            _evaluate_expression r rt1 = (Py.Ok b, rt2) ->
            _evaluate_expression (BinaryOp op (VariableRef name) r) rt
            = (Py.Raise Py.TypeError, rt2)).
  { intros op r b rt2 Hdiv Hr.
    change (_evaluate_expression (BinaryOp op (VariableRef name) r))
      with (bind (_evaluate_expression (VariableRef name)) (fun left =>
              bind (_evaluate_expression r) (fun right =>
                match op with
                | OpAdd => lift (Py.add left right)
                | OpSub => lift (Py.sub left right)
                | OpMul => lift (Py.mul left right)
                | OpDiv =>
                    if Py.ne right (Py.VInt 0) then lift (Py.truediv left right)
                    else ret (Py.VInt 0)
                end))).
    rewrite (bind_ok _ _ _ _ _ Hvar), (bind_ok _ _ _ _ _ Hr).
    by destruct op. }
  assert (Hassign : forall op r b rt2 target,
            op <> OpDiv ->
            _evaluate_expression r rt1 = (Py.Ok b, rt2) ->
            _execute_statement (Assignment target (BinaryOp op (VariableRef name) r)) rt
            = (Py.Raise Py.TypeError, rt2)).
  { intros op r b rt2 target Hdiv Hr.
    change (_execute_statement (Assignment target (BinaryOp op (VariableRef name) r)))
      with (bind (_evaluate_expression (BinaryOp op (VariableRef name) r)) (fun value =>
              bind self (fun rt =>
                if decide (is_Some (outputs (memory rt) !! target)) then
                  set_value target value "output"
                else if decide (is_Some (inputs (memory rt) !! target)) then
                  logger (LogCannotAssignInput target)
                else set_value target value "internal"))).
    by rewrite (bind_raise _ _ _ _ _ (Hop op r b rt2 Hdiv Hr)). }
  assert (Hcycle : forall rt0 p before s after rt_before e rt',
            program rt0 = Some p ->
            statements p = before ++ s :: after ->
            runs_in_order before (enable_snapshot (begin_cycle rt0)) (Py.Ok tt, rt_before) ->
            _execute_statement s rt_before = (Py.Raise e, rt') ->
            execute_cycle rt0
            = with_memory (set_outputs "AlarmActive" (Py.VBool true))
                (with_log (LogCycleError e) rt')).
  { intros rt0 p before s after rt_before e rt' Hp Hstmts Hbefore Hraise.
    apply runs_in_order_unique in Hbefore.
    apply execute_cycle_raise. rewrite cycle_body_dispatch.
    unfold cycle_dispatch. simpl. rewrite Hp, Hstmts.
    assert (Hblock : execute_block _execute_statement (before ++ s :: after)
                       (enable_snapshot (begin_cycle rt0)) = (Py.Raise e, rt')).
    { rewrite execute_block_app. rewrite (bind_ok _ _ _ _ _ Hbefore).
      change (execute_block _execute_statement (s :: after))
        with (_execute_statement s;; execute_block _execute_statement after).
      by rewrite (bind_raise _ _ _ _ _ Hraise). }
    destruct (before ++ s :: after) eqn:E; [by destruct before|exact Hblock]. }
  split; [exact Hvar|]. split; [|split; [|split; [|split]]].
  - intros target Hti Hto.
    change (_execute_statement (Assignment target (VariableRef name)))
      with (bind (_evaluate_expression (VariableRef name)) (fun value =>
              bind self (fun rt =>
                if decide (is_Some (outputs (memory rt) !! target)) then
                  set_value target value "output"
                else if decide (is_Some (inputs (memory rt) !! target)) then
                  logger (LogCannotAssignInput target)
                else set_value target value "internal"))).
    rewrite (bind_ok _ _ _ _ _ Hvar). unfold bind, self. simpl.
    rewrite Hti, Hto.
    rewrite !decide_False by (by intros [? ?]). reflexivity.
  - intros op r b rt2 target Hdiv Hr. split; [by eapply Hop | by eapply Hassign].
  - intros rt0 e rt' Hraise. rewrite (execute_cycle_raise _ _ _ Hraise). simpl.
    split; [apply lookup_insert_eq | done].
  - intros rt0 p before s after rt_before e rt' Hp Hstmts Hbefore Hraise.
    split; [by eapply Hcycle|].
    assert (Hp' : program (execute_cycle rt0) = Some p).
    { destruct (execute_cycle_control rt0) as [-> _]. exact Hp. }
    rewrite cycle_body_dispatch. unfold cycle_dispatch.
    change (program (begin_cycle ?x)) with (program x). rewrite Hp'.
    destruct (statements p) as [|s0 stmts] eqn:E; [by destruct before|].
    apply execute_block_runs_in_order.
  - intros rt0 p before op r b rt2 target after Hdiv Hp Hstmts Hbefore Hr.
    eapply Hcycle; [exact Hp | exact Hstmts | exact Hbefore |].
    by eapply Hassign.
Qed.

(** The program [a := 1; b := y + 1; c := 3;] with [y] undeclared: in
    its first cycle [a] is assigned, the second statement raises
    TypeError on the None of [y], [b] is not created and [c] keeps its
    initial 0.0, the warning and the error are logged and the alarm is
    set. *)
Lemma missing_variable_evaluates_to_none_witness :
  let rt0 := PLCRuntime_init (Some raises_in_the_middle) in
  outputs (memory (execute_cycle rt0)) !! "AlarmActive" = Some (Py.VBool true) /\
  internal (memory (execute_cycle rt0)) !! "a" = Some (Py.VFloat 1) /\
  internal (memory (execute_cycle rt0)) !! "b" = None /\
  internal (memory (execute_cycle rt0)) !! "c" = Some (Py.VFloat 0) /\
  log (execute_cycle rt0) = [LogVariableNotFound "y"; LogCycleError Py.TypeError].
Proof.
  intros rt0.
  destruct (missing_variable_evaluates_to_none "y"
              (snd (_execute_statement (Assignment "a" (Literal (Py.VFloat 1)))
                      (enable_snapshot (begin_cycle rt0))))
              eq_refl eq_refl eq_refl) as (_ & _ & _ & _ & _ & Hchain).
  assert (Hbefore : runs_in_order [Assignment "a" (Literal (Py.VFloat 1))]
                      (enable_snapshot (begin_cycle rt0))
                      (Py.Ok tt,
                       snd (_execute_statement (Assignment "a" (Literal (Py.VFloat 1)))
                              (enable_snapshot (begin_cycle rt0))))).
  { eapply runs_next; [reflexivity | apply runs_nothing]. }
  rewrite (Hchain rt0 raises_in_the_middle
             [Assignment "a" (Literal (Py.VFloat 1))]
             OpAdd (Literal (Py.VFloat 1)) (Py.VFloat 1) _ "b"
             [Assignment "c" (Literal (Py.VFloat 3))]
             ltac:(discriminate) eq_refl eq_refl Hbefore eq_refl).
  repeat split.
Defined.
